(** * BarangayLink: request triage fallbacks and real-time fan-out

    A shallow embedding of [src/services/aiService.js] (rule-based
    fallbacks and the gateway around the external classifier) and of
    [src/utils/socket.js] (room membership and fan-out helpers), with the
    properties the specification states about them. *)

From Stdlib Require Import ZArith QArith Qround List Bool Ascii String Lia.
From Stdlib Require Import DecimalString PrimFloat FloatOps SpecFloat.
From stdpp Require Import gmap strings.
Import ListNotations.

#[local] Set Warnings "-inexact-float,-register-all,-clear-no-such-hyp".
#[local] Open Scope string_scope.

(** ** JavaScript primitives used by the sources *)

Module JS.

(** *** Strings

    Strings are sequences of 8-bit code units; [toLowerCase] acts on the
    ASCII letters, which is what [String.prototype.toLowerCase] does on
    ASCII text. *)

Definition lower_char (c : ascii) : ascii :=
  let n := nat_of_ascii c in
  if (65 <=? n)%nat && (n <=? 90)%nat then ascii_of_nat (n + 32) else c.

Fixpoint toLowerCase (s : string) : string :=
  match s with
  | EmptyString => EmptyString
  | String c s' => String (lower_char c) (toLowerCase s')
  end.

Fixpoint startsWith (s p : string) {struct p} : bool :=
  match p, s with
  | EmptyString, _ => true
  | String a p', String b s' => Ascii.eqb a b && startsWith s' p'
  | String _ _, EmptyString => false
  end.

(** [s.includes(p)]: [p] occurs in [s] at some position. *)
Fixpoint includes (s p : string) : bool :=
  startsWith s p ||
  match s with
  | EmptyString => false
  | String _ s' => includes s' p
  end.

(** [s.split(sep)] for a one-character separator. *)
Fixpoint split (sep : ascii) (s : string) : list string :=
  match s with
  | EmptyString => [EmptyString]
  | String c s' =>
      if Ascii.eqb c sep then EmptyString :: split sep s'
      else match split sep s' with
           | w :: ws => String c w :: ws
           | [] => [String c EmptyString]
           end
  end.

(** Decimal numeral of a natural number, as template literals print it. *)
Definition string_of_nat (n : nat) : string :=
  NilZero.string_of_uint (Nat.to_uint n).

Definition string_of_Z (n : Z) : string :=
  NilZero.string_of_int (Z.to_int n).

(** *** Numbers

    A JavaScript number is an IEEE 754 binary64 value: [float]. *)

Definition number := float.

(** The double nearest to an integer (ties to even). *)
Definition of_Z (n : Z) : number := SF2Prim (binary_normalize prec emax n 0 false).
Definition of_nat (n : nat) : number := of_Z (Z.of_nat n).

(** [Math.min(x, y)]: NaN if either is NaN, and -0 is below +0. *)
Definition Math_min (x y : number) : number :=
  if PrimFloat.is_nan x || PrimFloat.is_nan y then PrimFloat.nan
  else if PrimFloat.ltb x y then x
  else if PrimFloat.ltb y x then y
  else if PrimFloat.get_sign y then y else x.

(** The integer nearest to [m * 2^e * 10^f], the larger one on a tie. *)
Definition scaled_round (m : positive) (e : Z) (f : nat) : Z :=
  let v := (Z.pos m * 10 ^ Z.of_nat f)%Z in
  if (0 <=? e)%Z then (v * 2 ^ e)%Z
  else ((2 * v + 2 ^ (- e)) / (2 * 2 ^ (- e)))%Z.

Fixpoint zeros (k : nat) : string :=
  match k with O => EmptyString | S k' => String "0" (zeros k') end.

(** Digits of [n] with a point before the last [f] of them. *)
Definition fixed_digits (n : Z) (f : nat) : string :=
  let m := string_of_Z n in
  let m := if (String.length m <=? f)%nat
           then zeros (S f - String.length m) ++ m else m in
  match f with
  | O => m
  | _ => let k := String.length m in
         substring 0 (k - f) m ++ "." ++ substring (k - f) f m
  end.

(** [x.toFixed(f)].  For [|x| >= 1e21] JavaScript prints [x] in
    exponent notation; the fixed notation printed here denotes the same
    number. *)
Definition toFixed (x : number) (f : nat) : string :=
  match Prim2SF x with
  | S754_nan => "NaN"
  | S754_infinity false => "Infinity"
  | S754_infinity true => "-Infinity"
  | S754_zero _ => fixed_digits 0 f
  | S754_finite s m e =>
      (if s then "-" else "") ++ fixed_digits (scaled_round m e f) f
  end.

Definition digit_of (c : ascii) : option Z :=
  let n := nat_of_ascii c in
  if (48 <=? n)%nat && (n <=? 57)%nat then Some (Z.of_nat (n - 48)) else None.

(** Longest prefix of decimal digits: its value, how many digits, the rest. *)
Fixpoint read_digits (s : string) (acc : Z) (count : nat) : Z * nat * string :=
  match s with
  | String c s' =>
      match digit_of c with
      | Some d => read_digits s' (10 * acc + d)%Z (S count)
      | None => (acc, count, s)
      end
  | EmptyString => (acc, count, s)
  end.

(** [parseFloat(s)] on a numeral [[-]digits[.digits]] without leading
    blanks: the double nearest to its value (a correctly rounded quotient
    of two exactly represented integers, for numerals of at most 15
    digits); NaN when no digit is read.  Exponent parts and [Infinity]
    are not read. *)
Definition parseFloat (s : string) : number :=
  let '(neg, s) := match s with
                   | String "-" s' => (true, s')
                   | String "+" s' => (false, s')
                   | _ => (false, s)
                   end in
  let '(ip, ni, rest) := read_digits s 0 0 in
  let '(mant, nf) := match rest with
                     | String "." r =>
                         let '(v, n, _) := read_digits r ip 0 in (v, n)
                     | _ => (ip, O)
                     end in
  if (ni + nf =? 0)%nat then PrimFloat.nan
  else
    let v := (of_Z mant / of_Z (10 ^ Z.of_nat nf))%float in
    if neg then (- v)%float else v.

(** Counts of people and supplies are integers; their products and
    quotients are taken exactly, as rationals, and [Math.ceil] rounds a
    rational up to the next integer. *)
Definition Math_ceil (q : Q) : Z := Qceiling q.

(** Durations are integers of milliseconds and their averages exact
    rationals; [Math.floor] rounds a rational down to an integer. *)
Definition Math_floor (q : Q) : Z := Qfloor q.

(** [a > b] on exact numbers. *)
Definition Qgtb (a b : Q) : bool := negb (Qle_bool a b).

(** The double nearest to a quotient of two integers that doubles
    represent. *)
Definition of_Q (q : Q) : number := (of_Z (Qnum q) / of_Z (Z.pos (Qden q)))%float.

(** The double-quote character, for the templates that hold one. *)
Definition quote : string := String (ascii_of_nat 34) EmptyString.

(** Leading white space, which [parseInt] skips. *)
Definition is_white_space (c : ascii) : bool :=
  let n := nat_of_ascii c in
  ((9 <=? n)%nat && (n <=? 13)%nat) || (n =? 32)%nat || (n =? 160)%nat.

Fixpoint trim_start (s : string) : string :=
  match s with
  | String c s' => if is_white_space c then trim_start s' else s
  | EmptyString => s
  end.

Definition hex_digit_of (c : ascii) : option Z :=
  let n := nat_of_ascii c in
  if (48 <=? n)%nat && (n <=? 57)%nat then Some (Z.of_nat (n - 48))
  else if (97 <=? n)%nat && (n <=? 102)%nat then Some (Z.of_nat (n - 87))
  else if (65 <=? n)%nat && (n <=? 70)%nat then Some (Z.of_nat (n - 55))
  else None.

(** Longest prefix of hexadecimal digits: its value and how many. *)
Fixpoint read_hex_digits (s : string) (acc : Z) (count : nat) : Z * nat :=
  match s with
  | String c s' =>
      match hex_digit_of c with
      | Some d => read_hex_digits s' (16 * acc + d)%Z (S count)
      | None => (acc, count)
      end
  | EmptyString => (acc, count)
  end.

(** [parseInt(s)] without a radix: the integer that the longest prefix
    [[blanks][-]digits] or [[blanks][-]0xhexdigits] of [s] denotes, [None]
    for the NaN returned when no digit is read.  Integers are exact here;
    a double is exact up to 2^53. *)
Definition parseInt (s : string) : option Z :=
  let s := trim_start s in
  let '(neg, s) := match s with
                   | String "-" s' => (true, s')
                   | String "+" s' => (false, s')
                   | _ => (false, s)
                   end in
  let '(v, n) :=
    match s with
    | String "0" (String "x" s') | String "0" (String "X" s') => read_hex_digits s' 0 0
    | _ => let '(v, n, _) := read_digits s 0 0 in (v, n)
    end in
  if (n =? 0)%nat then None else Some (if neg then (- v)%Z else v).

(** *** Values, exceptions and the logger *)

Inductive value : Type :=
| Undefined
| Null
| Bool (b : bool)
| Num (x : number)
| Str (s : string)
| Arr (items : list value)
| Obj (fields : list (string * value))
| Native (name : string).   (* a member inherited from Object.prototype *)

Record error := Error { name : string; message : string }.

Inductive completion (A : Type) : Type :=
| Normal (a : A)
| Throw (e : error).
Arguments Normal {A} a.
Arguments Throw {A} e.

Fixpoint assoc {A : Type} (k : string) (l : list (string * A)) : option A :=
  match l with
  | [] => None
  | (k', v) :: l' => if String.eqb k k' then Some v else assoc k l'
  end.

(** The names every plain object inherits from [Object.prototype]. *)
Definition Object_prototype_names : list string :=
  [ "constructor"; "__proto__"; "hasOwnProperty"; "isPrototypeOf";
    "propertyIsEnumerable"; "toLocaleString"; "toString"; "valueOf";
    "__defineGetter__"; "__defineSetter__"; "__lookupGetter__";
    "__lookupSetter__" ].

Definition inherited (k : string) : bool :=
  existsb (String.eqb k) Object_prototype_names.

(** [v.k] for a data field [k]: reading a property of [undefined] or
    [null] throws a [TypeError]; a missing field reads [undefined]. *)
Definition get (v : value) (k : string) : completion value :=
  match v with
  | Undefined =>
      Throw (Error "TypeError"
        ("Cannot read properties of undefined (reading '" ++ k ++ "')"))
  | Null =>
      Throw (Error "TypeError"
        ("Cannot read properties of null (reading '" ++ k ++ "')"))
  | Obj fields =>
      match assoc k fields with
      | Some x => Normal x
      | None => Normal (if inherited k then Native k else Undefined)
      end
  | _ => Normal (if inherited k then Native k else Undefined)
  end.

(** [v.toFixed(f)]: only a number has the method. *)
Definition call_toFixed (v : value) (f : nat) : completion string :=
  match v with
  | Num x => Normal (toFixed x f)
  | Undefined =>
      Throw (Error "TypeError"
        "Cannot read properties of undefined (reading 'toFixed')")
  | Null =>
      Throw (Error "TypeError"
        "Cannot read properties of null (reading 'toFixed')")
  | _ => Throw (Error "TypeError" "aiResult.score.toFixed is not a function")
  end.

Section ToString.
(** The decimal notation of a number and the text of a function are left
    open. *)
Variables (Number_toString : number -> string) (Function_toString : string -> string).

(** [String(v)], which a template applies to the value it prints. *)
Fixpoint ToString (v : value) : string :=
  match v with
  | Undefined => "undefined"
  | Null => "null"
  | Bool true => "true"
  | Bool false => "false"
  | Num x => Number_toString x
  | Str s => s
  | Arr items =>
      String.concat ","
        (map (fun item => match item with
                          | Undefined | Null => EmptyString
                          | _ => ToString item
                          end) items)
  | Obj _ => "[object Object]"
  | Native name => Function_toString name
  end.

End ToString.

Inductive level := Info | Warn | Err | Debug.
Definition log := list (level * string).

(** Computations that may throw, over a state [S]. *)
Definition M (S A : Type) : Type := S -> completion A * S.

Definition ret {S A} (a : A) : M S A := fun s => (Normal a, s).
Definition throw {S A} (e : error) : M S A := fun s => (Throw e, s).
Definition lift {S A} (c : completion A) : M S A := fun s => (c, s).
Definition bind {S A B} (m : M S A) (k : A -> M S B) : M S B :=
  fun s => match m s with
           | (Normal a, s') => k a s'
           | (Throw e, s') => (Throw e, s')
           end.

(** [try { body } catch (error) { handler }] *)
Definition try_catch {S A} (body : M S A) (handler : error -> M S A) : M S A :=
  fun s => match body s with
           | (Normal a, s') => (Normal a, s')
           | (Throw e, s') => handler e s'
           end.

End JS.

Import JS.

Notation "'let!' x ':=' m 'in' k" := (bind m (fun x => k))
  (at level 10, x pattern, m at level 100, k at level 200).

(** ** src/services/aiService.js *)

Module AIService.

Record t := {
  prioritizationUrl : string;
  chatbotUrl : string;
  timeout : Z
}.

(** [process.env.X || fallback]: an unset or empty variable gives the
    fallback. *)
Definition env_or (variable : option string) (fallback : string) : string :=
  match variable with
  | Some (String c s) => String c s
  | _ => fallback
  end.

(** [constructor()], reading the two URLs of the environment. *)
Definition constructor (AI_PRIORITIZATION_URL AI_CHATBOT_URL : option string) : t :=
  {| prioritizationUrl := env_or AI_PRIORITIZATION_URL "http://localhost:5000";
     chatbotUrl := env_or AI_CHATBOT_URL "http://localhost:5001";
     timeout := 5000 |}.

(** *** Fallback rule-based prioritization *)

Inductive Priority := URGENT | HIGH | MEDIUM | LOW.

Definition Priority_name (p : Priority) : string :=
  match p with
  | URGENT => "URGENT" | HIGH => "HIGH" | MEDIUM => "MEDIUM" | LOW => "LOW"
  end.

Record RequestData := {
  title : string;
  description : string;
  category : string;
  location : value;
  historicalContext : value
}.

Record ClassificationResult := {
  priority : Priority;
  score : number;
  reason : string;
  suggestedCategory : string
}.

Definition emergencyKeywords : list string :=
  [ "emergency"; "urgent"; "critical"; "accident"; "fire";
    "flood"; "earthquake"; "blood"; "heart attack"; "stroke";
    "pregnant"; "child"; "baby"; "missing"; "danger";
    "dying"; "emergency room"; "hospital"; "ambulance" ].

Definition highPriorityKeywords : list string :=
  [ "medicine"; "medication"; "sick"; "fever"; "cough";
    "hungry"; "starving"; "food"; "water"; "shelter";
    "homeless"; "evicted"; "no electricity"; "no water" ].

(** The constants [text], [emergencyMatches] and [highPriorityMatches] of
    the body of [fallbackPrioritization]. *)
Definition text (requestData : RequestData) : string :=
  toLowerCase (title requestData ++ " " ++ description requestData).

Definition emergencyMatches (requestData : RequestData) : nat :=
  length (List.filter (fun keyword => includes (text requestData) keyword)
                      emergencyKeywords).

Definition highPriorityMatches (requestData : RequestData) : nat :=
  length (List.filter (fun keyword => includes (text requestData) keyword)
                      highPriorityKeywords).

(** The initial ['MEDIUM'] and [0.5] of the source are overwritten in
    every branch. *)
Definition fallbackPrioritization (requestData : RequestData) : ClassificationResult :=
  let category := category requestData in
  let emergencyMatches := emergencyMatches requestData in
  let highPriorityMatches := highPriorityMatches requestData in
  let '(priority, score) :=
    if (0 <? emergencyMatches)%nat then
      (URGENT, (0.9 + of_nat emergencyMatches * 0.02)%float)
    else if (0 <? highPriorityMatches)%nat
            || String.eqb category "MEDICAL"
            || String.eqb category "EMERGENCY" then
      (HIGH, (0.7 + of_nat highPriorityMatches * 0.05)%float)
    else if String.eqb category "FOOD" then
      (HIGH, 0.75%float)
    else if String.eqb category "EDUCATION" || String.eqb category "LEGAL" then
      (MEDIUM, 0.6%float)
    else
      (LOW, 0.4%float) in
  let reason :=
    if (0 <? emergencyMatches)%nat then
      "Contains " ++ string_of_nat emergencyMatches ++ " emergency keyword(s)"
    else if (0 <? highPriorityMatches)%nat then
      "Contains " ++ string_of_nat highPriorityMatches ++ " high-priority keyword(s)"
    else
      "Category-based priority: " ++ category in
  let score := Math_min score 0.99%float in
  {| priority := priority;
     score := parseFloat (toFixed score 2);
     reason := reason;
     suggestedCategory := category |}.

(** *** Fallback chatbot response *)








(** *** Fallback resource prediction *)

(** What [predictions[disasterType] || defaultPrediction] evaluates to:
    a table of quantities, or, when [disasterType] names a member that
    the [predictions] object inherits, that member. *)
Inductive Prediction :=
| Quantities (table : list (string * Z))
| InheritedMember (name : string).

Record ResourcePrediction := {
  status : string;
  disaster_type : string;
  affected_population : Z;
  predictions : Prediction;
  prediction_timestamp : string;
  note : string
}.

Definition fallbackResourcePrediction (now : string)
    (disasterType : string) (affectedPopulation : Z) : ResourcePrediction :=
  let P := inject_Z affectedPopulation in
  let predictions :=
    [ ("FLOOD",
       [ ("water_liters", Math_ceil (P * 5));
         ("food_rations", Math_ceil (P * 3));
         ("blankets", Math_ceil P);
         ("first_aid_kits", Math_ceil (P / 50));
         ("emergency_kits", Math_ceil (P / 10));
         ("volunteers_needed", Math_ceil (P / 100));
         ("boats", Z.max 1 (Math_ceil (P / 500)));
         ("life_jackets", Math_ceil (P / 2)) ]);
      ("EARTHQUAKE",
       [ ("tents", Math_ceil (P / 5));
         ("first_aid_kits", Math_ceil (P / 20));
         ("rescue_teams", Math_ceil (P / 500));
         ("heavy_equipment", Math_ceil (P / 1000));
         ("volunteers_needed", Math_ceil (P / 50));
         ("blankets", Math_ceil (P * 2));
         ("food_rations", Math_ceil (P * 2));
         ("water_liters", Math_ceil (P * 3)) ]);
      ("FIRE",
       [ ("temporary_shelter", Math_ceil (P / 10));
         ("clothing", Math_ceil P);
         ("food_rations", Math_ceil (P * 2));
         ("counseling_teams", Math_ceil (P / 100));
         ("volunteers_needed", Math_ceil (P / 75));
         ("first_aid_kits", Math_ceil (P / 30));
         ("blankets", Math_ceil P) ]);
      ("TYPHOON",
       [ ("water_liters", Math_ceil (P * 4));
         ("canned_goods", Math_ceil (P * 7));
         ("emergency_kits", Math_ceil P);
         ("generators", Math_ceil (P / 200));
         ("volunteers_needed", Math_ceil (P / 80));
         ("first_aid_kits", Math_ceil (P / 40));
         ("blankets", Math_ceil (P * 1.5)) ]);
      ("MEDICAL",
       [ ("first_aid_kits", Math_ceil (P / 10));
         ("masks", Math_ceil (P * 10));
         ("sanitizer_liters", Math_ceil (P / 5));
         ("volunteers_needed", Math_ceil (P / 50));
         ("ambulance_units", Z.max 1 (Math_ceil (P / 1000))) ]) ]%Q in
  let defaultPrediction :=
    [ ("water_liters", Math_ceil (P * 3));
      ("food_rations", Math_ceil (P * 2));
      ("blankets", Math_ceil P);
      ("first_aid_kits", Math_ceil (P / 30));
      ("volunteers_needed", Math_ceil (P / 100));
      ("emergency_kits", Math_ceil (P / 20)) ]%Q in
  let prediction :=
    match assoc disasterType predictions with
    | Some table => Quantities table
    | None =>
        if inherited disasterType then InheritedMember disasterType
        else Quantities defaultPrediction
    end in
  {| status := "success";
     disaster_type := disasterType;
     affected_population := affectedPopulation;
     predictions := prediction;
     prediction_timestamp := now;
     note := "Fallback prediction based on standard emergency response guidelines" |}.

(** *** The gateway around the external service *)

(** How the promise of [axios.post] settles: rejected with an error
    (network error, timeout, error status), or resolved with a response
    whose [data] is whatever body arrived.  The request body has no part
    in what the operations return and is left out. *)
Inductive http_outcome :=
| Rejected (e : error)
| Resolved (data : value).

Record AxiosResponse := { data : value }.

Definition axios_post (url : string) (outcome : http_outcome) : M log AxiosResponse :=
  match outcome with
  | Rejected e => throw e
  | Resolved body => ret {| data := body |}
  end.

Definition logger_info (msg : string) : M log unit :=
  fun l => (Normal tt, (l ++ [(Info, msg)])%list).
Definition logger_warn (msg : string) : M log unit :=
  fun l => (Normal tt, (l ++ [(Warn, msg)])%list).

(** The objects the fallbacks return, as values. *)
Definition strings (l : list string) : value := Arr (map Str l).

Definition ClassificationResult_value (r : ClassificationResult) : value :=
  Obj [ ("priority", Str (Priority_name (priority r)));
        ("score", Num (score r));
        ("reason", Str (reason r));
        ("suggestedCategory", Str (suggestedCategory r)) ].




Definition prioritizeRequest (this : t) (requestData : RequestData)
    (outcome : http_outcome) : M log value :=
  try_catch
    (let! response := axios_post (prioritizationUrl this ++ "/api/prioritize") outcome in
     let! _ := logger_info ("AI prioritization successful for request: "
                            ++ title requestData) in
     let! priority := lift (get (data response) "priority") in
     let! score := lift (get (data response) "score") in
     let! reason := lift (get (data response) "reason") in
     let! suggested_category := lift (get (data response) "suggested_category") in
     ret (Obj [ ("priority", priority);
                ("score", score);
                ("reason", reason);
                ("suggestedCategory", suggested_category) ]))
    (fun error =>
       let! _ := logger_warn ("AI prioritization failed, using fallback: "
                              ++ message error) in
       ret (ClassificationResult_value (fallbackPrioritization requestData))).



(** *** Trend analysis *)





End AIService.

(** ** src/utils/socket.js *)

Module Socket.

(** [socket.user], set by the authentication middleware. *)
Record User := { id : string; email : string; role : string }.

(** Modelled from the spec: the Session of the Room Registry (socket.io
    keeps it; the library is not part of the sources).  A session has
    its user and the set of rooms it has joined; a room is the derived
    index of the sessions whose memberships contain its key. *)
Record Session := { user : User; roomMemberships : gset string }.

Abbreviation Registry := (gmap string Session).

(** Modelled from the spec: session creation on a successful handshake;
    an id that is already registered is refused ([DuplicateSession]). *)
Definition createSession (sessionId : string) (u : User) (reg : Registry)
    : option Registry :=
  match reg !! sessionId with
  | Some _ => None
  | None => Some (<[sessionId := {| user := u; roomMemberships := ∅ |}]> reg)
  end.

(** Modelled from the spec: [joinRoom], which [socket.join(room)] calls;
    joining a room twice, or for an unknown session, changes nothing. *)
Definition joinRoom (sessionId roomKey : string) (reg : Registry) : Registry :=
  alter (fun s => {| user := user s;
                     roomMemberships := {[roomKey]} ∪ roomMemberships s |})
        sessionId reg.

(** Modelled from the spec: [deregister] removes the session from every
    room and deletes it; a no-op for an absent session. *)
Definition deregister (sessionId : string) (reg : Registry) : Registry :=
  delete sessionId reg.

(** Modelled from the spec: [membersOf], a snapshot of a room's members,
    empty when the room has none. *)
Definition membersOf (roomKey : string) (reg : Registry) : gset string :=
  dom (filter (fun kv => roomKey ∈ roomMemberships kv.2) reg).

Record Delivery := { recipient : string; event_name : string; payload : value }.

(** Modelled from the spec: the Fanout Dispatcher's [emit], one
    delivery to every session in [targets]. *)
Definition fanout (targets : gset string) (eventName : string) (data : value)
    : list Delivery :=
  map (fun sid => {| recipient := sid; event_name := eventName; payload := data |})
      (elements targets).

(** The module's state: the variable [io] (undefined until [init]), what
    the logger recorded, and the deliveries made so far. *)
Record state := {
  io : option Registry;
  logged : log;
  outbox : list Delivery
}.

Definition initial : state := {| io := None; logged := []; outbox := [] |}.

Definition logger (lvl : level) (msg : string) : M state unit :=
  fun st => (Normal tt,
             {| io := io st; logged := (logged st ++ [(lvl, msg)])%list;
                outbox := outbox st |}).

Definition send (ds : list Delivery) : M state unit :=
  fun st => (Normal tt,
             {| io := io st; logged := logged st;
                outbox := (outbox st ++ ds)%list |}).

Definition update_registry (f : Registry -> Registry) : M state unit :=
  fun st => (Normal tt,
             {| io := f <$> io st; logged := logged st; outbox := outbox st |}).

(** [io.to(room).emit(event, data)] *)
Definition io_to_emit (server : Registry) (room eventName : string) (data : value)
    : M state unit :=
  send (fanout (membersOf room server) eventName data).

(** [socket.to(room).emit(event, data)]: every member but the socket itself. *)
Definition socket_to_emit (server : Registry) (sessionId room eventName : string)
    (data : value) : M state unit :=
  send (fanout (membersOf room server ∖ {[sessionId]}) eventName data).

(** [socket.emit(event, data)] *)
Definition socket_emit (sessionId eventName : string) (data : value) : M state unit :=
  send (fanout {[sessionId]} eventName data).

Definition socket_join (sessionId room : string) : M state unit :=
  update_registry (joinRoom sessionId room).

(** [init]: [io = socketIo(server, ...)], a server with no session yet. *)
Definition init : M state unit :=
  fun st => (Normal tt, {| io := Some ∅; logged := logged st; outbox := outbox st |}).

Definition getIO : M state Registry :=
  fun st => match io st with
            | None => (Throw (Error "Error" "Socket.io not initialized"), st)
            | Some server => (Normal server, st)
            end.

(** *** The authentication middleware *)

(** The payload of a verified token, with the fields [authController]
    signs. *)
Record Decoded := {
  decoded_userId : string;
  decoded_email : string;
  decoded_role : string
}.

(** The columns the middleware selects of the [User] table; [isActive]
    may be null. *)
Record UserRow := {
  row_id : string;
  row_email : string;
  row_role : string;
  isVerified : bool;
  isActive : option bool
}.

(** What the middleware calls [next] with: nothing, once [socket.user]
    is set, or an error. *)
Inductive next_argument :=
| Accepted (socket_user : User)
| Refused (e : error).

(** [a || b] on tokens that are strings or absent. *)
Definition or_token (a b : option string) : option string :=
  match a with
  | Some (String _ _) => a
  | _ => b
  end.

(** The function passed to [io.use].  [jwt_verify] is
    [jwt.verify(token, process.env.JWT_SECRET)] and [user_findUnique] how
    the query for the user of an id settles. *)
Definition io_use (jwt_verify : string -> completion Decoded)
    (user_findUnique : string -> completion (option UserRow))
    (auth_token query_token : option string) : M state next_argument :=
  try_catch
    (match or_token auth_token query_token with
     | Some (String c t) =>
         let token := String c t in
         let! decoded := lift (jwt_verify token) in
         let! user := lift (user_findUnique (decoded_userId decoded)) in
         match user with
         | Some row =>
             if negb (isVerified row)
                || match isActive row with Some false => true | _ => false end
             then ret (Refused (Error "Error" "Authentication error: Invalid user"))
             else ret (Accepted {| id := decoded_userId decoded;
                                   email := decoded_email decoded;
                                   role := decoded_role decoded |})
         | None => ret (Refused (Error "Error" "Authentication error: Invalid user"))
         end
     | _ => ret (Refused (Error "Error" "Authentication error: No token provided"))
     end)
    (fun error =>
       let! _ := logger Err ("Socket authentication error: " ++ message error) in
       ret (Refused (Error "Error" "Authentication error: Invalid token"))).

(** The body of [io.on('connection', ...)] up to the handlers it installs. *)
Definition on_connection (sessionId : string) (u : User) : M state unit :=
  let! _ := logger Info ("Socket connected: " ++ sessionId
                         ++ " (User: " ++ email u ++ ")") in
  let! _ := socket_join sessionId ("user-" ++ id u) in
  let! _ := socket_join sessionId (toLowerCase (role u)) in
  if String.eqb (role u) "ADMIN" || String.eqb (role u) "MODERATOR"
  then socket_join sessionId "admins"
  else ret tt.

Definition on_join_request (sessionId : string) (u : User) (requestId : string)
    : M state unit :=
  let! _ := socket_join sessionId ("request-" ++ requestId) in
  logger Debug ("User " ++ email u ++ " joined request room: " ++ requestId).

Definition on_join_chat (sessionId : string) (u : User) (chatId : string)
    : M state unit :=
  let! _ := socket_join sessionId ("chat-" ++ chatId) in
  logger Debug ("User " ++ email u ++ " joined chat room: " ++ chatId).

Record SavedMessage := { content : string; messageType : string; createdAt : string }.

(** [saved] is how [prisma.message.create] settles; [server] is the
    server the handler was installed on, which [io] names. *)
Definition on_private_message (server : Registry) (sessionId : string) (u : User)
    (to : string) (saved : completion SavedMessage) : M state unit :=
  try_catch
    (let! savedMessage := lift saved in
     let! _ := io_to_emit server ("user-" ++ to) "private-message"
                 (Obj [ ("from", Str (id u));
                        ("message", Str (content savedMessage));
                        ("type", Str (messageType savedMessage));
                        ("timestamp", Str (createdAt savedMessage)) ]) in
     logger Info ("Private message sent from " ++ email u ++ " to " ++ to))
    (fun error =>
       let! _ := logger Err ("Error sending private message: " ++ message error) in
       socket_emit sessionId "error" (Obj [("message", Str "Failed to send message")])).

Definition on_typing (server : Registry) (sessionId : string) (u : User)
    (chatId : string) (isTyping : bool) : M state unit :=
  socket_to_emit server sessionId ("chat-" ++ chatId) "user-typing"
    (Obj [ ("userId", Str (id u)); ("isTyping", Bool isTyping) ]).

Definition on_disconnect (sessionId : string) (u : User) : M state unit :=
  logger Info ("Socket disconnected: " ++ sessionId
               ++ " (User: " ++ email u ++ ")").

Definition emitNotification (userId : string) (notification : value) : M state unit :=
  try_catch
    (let! server := getIO in
     let! _ := io_to_emit server ("user-" ++ userId) "notification" notification in
     logger Debug ("Notification emitted to user " ++ userId))
    (fun error => logger Err ("Error emitting notification: " ++ message error)).

Definition broadcastToAdmins (event : string) (data : value) : M state unit :=
  try_catch
    (let! server := getIO in
     let! _ := io_to_emit server "admins" event data in
     logger Debug ("Broadcast to admins: " ++ event))
    (fun error => logger Err ("Error broadcasting to admins: " ++ message error)).

(** [now] is what [new Date()] reads. *)
Definition updateRequestStatus (now : string) (requestId status : string)
    : M state unit :=
  try_catch
    (let! server := getIO in
     let! _ := io_to_emit server ("request-" ++ requestId) "request-status-updated"
                 (Obj [ ("requestId", Str requestId);
                        ("status", Str status);
                        ("updatedAt", Str now) ]) in
     logger Debug ("Request status updated: " ++ requestId ++ " -> " ++ status))
    (fun error => logger Err ("Error updating request status: " ++ message error)).

(** What happens to the module, one event at a time: [init], a socket
    that passed the authentication middleware connecting, the events a
    connected socket sends, its disconnection, and the calls of the three
    exported helpers. *)
Inductive event :=
| Init
| Connection (sessionId : string) (u : User)
| JoinRequest (sessionId requestId : string)
| JoinChat (sessionId chatId : string)
| PrivateMessage (sessionId to : string) (saved : completion SavedMessage)
| Typing (sessionId chatId : string) (isTyping : bool)
| Disconnect (sessionId : string)
| EmitNotification (userId : string) (notification : value)
| BroadcastToAdmins (eventName : string) (data : value)
| UpdateRequestStatus (now requestId status : string).

(** The server and the session of a connected socket. *)
Definition session_of (sessionId : string) (st : state) : option (Registry * Session) :=
  io st ≫= fun server => (fun s => (server, s)) <$> server !! sessionId.

(** An event of a socket reaches the handler installed for it at
    connection; events of sockets that are not connected reach none. *)
Definition with_socket (sessionId : string)
    (handler : Registry -> User -> M state unit) : M state unit :=
  fun st => match session_of sessionId st with
            | Some (server, s) => handler server (user s) st
            | None => (Normal tt, st)
            end.

(** On a connection the session is created and the connection handler
    runs; on a disconnection the session is removed before the handler of
    [disconnect] runs. *)
Definition step (e : event) : M state unit :=
  match e with
  | Init => init
  | Connection sessionId u =>
      fun st =>
        match io st ≫= createSession sessionId u with
        | Some server =>
            on_connection sessionId u
              {| io := Some server; logged := logged st; outbox := outbox st |}
        | None => (Normal tt, st)
        end
  | JoinRequest sessionId requestId =>
      with_socket sessionId (fun _ u => on_join_request sessionId u requestId)
  | JoinChat sessionId chatId =>
      with_socket sessionId (fun _ u => on_join_chat sessionId u chatId)
  | PrivateMessage sessionId to saved =>
      with_socket sessionId (fun server u =>
        on_private_message server sessionId u to saved)
  | Typing sessionId chatId isTyping =>
      with_socket sessionId (fun server u =>
        on_typing server sessionId u chatId isTyping)
  | Disconnect sessionId =>
      with_socket sessionId (fun _ u =>
        let! _ := update_registry (deregister sessionId) in
        on_disconnect sessionId u)
  | EmitNotification userId notification => emitNotification userId notification
  | BroadcastToAdmins eventName data => broadcastToAdmins eventName data
  | UpdateRequestStatus now requestId status => updateRequestStatus now requestId status
  end.

Fixpoint run (events : list event) (st : state) : state :=
  match events with
  | [] => st
  | e :: rest => run rest (step e st).2
  end.

End Socket.

(** ** src/controllers/requestController.js *)

Module RequestController.

(** A row of the [Request] table with the columns the controller reads.
    A date is its number of milliseconds since the epoch, [None] for a
    null column. *)
Module Request.
Record t := {
  id : string;
  userId : string;
  title : string;
  category : string;
  priority : string;
  status : string;
  assignedToId : option string;
  createdAt : option Z;
  updatedAt : option Z
}.
End Request.

(** [new Date(d)] as milliseconds; [new Date(null)] is the epoch. *)
Definition new_Date (d : option Z) : Z :=
  match d with Some t => t | None => 0%Z end.

(** A [Date] object is truthy, [null] is not. *)
Definition present (d : option Z) : bool :=
  match d with Some _ => true | None => false end.

(** *** Helper methods *)

(** [now] is what [new Date()] reads. *)
Definition generateAISuggestions (now : Z) (request : Request.t) : list string :=
  let suggestions := [] in
  let requestAge := (now - new_Date (Request.createdAt request))%Z in
  let hoursOld := (inject_Z requestAge / inject_Z (1000 * 60 * 60))%Q in
  let suggestions :=
    if String.eqb (Request.category request) "MEDICAL" then
      (suggestions ++ [ "Contact local health center";
                        "Check for available medical volunteers";
                        "Verify if emergency transport is needed" ])%list
    else if String.eqb (Request.category request) "FOOD" then
      (suggestions ++ [ "Check community pantry inventory";
                        "Coordinate with local suppliers";
                        "Schedule delivery if needed" ])%list
    else if String.eqb (Request.category request) "EMERGENCY" then
      (suggestions ++ [ "Alert emergency response team";
                        "Check nearby volunteers";
                        "Prepare emergency kit dispatch" ])%list
    else if String.eqb (Request.category request) "INFRASTRUCTURE" then
      (suggestions ++ [ "Schedule site inspection";
                        "Contact barangay engineering team";
                        "Check available materials" ])%list
    else suggestions in
  let suggestions :=
    if String.eqb (Request.priority request) "URGENT" then
      "Handle immediately - Escalate if needed" :: suggestions
    else if String.eqb (Request.priority request) "HIGH" then
      "Handle within 24 hours" :: suggestions
    else suggestions in
  let suggestions :=
    if Qgtb hoursOld 24 then
      (suggestions ++ ["Follow up required - Request pending for over 24 hours"])%list
    else suggestions in
  let suggestions :=
    if Qgtb hoursOld 72 then
      (suggestions ++ ["Critical - Request pending for over 72 hours"])%list
    else suggestions in
  let suggestions :=
    if String.eqb (Request.status request) "IN_PROGRESS" then
      (suggestions ++ ["Check progress with assigned volunteer"])%list
    else suggestions in
  firstn 5 suggestions.

(** The callback of [reduce]: [new Date(req.updatedAt) - new Date(req.createdAt)]. *)
Definition resolutionTime (req : Request.t) : Z :=
  (new_Date (Request.updatedAt req) - new_Date (Request.createdAt req))%Z.

(** [None] is the [null] returned when no request counts. *)
Definition calculateAvgResolution (requests : list Request.t) : option Q :=
  let resolvedRequests :=
    List.filter (fun r => String.eqb (Request.status r) "RESOLVED"
                          && present (Request.createdAt r)
                          && present (Request.updatedAt r))
                requests in
  if (length resolvedRequests =? 0)%nat then None
  else
    let totalTime :=
      fold_left (fun sum req => (sum + resolutionTime req)%Z) resolvedRequests 0%Z in
    Some (inject_Z totalTime / inject_Z (Z.of_nat (length resolvedRequests)))%Q.

(** [milliseconds] is an average of durations, or 0.  Numbers of 21
    digits and more, which a template prints in exponent notation, are
    printed here in full. *)
Definition formatTime (milliseconds : Q) : string :=
  if Qeq_bool milliseconds 0 then "N/A"
  else
    let seconds := Math_floor (milliseconds / 1000) in
    let minutes := Math_floor (inject_Z seconds / 60) in
    let hours := Math_floor (inject_Z minutes / 60) in
    let days := Math_floor (inject_Z hours / 24) in
    if (0 <? days)%Z then
      string_of_Z days ++ "d " ++ string_of_Z (Z.rem hours 24) ++ "h"
    else if (0 <? hours)%Z then
      string_of_Z hours ++ "h " ++ string_of_Z (Z.rem minutes 60) ++ "m"
    else if (0 <? minutes)%Z then
      string_of_Z minutes ++ "m " ++ string_of_Z (Z.rem seconds 60) ++ "s"
    else string_of_Z seconds ++ "s".

(** *** The handlers and the services they call *)

(** What a handler answers with: [res.status(code).json(body)], where
    [res.json(body)] has the status 200, or [next(error)]. *)
Inductive Reply :=
| Json (statusCode : Z) (body : value)
| Next (e : error).

(** The calls a handler makes to the database, to the notification
    service and to the file store: a query for one row with the id it
    asks for, a query for several with its arguments ([include] and
    [select] apart), a write with its data. *)
(** The queries of the transaction of [getRequestStats]: a count, a
    [groupBy] of one column with its count, and the raw query of the
    monthly trend, whose condition on the user is that [userId] is the
    id given, or [1=1] for [None]. *)
Inductive query :=
| Count (where_ : value)
| GroupBy (by_ : string) (where_ : value)
| QueryRaw (condition : option string).

Inductive call :=
| transaction (queries : list query)
| user_findUnique (id : string)
| user_findMany (args : value)
| request_findMany (args : value)
| request_count (where_ : value)
| request_findUnique (id : string)
| request_create (data : value)
| request_update (id : string) (data : value)
| requestUpdate_create (data : value)
| activityLog_create (data : value)
| sendNotification (notification : value)
| uploadToCloudinary (base64 folder : string).

(** How each call settles.  A row of [User] is given by its address,
    which may be null, and the moderators by their ids; an upload gives
    the [secure_url] of its result. *)
Record Services := {
  prisma_user_findUnique : string -> completion (option (option string));
  prisma_user_findMany : value -> completion (list string);
  prisma_request_findMany : value -> completion (list Request.t);
  prisma_request_count : value -> completion Z;
  prisma_request_findUnique : string -> completion (option Request.t);
  prisma_request_create : value -> completion Request.t;
  prisma_request_update : string -> value -> completion Request.t;
  prisma_requestUpdate_create : value -> completion unit;
  prisma_activityLog_create : value -> completion unit;
  notificationService : value -> completion unit;
  fileUpload : string -> string -> completion string
}.

(** What the transaction of [getRequestStats] gives: the count, the
    groups of each column, each with its [_count], and the rows of the
    raw query. *)
Record Stats := {
  total : Z;
  byStatus : list (string * value);
  byCategory : list (string * value);
  byPriority : list (string * value);
  monthlyTrend : value
}.

(** What the handlers act on: the logger, the deliveries of the socket
    server and the calls made so far. *)
Record world := {
  logged : log;
  outbox : list Socket.Delivery;
  calls : list call
}.

Definition logger (lvl : level) (msg : string) : M world unit :=
  fun w => (Normal tt,
            {| logged := (logged w ++ [(lvl, msg)])%list;
               outbox := outbox w; calls := calls w |}).

Definition perform {A : Type} (c : call) (outcome : completion A) : M world A :=
  fun w => (outcome,
            {| logged := logged w; outbox := outbox w;
               calls := (calls w ++ [c])%list |}).

(** A computation of [aiService], which shares the logger. *)
Definition with_logger {A : Type} (m : M log A) : M world A :=
  fun w => let '(r, l) := m (logged w) in
           (r, {| logged := l; outbox := outbox w; calls := calls w |}).

(** [if (req.io) { req.io.to(room).emit(event, data) }] *)
Definition req_io_to_emit (req_io : option Socket.Registry) (room eventName : string)
    (data : value) : M world unit :=
  match req_io with
  | Some server =>
      fun w => (Normal tt,
                {| logged := logged w;
                   outbox := (outbox w ++ Socket.fanout (Socket.membersOf room server)
                                            eventName data)%list;
                   calls := calls w |})
  | None => ret tt
  end.

(** A field of [req.body] is a string or absent; [truthy] is the test
    that [if], [!] and [||] make of it. *)
Definition truthy (x : option string) : bool :=
  match x with
  | Some (String _ _) => true
  | _ => false
  end.

(** An absent field is [undefined]; a null column is [null]. *)
Definition optional (x : option string) : value :=
  match x with Some s => Str s | None => Undefined end.

Definition nullable (x : option string) : value :=
  match x with Some s => Str s | None => Null end.

Definition date (d : option Z) : value :=
  match d with Some t => Num (of_Z t) | None => Null end.

(** [x || user.address], where [user] is the row found, or null. *)
Definition or_address (x : option string) (user : option (option string))
    : completion (option string) :=
  if truthy x then Normal x
  else match user with
       | Some address => Normal address
       | None => Throw (Error "TypeError"
                          "Cannot read properties of null (reading 'address')")
       end.

Record File := { base64 : option string }.

(** The columns of a row, as the fields of an object. *)
Definition Request_fields (request : Request.t) : list (string * value) :=
  [ ("id", Str (Request.id request));
    ("userId", Str (Request.userId request));
    ("title", Str (Request.title request));
    ("category", Str (Request.category request));
    ("priority", Str (Request.priority request));
    ("status", Str (Request.status request));
    ("assignedToId", nullable (Request.assignedToId request));
    ("createdAt", date (Request.createdAt request));
    ("updatedAt", date (Request.updatedAt request)) ].

(** A number of a query, [None] for NaN, as a value. *)
Definition number_of (n : option Z) : value :=
  match n with Some k => Num (of_Z k) | None => Num PrimFloat.nan end.

(** [where.k = v] *)
Fixpoint assign (k : string) (v : value) (fields : list (string * value))
    : list (string * value) :=
  match fields with
  | [] => [(k, v)]
  | (k', v') :: rest =>
      if String.eqb k k' then (k, v) :: rest else (k', v') :: assign k v rest
  end.

(** [contains: search, mode: 'insensitive'] *)
Definition contains_insensitive (search : string) : value :=
  Obj [("contains", Str search); ("mode", Str "insensitive")].

(** [Math.ceil(total / limit)], for a count [total] and the number
    [limit] of a query: NaN for NaN and for 0 / 0, infinite for a count
    above 0 over 0, and else the quotient, taken exactly, rounded up. *)
Definition pages (total : Z) (limit : option Z) : value :=
  match limit with
  | None => Num PrimFloat.nan
  | Some 0%Z =>
      if (total =? 0)%Z then Num PrimFloat.nan
      else if (0 <? total)%Z then Num PrimFloat.infinity
      else Num PrimFloat.neg_infinity
  | Some l => Num (of_Z (Math_ceil (inject_Z total / inject_Z l)))
  end.

(** The handlers are called as methods of the controller: [this] holds
    the helper methods. *)
Section Handlers.
Variables (Number_toString : number -> string) (Function_toString : string -> string).
Variables (prisma : Services) (aiService : AIService.t).

(** The loop over [files] that uploads those with a [base64]. *)
Fixpoint upload (folder : string) (files : list File) (uploadedFiles : list string)
    : M world (list string) :=
  match files with
  | [] => ret uploadedFiles
  | file :: rest =>
      match base64 file with
      | Some (String c b) =>
          let! secure_url := perform (uploadToCloudinary (String c b) folder)
                                     (fileUpload prisma (String c b) folder) in
          upload folder rest (uploadedFiles ++ [secure_url])%list
      | _ => upload folder rest uploadedFiles
      end
  end.

(** The loop that notifies the moderators of a new request. *)
Fixpoint notify (moderators : list string) (notification : string -> value)
    : M world unit :=
  match moderators with
  | [] => ret tt
  | moderator :: rest =>
      let! _ := perform (sendNotification (notification moderator))
                        (notificationService prisma (notification moderator)) in
      notify rest notification
  end.

(** [outcome] is how the request of [aiService] to the classifier
    settles, [req_io] the socket server of the request if it has one and
    [userId] the id of [req.user]; the other arguments are the fields of
    [req.body]. *)
Definition createRequest (outcome : AIService.http_outcome)
    (req_io : option Socket.Registry) (userId : string)
    (title description category location address : option string)
    (files : list File) : M world Reply :=
  try_catch
    (match title, description, category with
     | Some (String t0 t), Some (String d0 d), Some (String c0 c) =>
         let title := String t0 t in
         let description := String d0 d in
         let category := String c0 c in
         let! user := perform (user_findUnique userId)
                              (prisma_user_findUnique prisma userId) in
         let args :=
           Obj [ ("where", Obj [("userId", Str userId)]);
                 ("take", Num (of_Z 10));
                 ("orderBy", Obj [("createdAt", Str "desc")]) ] in
         let! userRequests := perform (request_findMany args)
                                      (prisma_request_findMany prisma args) in
         let! location_ := lift (or_address location user) in
         let! aiResult :=
           with_logger
             (AIService.prioritizeRequest aiService
                {| AIService.title := title;
                   AIService.description := description;
                   AIService.category := category;
                   AIService.location := nullable location_;
                   AIService.historicalContext :=
                     Obj [ ("total_requests", Num (of_nat (length userRequests)));
                           ("recent_category",
                            match userRequests with
                            | r :: _ => Str (Request.category r)
                            | [] => Undefined
                            end);
                           ("avg_resolution_time",
                            match calculateAvgResolution userRequests with
                            | Some avg => Num (of_Q avg)
                            | None => Null
                            end) ] |}
                outcome) in
         let! uploadedFiles := upload "requests" files [] in
         let! priority := lift (get aiResult "priority") in
         let! score := lift (get aiResult "score") in
         let! address_ := lift (or_address address user) in
         let data :=
           Obj [ ("title", Str title);
                 ("description", Str description);
                 ("category", Str category);
                 ("priority", priority);
                 ("aiPriorityScore", score);
                 ("location", nullable location_);
                 ("address", nullable address_);
                 ("files", AIService.strings uploadedFiles);
                 ("userId", Str userId);
                 ("status", Str "PENDING") ] in
         let! request := perform (request_create data)
                                 (prisma_request_create prisma data) in
         let! fixed := lift (call_toFixed score 2) in
         let data :=
           Obj [ ("requestId", Str (Request.id request));
                 ("description",
                  Str ("Request created. AI Priority: "
                       ++ ToString Number_toString Function_toString priority
                       ++ " (Score: " ++ fixed ++ ")"));
                 ("status", Str "PENDING");
                 ("createdById", Str userId) ] in
         let! _ := perform (requestUpdate_create data)
                           (prisma_requestUpdate_create prisma data) in
         let args :=
           Obj [ ("where",
                  Obj [ ("role", Obj [("in", AIService.strings ["MODERATOR"; "ADMIN"])]);
                        ("isVerified", Bool true) ]) ] in
         let! moderators := perform (user_findMany args)
                                    (prisma_user_findMany prisma args) in
         let! _ :=
           notify moderators (fun moderator =>
             Obj [ ("userId", Str moderator);
                   ("type", Str "REQUEST_UPDATE");
                   ("title", Str "New Request Needs Attention");
                   ("message", Str ("New " ++ category ++ " request: " ++ title));
                   ("link", Str ("/requests/" ++ Request.id request));
                   ("metadata",
                    Obj [ ("requestId", Str (Request.id request));
                          ("priority", priority);
                          ("category", Str category) ]) ]) in
         let data :=
           Obj [ ("userId", Str userId);
                 ("action", Str "CREATE_REQUEST");
                 ("entityType", Str "REQUEST");
                 ("entityId", Str (Request.id request));
                 ("details",
                  Obj [ ("title", Str title);
                        ("category", Str category);
                        ("aiPriority", priority);
                        ("aiScore", score) ]) ] in
         let! _ := perform (activityLog_create data)
                           (prisma_activityLog_create prisma data) in
         let! _ :=
           req_io_to_emit req_io "admins" "new-request"
             (Obj [ ("requestId", Str (Request.id request));
                    ("title", Str (Request.title request));
                    ("category", Str (Request.category request));
                    ("priority", Str (Request.priority request));
                    ("createdAt", date (Request.createdAt request)) ]) in
         let! _ := logger Info ("Request created: " ++ Request.id request
                                ++ " by user: " ++ userId) in
         let! reason := lift (get aiResult "reason") in
         ret (Json 201
                (Obj [ ("success", Bool true);
                       ("message", Str "Request submitted successfully");
                       ("data",
                        Obj (Request_fields request
                             ++ [("aiAnalysis",
                                  Obj [ ("priority", priority);
                                        ("score", score);
                                        ("reason", reason) ])])%list) ]))
     | _, _, _ =>
         ret (Json 400
                (Obj [ ("success", Bool false);
                       ("message",
                        Str "Title, description, and category are required") ]))
     end)
    (fun error =>
       let! _ := logger Err ("Create request error: " ++ message error) in
       ret (Next error)).

(** [now] is what [new Date()] reads; [currentUserId] and [userRole] are
    those of [req.user]; the other arguments are the fields of
    [req.query], each a string or absent. *)
Definition getRequests (now : Z) (currentUserId userRole : string)
    (page limit category status priority sortBy sortOrder search
       filterUserId assignedToId : option string) : M world Reply :=
  try_catch
    (let page := match page with Some s => parseInt s | None => Some 1%Z end in
     let limit := match limit with Some s => parseInt s | None => Some 20%Z end in
     let sortBy := match sortBy with Some s => s | None => "createdAt" end in
     let sortOrder := match sortOrder with Some s => s | None => "desc" end in
     let skip := match page, limit with
                 | Some p, Some l => Some ((p - 1) * l)%Z
                 | _, _ => None
                 end in
     let where_ := [] in
     let where_ :=
       if String.eqb userRole "MEMBER" || String.eqb userRole "VOLUNTEER"
       then assign "userId" (Str currentUserId) where_ else where_ in
     let where_ :=
       if truthy filterUserId
          && (String.eqb userRole "ADMIN" || String.eqb userRole "MODERATOR")
       then assign "userId" (optional filterUserId) where_ else where_ in
     let where_ :=
       if truthy category then assign "category" (optional category) where_
       else where_ in
     let where_ :=
       if truthy status then assign "status" (optional status) where_ else where_ in
     let where_ :=
       if truthy priority then assign "priority" (optional priority) where_
       else where_ in
     let where_ :=
       if truthy assignedToId
       then assign "assignedToId" (optional assignedToId) where_ else where_ in
     let where_ :=
       match search with
       | Some (String c s) =>
           let search := String c s in
           assign "OR"
             (Arr [ Obj [("title", contains_insensitive search)];
                    Obj [("description", contains_insensitive search)];
                    Obj [("address", contains_insensitive search)] ])
             where_
       | _ => where_
       end in
     let! total := perform (request_count (Obj where_))
                           (prisma_request_count prisma (Obj where_)) in
     let args :=
       Obj [ ("where", Obj where_);
             ("orderBy", Obj [(sortBy, Str sortOrder)]);
             ("skip", number_of skip);
             ("take", number_of limit) ] in
     let! requests := perform (request_findMany args)
                              (prisma_request_findMany prisma args) in
     let enhancedRequests :=
       if String.eqb userRole "ADMIN" || String.eqb userRole "MODERATOR"
       then map (fun request =>
                   Obj (Request_fields request
                        ++ [("aiSuggestions",
                             AIService.strings (generateAISuggestions now request))])%list)
                requests
       else map (fun request => Obj (Request_fields request)) requests in
     let! _ := logger Info ("Retrieved " ++ string_of_nat (length requests)
                            ++ " requests for user: " ++ currentUserId) in
     ret (Json 200
            (Obj [ ("success", Bool true);
                   ("data",
                    Obj [ ("requests", Arr enhancedRequests);
                          ("pagination",
                           Obj [ ("page", number_of page);
                                 ("limit", number_of limit);
                                 ("total", Num (of_Z total));
                                 ("pages", pages total limit) ]) ]) ])))
    (fun error =>
       let! _ := logger Err ("Get requests error: " ++ message error) in
       ret (Next error)).

(** [id] is [req.params.id]; [userId] and [userRole] are those of
    [req.user]. *)
Definition getRequest (id userId userRole : string) : M world Reply :=
  try_catch
    (let! request := perform (request_findUnique id)
                             (prisma_request_findUnique prisma id) in
     match request with
     | None =>
         ret (Json 404 (Obj [ ("success", Bool false);
                              ("message", Str "Request not found") ]))
     | Some request =>
         if String.eqb userRole "MEMBER"
            && negb (String.eqb (Request.userId request) userId)
         then ret (Json 403 (Obj [ ("success", Bool false);
                                   ("message",
                                    Str "Not authorized to view this request") ]))
         else
           let! _ := logger Info ("Request retrieved: " ++ id
                                  ++ " by user: " ++ userId) in
           ret (Json 200 (Obj [ ("success", Bool true);
                                ("data", Obj (Request_fields request)) ]))
     end)
    (fun error =>
       let! _ := logger Err ("Get request error: " ++ message error) in
       ret (Next error)).

(** [now] is what [new Date()] reads; [status], [description], [files]
    and [assignedToId] are the fields of [req.body]. *)
Definition updateRequest (now : Z) (req_io : option Socket.Registry)
    (id userId userRole : string)
    (status description assignedToId : option string) (files : list File)
    : M world Reply :=
  try_catch
    (let! request := perform (request_findUnique id)
                             (prisma_request_findUnique prisma id) in
     match request with
     | None =>
         ret (Json 404 (Obj [ ("success", Bool false);
                              ("message", Str "Request not found") ]))
     | Some request =>
         if String.eqb userRole "MEMBER"
            && negb (String.eqb (Request.userId request) userId)
         then ret (Json 403 (Obj [ ("success", Bool false);
                                   ("message",
                                    Str "Not authorized to update this request") ]))
         else
           let updateData :=
             Obj ((if truthy status then [("status", optional status)] else [])
                  ++ (if truthy assignedToId
                      then [("assignedToId", optional assignedToId)] else []))%list in
           let! updatedRequest := perform (request_update id updateData)
                                          (prisma_request_update prisma id updateData) in
           let status_or_old :=
             if truthy status then optional status
             else Str (Request.status request) in
           let! _ :=
             if truthy description then
               let! uploadedFiles := upload "request-updates" files [] in
               let data :=
                 Obj [ ("requestId", Str id);
                       ("description", optional description);
                       ("status", status_or_old);
                       ("createdById", Str userId);
                       ("files", AIService.strings uploadedFiles) ] in
               perform (requestUpdate_create data)
                       (prisma_requestUpdate_create prisma data)
             else ret tt in
           let! _ :=
             match status with
             | Some (String s0 s) =>
                 let status := String s0 s in
                 if negb (String.eqb status (Request.status request)) then
                   let notification :=
                     Obj [ ("userId", Str (Request.userId request));
                           ("type", Str "REQUEST_UPDATE");
                           ("title", Str ("Request Status Updated: " ++ status));
                           ("message",
                            Str ("Your request " ++ quote ++ Request.title request
                                 ++ quote ++ " is now " ++ status));
                           ("link", Str ("/requests/" ++ id));
                           ("metadata",
                            Obj [ ("requestId", Str id);
                                  ("oldStatus", Str (Request.status request));
                                  ("newStatus", Str status) ]) ] in
                   perform (sendNotification notification)
                           (notificationService prisma notification)
                 else ret tt
             | _ => ret tt
             end in
           let! _ :=
             match assignedToId with
             | Some (String a0 a) =>
                 let assignedToId := String a0 a in
                 if match Request.assignedToId request with
                    | Some old => negb (String.eqb assignedToId old)
                    | None => true
                    end
                 then
                   let notification :=
                     Obj [ ("userId", Str assignedToId);
                           ("type", Str "VOLUNTEER_ASSIGNMENT");
                           ("title", Str "New Assignment");
                           ("message",
                            Str ("You've been assigned to request: "
                                 ++ Request.title request));
                           ("link", Str ("/requests/" ++ id));
                           ("metadata", Obj [("requestId", Str id)]) ] in
                   perform (sendNotification notification)
                           (notificationService prisma notification)
                 else ret tt
             | _ => ret tt
             end in
           let data :=
             Obj [ ("userId", Str userId);
                   ("action", Str "UPDATE_REQUEST");
                   ("entityType", Str "REQUEST");
                   ("entityId", Str id);
                   ("details",
                    Obj [ ("oldStatus", Str (Request.status request));
                          ("newStatus", optional status);
                          ("assignedToId", optional assignedToId) ]) ] in
           let! _ := perform (activityLog_create data)
                             (prisma_activityLog_create prisma data) in
           let! _ :=
             req_io_to_emit req_io ("request-" ++ id) "request-updated"
               (Obj [ ("requestId", Str id);
                      ("status", status_or_old);
                      ("updatedAt", Num (of_Z now)) ]) in
           let! _ := logger Info ("Request updated: " ++ id
                                  ++ " by user: " ++ userId) in
           ret (Json 200 (Obj [ ("success", Bool true);
                                ("message", Str "Request updated successfully");
                                ("data", Obj (Request_fields updatedRequest)) ]))
     end)
    (fun error =>
       let! _ := logger Err ("Update request error: " ++ message error) in
       ret (Next error)).

Definition deleteRequest (id userId userRole : string) : M world Reply :=
  try_catch
    (let! request := perform (request_findUnique id)
                             (prisma_request_findUnique prisma id) in
     match request with
     | None =>
         ret (Json 404 (Obj [ ("success", Bool false);
                              ("message", Str "Request not found") ]))
     | Some request =>
         if String.eqb userRole "MEMBER"
            && negb (String.eqb (Request.userId request) userId)
         then ret (Json 403 (Obj [ ("success", Bool false);
                                   ("message",
                                    Str "Not authorized to delete this request") ]))
         else
           let data := Obj [("status", Str "CANCELLED")] in
           let! _ := perform (request_update id data)
                             (prisma_request_update prisma id data) in
           let data :=
             Obj [ ("requestId", Str id);
                   ("description", Str "Request cancelled by user");
                   ("status", Str "CANCELLED");
                   ("createdById", Str userId) ] in
           let! _ := perform (requestUpdate_create data)
                             (prisma_requestUpdate_create prisma data) in
           let data :=
             Obj [ ("userId", Str userId);
                   ("action", Str "DELETE_REQUEST");
                   ("entityType", Str "REQUEST");
                   ("entityId", Str id) ] in
           let! _ := perform (activityLog_create data)
                             (prisma_activityLog_create prisma data) in
           let! _ := logger Info ("Request cancelled: " ++ id
                                  ++ " by user: " ++ userId) in
           ret (Json 200 (Obj [ ("success", Bool true);
                                ("message", Str "Request cancelled successfully") ]))
     end)
    (fun error =>
       let! _ := logger Err ("Delete request error: " ++ message error) in
       ret (Next error)).

(** [stats] is how the transaction settles; [userId] and [userRole] are
    those of [req.user]. *)
Definition getRequestStats (stats : completion Stats) (userId userRole : string)
    : M world Reply :=
  try_catch
    (let where_ := [] in
     let where_ :=
       if String.eqb userRole "MEMBER" || String.eqb userRole "VOLUNTEER"
       then assign "userId" (Str userId) where_ else where_ in
     let condition :=
       match assoc "userId" where_ with
       | Some (Str (String _ _)) => Some userId
       | _ => None
       end in
     let! stats :=
       perform (transaction [ Count (Obj where_);
                              GroupBy "status" (Obj where_);
                              GroupBy "category" (Obj where_);
                              GroupBy "priority" (Obj where_);
                              QueryRaw condition ])
               stats in
     let args :=
       Obj [ ("where",
              Obj (where_ ++ [ ("status", Str "RESOLVED");
                               ("createdAt", Obj [("not", Null)]);
                               ("updatedAt", Obj [("not", Null)]) ])%list) ] in
     let! resolvedRequests := perform (request_findMany args)
                                      (prisma_request_findMany prisma args) in
     let avgResolutionTime :=
       if (0 <? length resolvedRequests)%nat then
         let totalTime :=
           fold_left (fun sum req => (sum + resolutionTime req)%Z)
                     resolvedRequests 0%Z in
         (inject_Z totalTime / inject_Z (Z.of_nat (length resolvedRequests)))%Q
       else 0%Q in
     let! _ := logger Info ("Request stats retrieved for user: " ++ userId) in
     ret (Json 200
            (Obj [ ("success", Bool true);
                   ("data",
                    Obj [ ("total", Num (of_Z (total stats)));
                          ("byStatus",
                           Arr (map (fun s => Obj [("status", Str (fst s));
                                                   ("count", snd s)])
                                    (byStatus stats)));
                          ("byCategory",
                           Arr (map (fun c => Obj [("category", Str (fst c));
                                                   ("count", snd c)])
                                    (byCategory stats)));
                          ("byPriority",
                           Arr (map (fun p => Obj [("priority", Str (fst p));
                                                   ("count", snd p)])
                                    (byPriority stats)));
                          ("monthlyTrend", monthlyTrend stats);
                          ("avgResolutionTime", Str (formatTime avgResolutionTime)) ]) ])))
    (fun error =>
       let! _ := logger Err ("Get request stats error: " ++ message error) in
       ret (Next error)).

End Handlers.

End RequestController.


(** ** src/middleware/auth.js *)

Module Auth.

(** [req.user], set by the middleware. *)
Record User := { userId : string; email : string; role : string }.

(** What a middleware does with a request: it answers with
    [res.status(code).json(body)], or it calls [next()], with [req.user]
    as it is then, [None] for undefined. *)
Inductive Outcome :=
| Json (statusCode : Z) (body : value)
| Next (req_user : option User).

(** [res.status(code).json({ success: false, message })] *)
Definition refuse (statusCode : Z) (message : string) : Outcome :=
  Json statusCode (Obj [("success", Bool false); ("message", Str message)]).

Definition logger (lvl : level) (msg : string) : M log unit :=
  fun l => (Normal tt, (l ++ [(lvl, msg)])%list).

(** [authHeader.split(' ')[1]], [None] for undefined. *)
Definition token_of (authHeader : string) : option string :=
  nth_error (split " " authHeader) 1.

(** [jwt_verify] is [jwt.verify(token, process.env.JWT_SECRET)] and
    [user_findUnique] how the query for the user of an id settles;
    [authorization] is [req.headers.authorization]. *)
Definition authMiddleware (jwt_verify : string -> completion Socket.Decoded)
    (user_findUnique : string -> completion (option Socket.UserRow))
    (authorization : option string) : M log Outcome :=
  try_catch
    (match authorization with
     | Some (String c h) =>
         let authHeader := String c h in
         if negb (startsWith authHeader "Bearer ")
         then ret (refuse 401 "No token provided or invalid format")
         else
           match token_of authHeader with
           | Some (String t0 t) =>
               let token := String t0 t in
               let! verified :=
                 try_catch
                   (let! decoded := lift (jwt_verify token) in ret (inr decoded))
                   (fun error =>
                      if String.eqb (name error) "TokenExpiredError"
                      then ret (inl (refuse 401 "Token expired"))
                      else if String.eqb (name error) "JsonWebTokenError"
                      then ret (inl (refuse 401 "Invalid token"))
                      else throw error) in
               match verified with
               | inl answer => ret answer
               | inr decoded =>
                   let! user := lift (user_findUnique (Socket.decoded_userId decoded)) in
                   match user with
                   | None => ret (refuse 401 "User not found")
                   | Some row =>
                       if negb (Socket.isVerified row)
                       then ret (refuse 403 "Please verify your email first")
                       else
                         match Socket.isActive row with
                         | Some false => ret (refuse 403 "Account is deactivated")
                         | _ =>
                             let req_user :=
                               {| userId := Socket.decoded_userId decoded;
                                  email := Socket.decoded_email decoded;
                                  role := Socket.decoded_role decoded |} in
                             let! _ :=
                               logger Debug
                                 ("User authenticated: " ++ Socket.decoded_email decoded
                                  ++ " (" ++ Socket.decoded_role decoded ++ ")") in
                             ret (Next (Some req_user))
                         end
                   end
               end
           | _ => ret (refuse 401 "No token provided")
           end
     | _ => ret (refuse 401 "No token provided or invalid format")
     end)
    (fun error =>
       let! _ := logger Err ("Authentication error: " ++ message error) in
       ret (refuse 500 "Authentication failed")).

(** The middleware that [authorize(...roles)] returns; [req_user] is
    [req.user] as the request comes. *)
Definition authorize (roles : list string) (req_user : option User) : Outcome :=
  match req_user with
  | None => refuse 401 "Authentication required"
  | Some user =>
      if negb (existsb (String.eqb (role user)) roles)
      then refuse 403 "Insufficient permissions"
      else Next req_user
  end.

(** The query of [optionalAuth] does not select [isActive].  A header
    that starts with [Bearer ] has a second word; for undefined
    [jwt.verify] throws. *)
Definition optionalAuth (jwt_verify : string -> completion Socket.Decoded)
    (user_findUnique : string -> completion (option Socket.UserRow))
    (authorization : option string) (req_user : option User) : M log Outcome :=
  try_catch
    (let! req_user :=
       match authorization with
       | Some (String c h) =>
           let authHeader := String c h in
           if startsWith authHeader "Bearer " then
             let token := token_of authHeader in
             try_catch
               (let! decoded :=
                  match token with
                  | Some token => lift (jwt_verify token)
                  | None => throw (Error "JsonWebTokenError" "jwt must be provided")
                  end in
                let! user := lift (user_findUnique (Socket.decoded_userId decoded)) in
                match user with
                | Some row =>
                    if Socket.isVerified row
                    then ret (Some {| userId := Socket.decoded_userId decoded;
                                      email := Socket.decoded_email decoded;
                                      role := Socket.decoded_role decoded |})
                    else ret req_user
                | None => ret req_user
                end)
               (fun error =>
                  let! _ := logger Debug ("Optional auth token invalid: "
                                          ++ message error) in
                  ret req_user)
           else ret req_user
       | _ => ret req_user
       end in
     ret (Next req_user))
    (fun error =>
       let! _ := logger Err ("Optional auth error: " ++ message error) in
       ret (Next req_user)).

End Auth.

Import AIService Socket.

(** * Vocabulary of the statements *)

(** ** Scores *)

(** The double written [n/100] in decimal, as a source literal denotes it:
    [hundredths 94] is [0.94]. *)
Definition hundredths (n : Z) : number := (of_Z n / of_Z 100)%float.


(** The priority ordering of the specification, URGENT highest. *)
Definition rank (p : Priority) : nat :=
  match p with URGENT => 3 | HIGH => 2 | MEDIUM => 1 | LOW => 0 end.

(** The categories that a rule of the classifier names. *)
Definition ruled_categories : list string :=
  ["MEDICAL"; "EMERGENCY"; "FOOD"; "EDUCATION"; "LEGAL"].

(** The number of hundredths [n] of the score of a result of priority [p]. *)
Definition scored (rd : RequestData) (p : Priority) (n : Z) : Prop :=
  let k := Z.of_nat (emergencyMatches rd) in
  let N := Z.of_nat (highPriorityMatches rd) in
  match p with
  | URGENT => (0 < k)%Z /\ n = Z.min 99 (90 + 2 * k)
  | HIGH => n = Z.min 99 (70 + 5 * N) \/ (N = 0%Z /\ n = 75%Z)
  | MEDIUM => n = 60%Z
  | LOW => n = 40%Z
  end.

Definition upto (n : nat) : list Z := map Z.of_nat (seq 0 n).

(** The second rule as the specification words it, reason included. *)
Definition high_rule_as_stated (rd : RequestData) : Prop :=
  let r := fallbackPrioritization rd in
  let N := highPriorityMatches rd in
  emergencyMatches rd = 0%nat ->
  (0 < N)%nat \/ category rd = "MEDICAL" \/ category rd = "EMERGENCY" ->
  priority r = HIGH
  /\ score r = hundredths (Z.min 99 (70 + 5 * Z.of_nat N))
  /\ reason r = "Contains " ++ string_of_nat N ++ " high-priority keyword(s)".

(** The ordering of scores as the specification states it. *)
Definition score_follows_priority_as_stated (x y : RequestData) : Prop :=
  let rx := fallbackPrioritization x in
  let ry := fallbackPrioritization y in
  (rank (priority ry) < rank (priority rx))%nat ->
  PrimFloat.leb (score ry) (score rx) = true.

(** Requests used as examples. *)
Definition request (t d c : string) : RequestData :=
  {| title := t; description := d; category := c;
     location := Undefined; historicalContext := Undefined |}.

Definition fire_request : RequestData :=
  request "There is a fire emergency" "need help now" "OTHER".
Definition checkup_request : RequestData :=
  request "Checkup" "routine visit next week" "MEDICAL".
Definition small_fire_request : RequestData :=
  request "Kitchen fire" "it is already out" "OTHER".
Definition sick_request : RequestData :=
  request "Need medicine" "sick with fever and cough, hungry" "OTHER".

(** ** Replies and tables *)


(** [a / d] rounded up to the next integer. *)
Definition round_up (a d : Z) : Z := ((a + d - 1) / d)%Z.

(** The guideline tables as the specification lists them, for a
    population [P]. *)
Definition guideline_table (disasterType : string) (P : Z) : list (string * Z) :=
  if String.eqb disasterType "FLOOD" then
    [ ("water_liters", 5 * P); ("food_rations", 3 * P); ("blankets", P);
      ("first_aid_kits", round_up P 50); ("emergency_kits", round_up P 10);
      ("volunteers_needed", round_up P 100);
      ("boats", Z.max 1 (round_up P 500)); ("life_jackets", round_up P 2) ]%Z
  else if String.eqb disasterType "EARTHQUAKE" then
    [ ("tents", round_up P 5); ("first_aid_kits", round_up P 20);
      ("rescue_teams", round_up P 500); ("heavy_equipment", round_up P 1000);
      ("volunteers_needed", round_up P 50); ("blankets", 2 * P);
      ("food_rations", 2 * P); ("water_liters", 3 * P) ]%Z
  else if String.eqb disasterType "FIRE" then
    [ ("temporary_shelter", round_up P 10); ("clothing", P);
      ("food_rations", 2 * P); ("counseling_teams", round_up P 100);
      ("volunteers_needed", round_up P 75); ("first_aid_kits", round_up P 30);
      ("blankets", P) ]%Z
  else if String.eqb disasterType "TYPHOON" then
    [ ("water_liters", 4 * P); ("canned_goods", 7 * P); ("emergency_kits", P);
      ("generators", round_up P 200); ("volunteers_needed", round_up P 80);
      ("first_aid_kits", round_up P 40); ("blankets", round_up (3 * P) 2) ]%Z
  else if String.eqb disasterType "MEDICAL" then
    [ ("first_aid_kits", round_up P 10); ("masks", 10 * P);
      ("sanitizer_liters", round_up P 5); ("volunteers_needed", round_up P 50);
      ("ambulance_units", Z.max 1 (round_up P 1000)) ]%Z
  else
    [ ("water_liters", 3 * P); ("food_rations", 2 * P); ("blankets", P);
      ("first_aid_kits", round_up P 30); ("volunteers_needed", round_up P 100);
      ("emergency_kits", round_up P 20) ]%Z.

(** ** The gateway *)






Definition service : AIService.t := constructor None None.

(** A response that arrives (status 200) with an HTML page for a body. *)
Definition html_response : http_outcome :=
  Resolved (Str "<html>Service unavailable</html>").

(** A response without a body to read fields from. *)
Definition no_body (data : value) : Prop := data = Undefined \/ data = Null.

(** ** Rooms *)

Definition is_admin_role (r : string) : Prop := r = "ADMIN" \/ r = "MODERATOR".

(** The rooms the handlers can put the session of user [u] in. *)
Definition joinable (u : User) (room : string) : Prop :=
  room = "user-" ++ id u
  \/ room = toLowerCase (role u)
  \/ (room = "admins" /\ is_admin_role (role u))
  \/ (exists requestId, room = "request-" ++ requestId)
  \/ (exists chatId, room = "chat-" ++ chatId).

(** What holds of a session from its connection to its disconnection. *)
Definition session_ok (s : Session) : Prop :=
  "user-" ++ id (user s) ∈ roomMemberships s
  /\ toLowerCase (role (user s)) ∈ roomMemberships s
  /\ (is_admin_role (role (user s)) -> "admins" ∈ roomMemberships s)
  /\ (forall room, room ∈ roomMemberships s -> joinable (user s) room).

Definition registry_ok (reg : Registry) : Prop :=
  forall sid s, reg !! sid = Some s -> session_ok s.

Definition server_ok (server : option Registry) : Prop :=
  forall reg, server = Some reg -> registry_ok reg.

(** The registry after a connection: the new session with the rooms its
    handler joins, or the registry as it was when the id is taken. *)
Definition connect (sessionId : string) (u : User) (reg : Registry) : Registry :=
  match createSession sessionId u reg with
  | Some created =>
      let joined := joinRoom sessionId (toLowerCase (role u))
                      (joinRoom sessionId ("user-" ++ id u) created) in
      if String.eqb (role u) "ADMIN" || String.eqb (role u) "MODERATOR"
      then joinRoom sessionId "admins" joined
      else joined
  | None => reg
  end.

(** The registry after an event, from the registry before it. *)
Definition step_registry (e : event) (server : option Registry) : option Registry :=
  match e with
  | Init => Some ∅
  | Connection sessionId u => connect sessionId u <$> server
  | JoinRequest sessionId requestId =>
      joinRoom sessionId ("request-" ++ requestId) <$> server
  | JoinChat sessionId chatId => joinRoom sessionId ("chat-" ++ chatId) <$> server
  | Disconnect sessionId => deregister sessionId <$> server
  | _ => server
  end.

Definition with_log (st : state) (lvl : level) (msg : string) : state :=
  {| io := io st; logged := (logged st ++ [(lvl, msg)])%list; outbox := outbox st |}.

Definition admin_user : User :=
  {| id := "u1"; email := "admin@barangay.ph"; role := "ADMIN" |}.
Definition member_user : User :=
  {| id := "u2"; email := "member@barangay.ph"; role := "MEMBER" |}.

Definition chat_trace : list event :=
  [ Init; Connection "s1" admin_user; Connection "s2" member_user;
    JoinChat "s1" "42"; JoinChat "s2" "42" ].

(** ** Sessions and deliveries *)

(** The socket [sessionId] is connected. *)
Definition connected (sessionId : string) (st : state) : Prop :=
  exists reg s, io st = Some reg /\ reg !! sessionId = Some s.

(** The sessions [io.to(`user-${userId}`)] addresses: those of the user,
    and those of a role whose lower-cased name is the key of the room. *)
Definition addressed_as (userId : string) (s : Session) : Prop :=
  id (user s) = userId \/ toLowerCase (role (user s)) = "user-" ++ userId.

Definition private_message_data (from : string) (m : SavedMessage) : value :=
  Obj [ ("from", Str from); ("message", Str (content m));
        ("type", Str (messageType m)); ("timestamp", Str (createdAt m)) ].

Definition delivery (sid eventName : string) (data : value) : Delivery :=
  {| recipient := sid; event_name := eventName; payload := data |}.

(** The session [sessionId] is a member of [room]. *)
Definition in_room (sessionId room : string) (st : state) : Prop :=
  exists reg, io st = Some reg /\ sessionId ∈ membersOf room reg.

Definition status_update (now requestId newStatus : string) : value :=
  Obj [ ("requestId", Str requestId); ("status", Str newStatus);
        ("updatedAt", Str now) ].

Definition a_message : SavedMessage :=
  {| content := "Kumusta?"; messageType := "text";
     createdAt := "2024-01-01T00:00:00.000Z" |}.

(** The user that the middleware sets from the payload of a token. *)
Definition user_of_token (decoded : Decoded) : User :=
  {| id := decoded_userId decoded; email := decoded_email decoded;
     role := decoded_role decoded |}.

(** The errors the middleware refuses a socket with. *)
Definition refusals : list error :=
  [ Error "Error" "Authentication error: No token provided";
    Error "Error" "Authentication error: Invalid user";
    Error "Error" "Authentication error: Invalid token" ].

(** A token signed when the user was an administrator, and the row of
    the user since. *)
Definition old_token (token : string) : completion Decoded :=
  if String.eqb token "signed-last-week" then
    Normal {| decoded_userId := "u7"; decoded_email := "ana@barangay.ph";
              decoded_role := "ADMIN" |}
  else Throw (Error "JsonWebTokenError" "invalid signature").

Definition demoted_user (userId : string) : completion (option UserRow) :=
  if String.eqb userId "u7" then
    Normal (Some {| row_id := "u7"; row_email := "ana@barangay.ph";
                    row_role := "MEMBER"; isVerified := true;
                    isActive := Some true |})
  else Normal None.

Definition demoted_admin : User :=
  {| id := "u7"; email := "ana@barangay.ph"; role := "ADMIN" |}.

(** ** Requests *)

(** The requests that [calculateAvgResolution] counts. *)
Definition counted (r : RequestController.Request.t) : bool :=
  String.eqb (RequestController.Request.status r) "RESOLVED"
  && RequestController.present (RequestController.Request.createdAt r)
  && RequestController.present (RequestController.Request.updatedAt r).

(** The categories and the priorities that [generateAISuggestions] has
    suggestions for. *)
Definition ruled (category : string) : Prop :=
  category = "MEDICAL" \/ category = "FOOD"
  \/ category = "EMERGENCY" \/ category = "INFRASTRUCTURE".

Definition escalated (priority : string) : Prop :=
  priority = "URGENT" \/ priority = "HIGH".

(** The request was created more than [h] hours before [now]. *)
Definition older_than (h now : Z) (r : RequestController.Request.t) : Prop :=
  (h * 3600000 < now - RequestController.new_Date (RequestController.Request.createdAt r))%Z.

Definition resolved_request (created updated : Z) : RequestController.Request.t :=
  {| RequestController.Request.id := "r"; RequestController.Request.userId := "u";
     RequestController.Request.title := "Leaking pipe";
     RequestController.Request.category := "INFRASTRUCTURE";
     RequestController.Request.priority := "LOW";
     RequestController.Request.status := "RESOLVED";
     RequestController.Request.assignedToId := None;
     RequestController.Request.createdAt := Some created;
     RequestController.Request.updatedAt := Some updated |}.

(** ** Durations *)

(** What [formatTime] prints: the two largest units of a duration. *)
Inductive Shown :=
| Seconds (s : Z)
| MinutesSeconds (m s : Z)
| HoursMinutes (h m : Z)
| DaysHours (d h : Z).

Definition print (x : Shown) : string :=
  match x with
  | Seconds s => string_of_Z s ++ "s"
  | MinutesSeconds m s => string_of_Z m ++ "m " ++ string_of_Z s ++ "s"
  | HoursMinutes h m => string_of_Z h ++ "h " ++ string_of_Z m ++ "m"
  | DaysHours d h => string_of_Z d ++ "d " ++ string_of_Z h ++ "h"
  end.

(** The fields in their ranges, the larger one not zero. *)
Definition in_range (x : Shown) : Prop :=
  match x with
  | Seconds s => (0 <= s < 60)%Z
  | MinutesSeconds m s => (0 < m < 60 /\ 0 <= s < 60)%Z
  | HoursMinutes h m => (0 < h < 24 /\ 0 <= m < 60)%Z
  | DaysHours d h => (0 < d /\ 0 <= h < 24)%Z
  end.

(** The milliseconds that [x] denotes, and those of one unit of its
    smaller field. *)
Definition shown_ms (x : Shown) : Z :=
  match x with
  | Seconds s => s * 1000
  | MinutesSeconds m s => (m * 60 + s) * 1000
  | HoursMinutes h m => (h * 60 + m) * 60000
  | DaysHours d h => (d * 24 + h) * 3600000
  end%Z.

Definition unit_ms (x : Shown) : Z :=
  match x with
  | Seconds _ | MinutesSeconds _ _ => 1000
  | HoursMinutes _ _ => 60000
  | DaysHours _ _ => 3600000
  end%Z.

(** ** Handlers *)

(** The status a handler answers with, if it answers. *)
Definition status_of (answer : completion RequestController.Reply) : option Z :=
  match answer with
  | Normal (RequestController.Json statusCode _) => Some statusCode
  | _ => None
  end.

(** The world after more calls, and nothing else. *)
Definition called (w : RequestController.world) (cs : list RequestController.call)
    : RequestController.world :=
  {| RequestController.logged := RequestController.logged w;
     RequestController.outbox := RequestController.outbox w;
     RequestController.calls := (RequestController.calls w ++ cs)%list |}.

(** The calls that cancel a request and record the cancellation. *)
Definition cancellation (id : string) : RequestController.call :=
  RequestController.request_update id (Obj [("status", Str "CANCELLED")]).

Definition cancellation_record (id userId : string) : value :=
  Obj [ ("requestId", Str id);
        ("description", Str "Request cancelled by user");
        ("status", Str "CANCELLED");
        ("createdById", Str userId) ].

Definition cancellation_log (id userId : string) : value :=
  Obj [ ("userId", Str userId);
        ("action", Str "DELETE_REQUEST");
        ("entityType", Str "REQUEST");
        ("entityId", Str id) ].

(** The request is not one of the user, who is a MEMBER. *)
Definition foreign_to_member (userId userRole : string)
    (request : RequestController.Request.t) : Prop :=
  userRole = "MEMBER" /\ RequestController.Request.userId request <> userId.

(** Every write, notification and upload settles, and so does every
    query for several rows. *)
Definition reliable (sv : RequestController.Services) : Prop :=
  (forall args, exists ids, RequestController.prisma_user_findMany sv args = Normal ids)
  /\ (forall args, exists rows,
        RequestController.prisma_request_findMany sv args = Normal rows)
  /\ (forall data, exists row, RequestController.prisma_request_create sv data = Normal row)
  /\ (forall id data, exists row,
        RequestController.prisma_request_update sv id data = Normal row)
  /\ (forall data, RequestController.prisma_requestUpdate_create sv data = Normal tt)
  /\ (forall data, RequestController.prisma_activityLog_create sv data = Normal tt)
  /\ (forall notification, RequestController.notificationService sv notification = Normal tt)
  /\ (forall base64 folder, exists secure_url,
        RequestController.fileUpload sv base64 folder = Normal secure_url).



(** The uploads of the files that have a [base64]. *)
Definition uploads (folder : string) (files : list RequestController.File)
    : list RequestController.call :=
  flat_map (fun file => match RequestController.base64 file with
                        | Some (String c b) =>
                            [RequestController.uploadToCloudinary (String c b) folder]
                        | _ => []
                        end) files.



(** The world after the logger has recorded a line. *)
Definition noted (w : RequestController.world) (lvl : level) (msg : string)
    : RequestController.world :=
  {| RequestController.logged := (RequestController.logged w ++ [(lvl, msg)])%list;
     RequestController.outbox := RequestController.outbox w;
     RequestController.calls := RequestController.calls w |}.

(** The query for the last requests of a user. *)
Definition requests_of (userId : string) : RequestController.call :=
  RequestController.request_findMany
    (Obj [ ("where", Obj [("userId", Str userId)]);
           ("take", Num (of_Z 10));
           ("orderBy", Obj [("createdAt", Str "desc")]) ]).





(** Whatever [m] returns satisfies [P]. *)
Definition returns {S A : Type} (P : A -> Prop) (m : M S A) : Prop :=
  forall s a, (m s).1 = Normal a -> P a.

(** A reply that is neither a refusal nor a miss, and a reply to a
    request that was complete. *)
Definition went_through (r : RequestController.Reply) : Prop :=
  (exists body, r = RequestController.Json 200 body)
  \/ (exists e, r = RequestController.Next e).

Definition created_or_failed (r : RequestController.Reply) : Prop :=
  (exists body, r = RequestController.Json 201 body)
  \/ (exists e, r = RequestController.Next e).

(** Examples: a request of user u1, services that answer every call,
    and the same services without the activity log. *)
Definition a_request : RequestController.Request.t :=
  {| RequestController.Request.id := "r1";
     RequestController.Request.userId := "u1";
     RequestController.Request.title := "Leaking pipe";
     RequestController.Request.category := "INFRASTRUCTURE";
     RequestController.Request.priority := "LOW";
     RequestController.Request.status := "PENDING";
     RequestController.Request.assignedToId := None;
     RequestController.Request.createdAt := Some 1700000000000%Z;
     RequestController.Request.updatedAt := Some 1700000000000%Z |}.

Definition steady_services : RequestController.Services :=
  {| RequestController.prisma_user_findUnique := fun _ => Normal (Some (Some "Purok 3"));
     RequestController.prisma_user_findMany := fun _ => Normal ["u8"; "u9"];
     RequestController.prisma_request_findMany := fun _ => Normal [];
     RequestController.prisma_request_count := fun _ => Normal 0%Z;
     RequestController.prisma_request_findUnique :=
       fun id => Normal (if String.eqb id "r1" then Some a_request else None);
     RequestController.prisma_request_create := fun _ => Normal a_request;
     RequestController.prisma_request_update := fun _ _ => Normal a_request;
     RequestController.prisma_requestUpdate_create := fun _ => Normal tt;
     RequestController.prisma_activityLog_create := fun _ => Normal tt;
     RequestController.notificationService := fun _ => Normal tt;
     RequestController.fileUpload := fun _ _ => Normal "https://files.example/1" |}.

Definition connection_lost : error := Error "PrismaClientKnownRequestError" "connection lost".

Definition without_activity_log : RequestController.Services :=
  {| RequestController.prisma_user_findUnique := fun _ => Normal (Some (Some "Purok 3"));
     RequestController.prisma_user_findMany := fun _ => Normal ["u8"; "u9"];
     RequestController.prisma_request_findMany := fun _ => Normal [];
     RequestController.prisma_request_count := fun _ => Normal 0%Z;
     RequestController.prisma_request_findUnique :=
       fun id => Normal (if String.eqb id "r1" then Some a_request else None);
     RequestController.prisma_request_create := fun _ => Normal a_request;
     RequestController.prisma_request_update := fun _ _ => Normal a_request;
     RequestController.prisma_requestUpdate_create := fun _ => Normal tt;
     RequestController.prisma_activityLog_create := fun _ => Throw connection_lost;
     RequestController.notificationService := fun _ => Normal tt;
     RequestController.fileUpload := fun _ _ => Normal "https://files.example/1" |}.

Definition untouched : RequestController.world :=
  {| RequestController.logged := []; RequestController.outbox := [];
     RequestController.calls := [] |}.

(** Numbers and functions are printed by no template of the examples. *)
Definition no_text {A : Type} (_ : A) : string := EmptyString.

(** The roles that the controller knows. *)
Definition ordinary (userRole : string) : Prop :=
  userRole = "MEMBER" \/ userRole = "VOLUNTEER".

Definition privileged (userRole : string) : Prop :=
  userRole = "ADMIN" \/ userRole = "MODERATOR".




(** ** Statistics *)

(** Services that answer every call and find [rows] for every query of
    requests. *)
Definition finding (rows : list RequestController.Request.t)
    : RequestController.Services :=
  {| RequestController.prisma_user_findUnique := fun _ => Normal (Some (Some "Purok 3"));
     RequestController.prisma_user_findMany := fun _ => Normal ["u8"; "u9"];
     RequestController.prisma_request_findMany := fun _ => Normal rows;
     RequestController.prisma_request_count := fun _ => Normal (Z.of_nat (length rows));
     RequestController.prisma_request_findUnique := fun _ => Normal (Some a_request);
     RequestController.prisma_request_create := fun _ => Normal a_request;
     RequestController.prisma_request_update := fun _ _ => Normal a_request;
     RequestController.prisma_requestUpdate_create := fun _ => Normal tt;
     RequestController.prisma_activityLog_create := fun _ => Normal tt;
     RequestController.notificationService := fun _ => Normal tt;
     RequestController.fileUpload := fun _ _ => Normal "https://files.example/1" |}.

(** What the transaction gives for two resolved requests. *)
Definition some_stats : RequestController.Stats :=
  {| RequestController.total := 2;
     RequestController.byStatus := [("RESOLVED", Num (of_Z 2))];
     RequestController.byCategory := [("INFRASTRUCTURE", Num (of_Z 2))];
     RequestController.byPriority := [("LOW", Num (of_Z 2))];
     RequestController.monthlyTrend := Arr [] |}.

(** ** Authentication *)

(** The user that a token stands for in a request. *)
Definition request_user (decoded : Socket.Decoded) : Auth.User :=
  {| Auth.userId := Socket.decoded_userId decoded;
     Auth.email := Socket.decoded_email decoded;
     Auth.role := Socket.decoded_role decoded |}.

(** The user of a request and the user of a socket are the same. *)
Definition same_user (u : Auth.User) (v : Socket.User) : Prop :=
  Auth.userId u = Socket.id v /\ Auth.email u = Socket.email v
  /\ Auth.role u = Socket.role v.

(** A token without a blank, as a signed token is. *)
Definition spaceless (token : string) : Prop := includes token " " = false.

(** Two states of the [User] table in which every user has the same
    standing: found or not, verified or not, active or not.  The other
    columns may differ. *)
Definition same_standing (t t' : string -> completion (option Socket.UserRow)) : Prop :=
  forall id,
    match t id, t' id with
    | Normal (Some row), Normal (Some row') =>
        Socket.isVerified row = Socket.isVerified row'
        /\ Socket.isActive row = Socket.isActive row'
    | Normal None, Normal None => True
    | Throw e, Throw e' => e = e'
    | _, _ => False
    end.

(** The user of the token [signed-last-week], and the table of users
    before the user was demoted. *)
Definition demoted_requester : Auth.User :=
  {| Auth.userId := "u7"; Auth.email := "ana@barangay.ph"; Auth.role := "ADMIN" |}.

Definition user_before (userId : string) : completion (option UserRow) :=
  if String.eqb userId "u7" then
    Normal (Some {| row_id := "u7"; row_email := "ana@barangay.ph";
                    row_role := "ADMIN"; isVerified := true;
                    isActive := Some true |})
  else Normal None.

(** * Properties *)

(** Case analysis on a count below a literal bound. *)
Ltac count_cases k tac :=
  repeat first [ exfalso; lia | destruct k as [|k]; [tac|] ].

(** ** Strings *)




(** ** Two-decimal numbers *)

Lemma hundredths_round_trip (n : Z) :
  (0 <= n <= 99)%Z ->
  toFixed (hundredths n) 2 = fixed_digits n 2 /\
  parseFloat (fixed_digits n 2) = hundredths n.
Proof.
  intros Hn. rewrite <- (Z2Nat.id n) by lia.
  assert (Hm : (Z.to_nat n <= 99)%nat) by lia.
  clear Hn. revert Hm. generalize (Z.to_nat n). clear n. intros m Hm.
  count_cases m ltac:(vm_compute; split; reflexivity).
Qed.

Lemma In_upto (n : nat) (z : Z) : (0 <= z < Z.of_nat n)%Z -> In z (upto n).
Proof.
  intros Hz. unfold upto. apply in_map_iff. exists (Z.to_nat z).
  split; [lia|]. apply in_seq. lia.
Qed.

Lemma hundredths_le (a b : Z) :
  (0 <= a)%Z -> (a <= b)%Z -> (b <= 99)%Z ->
  PrimFloat.leb (hundredths a) (hundredths b) = true.
Proof.
  intros Ha Hab Hb.
  assert (Hall : forallb (fun x => forallb (fun y =>
            implb (x <=? y)%Z (PrimFloat.leb (hundredths x) (hundredths y)))
            (upto 100)) (upto 100) = true) by (vm_compute; reflexivity).
  rewrite forallb_forall in Hall.
  specialize (Hall a (In_upto 100 a ltac:(lia))).
  rewrite forallb_forall in Hall.
  specialize (Hall b (In_upto 100 b ltac:(lia))).
  apply Z.leb_le in Hab. rewrite Hab in Hall. exact Hall.
Qed.


Lemma hundredths_cap : hundredths 99 = 0.99%float.
Proof. reflexivity. Qed.


(** ** The fallback classifier, rule by rule *)

Lemma emergencyMatches_le (rd : RequestData) : (emergencyMatches rd <= 19)%nat.
Proof.
  unfold emergencyMatches.
  rewrite (List.filter_length_le _ emergencyKeywords). reflexivity.
Qed.

Lemma highPriorityMatches_le (rd : RequestData) : (highPriorityMatches rd <= 14)%nat.
Proof.
  unfold highPriorityMatches.
  rewrite (List.filter_length_le _ highPriorityKeywords). reflexivity.
Qed.

Lemma urgent_result (rd : RequestData) :
  let k := emergencyMatches rd in
  (0 < k)%nat ->
  fallbackPrioritization rd =
    {| priority := URGENT;
       score := hundredths (Z.min 99 (90 + 2 * Z.of_nat k));
       reason := "Contains " ++ string_of_nat k ++ " emergency keyword(s)";
       suggestedCategory := category rd |}.
Proof.
  intros k Hk. pose proof (emergencyMatches_le rd) as Hb.
  unfold fallbackPrioritization. fold k in Hb |- *. clearbody k.
  generalize (highPriorityMatches rd) (category rd). intros N c.
  destruct k as [|k]; [lia|].
  count_cases k ltac:(vm_compute; reflexivity).
Qed.

Lemma high_result (rd : RequestData) :
  let N := highPriorityMatches rd in
  emergencyMatches rd = 0%nat ->
  (0 < N)%nat \/ category rd = "MEDICAL" \/ category rd = "EMERGENCY" ->
  fallbackPrioritization rd =
    {| priority := HIGH;
       score := hundredths (Z.min 99 (70 + 5 * Z.of_nat N));
       reason := if (0 <? N)%nat
                 then "Contains " ++ string_of_nat N ++ " high-priority keyword(s)"
                 else "Category-based priority: " ++ category rd;
       suggestedCategory := category rd |}.
Proof.
  intros N Hk Hrule. pose proof (highPriorityMatches_le rd) as Hb.
  unfold fallbackPrioritization. rewrite Hk. fold N in Hb |- *. clearbody N.
  revert Hrule. generalize (category rd). intros c Hrule.
  destruct N as [|N].
  - destruct Hrule as [H | [-> | ->]]; [lia | vm_compute; reflexivity ..].
  - clear Hrule. count_cases N ltac:(vm_compute; reflexivity).
Qed.

Lemma food_result (rd : RequestData) :
  emergencyMatches rd = 0%nat -> highPriorityMatches rd = 0%nat ->
  category rd = "FOOD" ->
  fallbackPrioritization rd =
    {| priority := HIGH; score := hundredths 75;
       reason := "Category-based priority: FOOD";
       suggestedCategory := "FOOD" |}.
Proof.
  intros Hk HN Hc. unfold fallbackPrioritization. rewrite Hk, HN, Hc.
  vm_compute. reflexivity.
Qed.

Lemma medium_result (rd : RequestData) :
  emergencyMatches rd = 0%nat -> highPriorityMatches rd = 0%nat ->
  category rd = "EDUCATION" \/ category rd = "LEGAL" ->
  fallbackPrioritization rd =
    {| priority := MEDIUM; score := hundredths 60;
       reason := "Category-based priority: " ++ category rd;
       suggestedCategory := category rd |}.
Proof.
  intros Hk HN Hc. unfold fallbackPrioritization. rewrite Hk, HN.
  destruct Hc as [-> | ->]; vm_compute; reflexivity.
Qed.

Lemma low_result (rd : RequestData) :
  emergencyMatches rd = 0%nat -> highPriorityMatches rd = 0%nat ->
  ~ In (category rd) ruled_categories ->
  fallbackPrioritization rd =
    {| priority := LOW; score := hundredths 40;
       reason := "Category-based priority: " ++ category rd;
       suggestedCategory := category rd |}.
Proof.
  intros Hk HN Hc. unfold fallbackPrioritization. rewrite Hk, HN.
  revert Hc. generalize (category rd). intros c Hc.
  assert (Hne : forall x, In x ruled_categories -> String.eqb c x = false).
  { intros x Hx. apply String.eqb_neq. intros ->. contradiction. }
  cbn [Nat.ltb Nat.leb orb].
  rewrite !Hne by (cbn; tauto).
  vm_compute. reflexivity.
Qed.

(** The five rules cover every category. *)
Lemma category_cases (c : string) :
  c = "MEDICAL" \/ c = "EMERGENCY" \/ c = "FOOD" \/ c = "EDUCATION" \/ c = "LEGAL"
  \/ ~ In c ruled_categories.
Proof.
  destruct (String.eqb_spec c "MEDICAL"); [tauto|].
  destruct (String.eqb_spec c "EMERGENCY"); [tauto|].
  destruct (String.eqb_spec c "FOOD"); [tauto|].
  destruct (String.eqb_spec c "EDUCATION"); [tauto|].
  destruct (String.eqb_spec c "LEGAL"); [tauto|].
  do 5 right. cbn. intuition congruence.
Qed.

(** Every result has a score of [n] hundredths, [n] fixed by its priority
    and the keyword counts. *)
Lemma classified (rd : RequestData) :
  exists n : Z,
    score (fallbackPrioritization rd) = hundredths n /\
    scored rd (priority (fallbackPrioritization rd)) n.
Proof.
  destruct (Nat.eq_dec (emergencyMatches rd) 0) as [Hk|Hk].
  - destruct (Nat.eq_dec (highPriorityMatches rd) 0) as [HN|HN].
    + destruct (category_cases (category rd))
        as [Hc | [Hc | [Hc | [Hc | [Hc | Hc]]]]];
        [ rewrite high_result by tauto
        | rewrite high_result by tauto
        | rewrite food_result by tauto
        | rewrite medium_result by tauto
        | rewrite medium_result by tauto
        | rewrite low_result by tauto ];
        cbn [score priority]; unfold scored; eexists; (split; [reflexivity|]); lia.
    + rewrite high_result by (auto; left; lia).
      cbn [score priority]. unfold scored. eexists; split; [reflexivity|]. lia.
  - rewrite urgent_result by lia.
    cbn [score priority]. unfold scored. eexists; split; [reflexivity|]. lia.
Qed.


Lemma scored_bounds (rd : RequestData) (p : Priority) (n : Z) :
  scored rd p n -> (40 <= n <= 99)%Z.
Proof. destruct p; unfold scored; lia. Qed.

(** ** The fallback classifier *)




(** A MEDICAL request without any keyword is HIGH, but its reason names
    the category: the stated reason is not the one returned. *)
Lemma medical_request_without_keywords :
  emergencyMatches checkup_request = 0%nat
  /\ highPriorityMatches checkup_request = 0%nat
  /\ priority (fallbackPrioritization checkup_request) = HIGH
  /\ reason (fallbackPrioritization checkup_request)
     = "Category-based priority: MEDICAL"
  /\ ~ high_rule_as_stated checkup_request.
Proof.
  repeat split; try reflexivity.
  intros H. destruct H as (_ & _ & Hreason); [reflexivity | right; left; reflexivity |].
  vm_compute in Hreason. discriminate Hreason.
Qed.

(** C4, amended. With no emergency keyword, N high-priority keywords and
    N > 0 or a MEDICAL or EMERGENCY category, the result is HIGH with
    score min(0.99, 0.70 + 0.05 N); its reason is "Contains N
    high-priority keyword(s)" when N > 0 and "Category-based priority:
    <category>" when N = 0. *)
Theorem high_priority_rule (rd : RequestData) :
  let r := fallbackPrioritization rd in
  let N := highPriorityMatches rd in
  emergencyMatches rd = 0%nat ->
  (0 < N)%nat \/ category rd = "MEDICAL" \/ category rd = "EMERGENCY" ->
  priority r = HIGH
  /\ score r = hundredths (Z.min 99 (70 + 5 * Z.of_nat N))
  /\ toFixed (score r) 2 = fixed_digits (Z.min 99 (70 + 5 * Z.of_nat N)) 2
  /\ ((0 < N)%nat ->
      reason r = "Contains " ++ string_of_nat N ++ " high-priority keyword(s)")
  /\ (N = 0%nat -> reason r = "Category-based priority: " ++ category rd).
Proof.
  intros r N Hk Hrule. subst r. rewrite high_result by assumption.
  fold N. cbn [priority score reason]. repeat split.
  - apply hundredths_round_trip. lia.
  - intros HN. apply Nat.ltb_lt in HN. now rewrite HN.
  - intros HN. now rewrite HN.
Qed.

(** Five high-priority keywords and no emergency keyword: HIGH, 0.95. *)
Lemma sick_request_is_high :
  priority (fallbackPrioritization sick_request) = HIGH
  /\ score (fallbackPrioritization sick_request) = 0.95%float
  /\ toFixed (score (fallbackPrioritization sick_request)) 2 = "0.95"
  /\ reason (fallbackPrioritization sick_request)
     = "Contains 5 high-priority keyword(s)".
Proof.
  assert (Hk : emergencyMatches sick_request = 0%nat) by reflexivity.
  assert (HN : (0 < highPriorityMatches sick_request)%nat) by (vm_compute; lia).
  destruct (high_priority_rule sick_request Hk (or_introl HN))
    as (Hp & Hs & Hf & Hr & _).
  split; [exact Hp|]. split; [exact Hs|]. split; [exact Hf | exact (Hr HN)].
Defined.

(** An URGENT request with one emergency keyword scores 0.92, below a
    HIGH request with five high-priority keywords, at 0.95. *)
Lemma urgent_can_score_below_high :
  priority (fallbackPrioritization small_fire_request) = URGENT
  /\ score (fallbackPrioritization small_fire_request) = 0.92%float
  /\ priority (fallbackPrioritization sick_request) = HIGH
  /\ score (fallbackPrioritization sick_request) = 0.95%float
  /\ ~ score_follows_priority_as_stated small_fire_request sick_request.
Proof.
  repeat split; try reflexivity.
  intros H. assert (Hlt : (rank HIGH < rank URGENT)%nat) by (cbn; lia).
  apply H in Hlt. vm_compute in Hlt. discriminate Hlt.
Qed.

(** C5, amended. Every score is at most 0.99, and if the result for x has
    a strictly higher priority than the result for y, then its score is
    at least that of y, unless x is URGENT with k < 5 emergency keywords
    and y is HIGH with N high-priority keywords where 0.70 + 0.05 N
    exceeds 0.90 + 0.02 k. *)
Theorem score_follows_priority (x y : RequestData) :
  let rx := fallbackPrioritization x in
  let ry := fallbackPrioritization y in
  let k := emergencyMatches x in
  let N := highPriorityMatches y in
  (rank (priority ry) < rank (priority rx))%nat ->
  (priority rx = URGENT -> priority ry = HIGH ->
   (5 * N <= 20 + 2 * k)%nat \/ (5 <= k)%nat) ->
  PrimFloat.leb (score ry) (score rx) = true
  /\ PrimFloat.leb (score rx) 0.99 = true
  /\ PrimFloat.leb (score ry) 0.99 = true.
Proof.
  intros rx ry k N Hrank Hside.
  destruct (classified x) as (nx & Hx & Sx).
  destruct (classified y) as (ny & Hy & Sy).
  fold rx in Hx, Sx. fold ry in Hy, Sy.
  pose proof (scored_bounds _ _ _ Sx) as Bx.
  pose proof (scored_bounds _ _ _ Sy) as By.
  rewrite Hx, Hy, <- hundredths_cap.
  repeat split; try (apply hundredths_le; lia).
  apply hundredths_le; try lia.
  destruct (priority rx), (priority ry); cbn in Hrank; try lia;
    unfold scored in Sx, Sy; try lia.
  specialize (Hside eq_refl eq_refl). fold k in Sx. fold N in Sy. lia.
Qed.

(** An URGENT request against a HIGH one without keywords: 0.94 and 0.70. *)
Lemma fire_request_scores_above_checkup :
  PrimFloat.leb (score (fallbackPrioritization checkup_request))
                (score (fallbackPrioritization fire_request)) = true
  /\ PrimFloat.leb (score (fallbackPrioritization fire_request)) 0.99 = true
  /\ PrimFloat.leb (score (fallbackPrioritization checkup_request)) 0.99 = true.
Proof.
  apply (score_follows_priority fire_request checkup_request).
  - vm_compute. lia.
  - intros _ _. left. vm_compute. lia.
Defined.

(** ** The conversational fallback *)






(** ** The fallback resource table *)


Lemma opp_div_opp (a d : Z) : (0 < d)%Z -> (- (- a / d))%Z = round_up a d.
Proof.
  intros Hd. unfold round_up.
  pose proof (Z.div_mod (- a) d ltac:(lia)) as Hdm.
  pose proof (Z.mod_pos_bound (- a) d Hd) as Hmod.
  apply (Z.div_unique _ _ _ (d - 1 - (- a) mod d)); lia.
Qed.

Lemma Math_ceil_times (P : Z) (a : Z) (b : positive) :
  Math_ceil (inject_Z P * (a # b)) = round_up (P * a) (Z.pos b).
Proof.
  unfold Math_ceil, Qceiling, Qfloor, Qopp, Qmult, inject_Z. cbn [Qnum Qden].
  rewrite Pos.mul_1_l. apply opp_div_opp. lia.
Qed.

Lemma Math_ceil_over (P : Z) (d : positive) :
  Math_ceil (inject_Z P / (Z.pos d # 1)) = round_up P (Z.pos d).
Proof.
  unfold Qdiv, Qinv. cbn [Qnum Qden]. rewrite Math_ceil_times. f_equal. lia.
Qed.

Lemma Math_ceil_integer (P : Z) : Math_ceil (inject_Z P) = P.
Proof.
  unfold Math_ceil, Qceiling, Qfloor, Qopp, inject_Z. cbn [Qnum Qden].
  rewrite Z.div_1_r. lia.
Qed.

Lemma Math_ceil_multiple (P a : Z) : Math_ceil (inject_Z P * (a # 1)) = (P * a)%Z.
Proof. rewrite Math_ceil_times. unfold round_up. rewrite Z.div_1_r. lia. Qed.

Lemma round_up_three_halves (P : Z) : round_up (P * 15) 10 = round_up (3 * P) 2.
Proof.
  unfold round_up.
  pose proof (Z.div_mod (P * 15 + 10 - 1) 10 ltac:(lia)).
  pose proof (Z.mod_pos_bound (P * 15 + 10 - 1) 10 ltac:(lia)).
  pose proof (Z.div_mod (3 * P + 2 - 1) 2 ltac:(lia)).
  pose proof (Z.mod_pos_bound (3 * P + 2 - 1) 2 ltac:(lia)).
  lia.
Qed.

Ltac ceilings :=
  repeat first
    [ rewrite Math_ceil_over | rewrite Math_ceil_multiple
    | rewrite Math_ceil_integer | rewrite Math_ceil_times ].

Ltac table_equal P :=
  rewrite ?round_up_three_halves;
  repeat match goal with
         | |- context [(P * ?a)%Z] => rewrite (Z.mul_comm P a)
         end;
  reflexivity.

(** For every disaster type that is not the name of an inherited member,
    the fallback returns the guideline table of that type, or the default
    table, with the success marker and the fallback note. *)
Lemma guideline_tables (now disasterType : string) (P : Z) :
  inherited disasterType = false ->
  let r := fallbackResourcePrediction now disasterType P in
  predictions r = Quantities (guideline_table disasterType P)
  /\ status r = "success"
  /\ note r = "Fallback prediction based on standard emergency response guidelines".
Proof.
  intros Hown r. subst r. unfold fallbackResourcePrediction, guideline_table.
  cbn [predictions status note assoc]. rewrite Hown.
  split; [|split; reflexivity].
  repeat (destruct (String.eqb disasterType _); [ceilings; table_equal P|]).
  ceilings. table_equal P.
Qed.

(** The two examples of the specification. *)
Lemma resource_examples (now : string) :
  predictions (fallbackResourcePrediction now "FLOOD" 100)
  = Quantities [ ("water_liters", 500%Z); ("food_rations", 300%Z);
                 ("blankets", 100%Z); ("first_aid_kits", 2%Z);
                 ("emergency_kits", 10%Z); ("volunteers_needed", 1%Z);
                 ("boats", 1%Z); ("life_jackets", 50%Z) ]
  /\ predictions (fallbackResourcePrediction now "UNKNOWN_TYPE" 10)
     = Quantities [ ("water_liters", 30%Z); ("food_rations", 20%Z);
                    ("blankets", 10%Z); ("first_aid_kits", 1%Z);
                    ("volunteers_needed", 1%Z); ("emergency_kits", 1%Z) ].
Proof. split; reflexivity. Qed.

(** C6. The guideline tables are returned for the five disaster types and
    the default table for other types (lemma [guideline_tables]), but not
    for every type: for a type named like a member that every object
    inherits, here "constructor" with a population of 10, the lookup in
    [predictions] finds that member and the default table is not used. *)
Theorem inherited_name_gets_no_table (now : string) :
  let r := fallbackResourcePrediction now "constructor" 10 in
  status r = "success"
  /\ predictions r = InheritedMember "constructor"
  /\ predictions r <> Quantities (guideline_table "constructor" 10)
  /\ guideline_table "constructor" 10
     = [ ("water_liters", 30%Z); ("food_rations", 20%Z); ("blankets", 10%Z);
         ("first_aid_kits", 1%Z); ("volunteers_needed", 1%Z);
         ("emergency_kits", 1%Z) ].
Proof. cbn. repeat split. discriminate. Qed.

(** ** The gateway *)

Section TryCatch.
Context {S A : Type}.
Variables (body : M S A) (handler : error -> M S A).


End TryCatch.



(** ** Room membership *)

Lemma elem_of_membersOf (room sid : string) (reg : Registry) :
  sid ∈ membersOf room reg <->
  exists s, reg !! sid = Some s /\ room ∈ roomMemberships s.
Proof.
  unfold membersOf. rewrite elem_of_dom. unfold is_Some.
  setoid_rewrite map_lookup_filter_Some. cbn. naive_solver.
Qed.


Lemma lookup_joinRoom (sid room sid' : string) (reg : Registry) :
  joinRoom sid room reg !! sid' =
  if decide (sid = sid')
  then (fun s => {| user := user s;
                    roomMemberships := {[room]} ∪ roomMemberships s |}) <$> reg !! sid
  else reg !! sid'.
Proof. unfold joinRoom. apply lookup_alter. Qed.

Lemma joinRoom_absent (sid room : string) (reg : Registry) :
  reg !! sid = None -> joinRoom sid room reg = reg.
Proof.
  intros Hnone. apply map_eq. intros sid'. rewrite lookup_joinRoom.
  case_decide as Hsid; [subst sid'; now rewrite Hnone | reflexivity].
Qed.

Lemma deregister_absent (sid : string) (reg : Registry) :
  reg !! sid = None -> deregister sid reg = reg.
Proof. apply delete_id. Qed.

Lemma admin_test (r : string) :
  String.eqb r "ADMIN" || String.eqb r "MODERATOR" = true <-> is_admin_role r.
Proof.
  unfold is_admin_role. rewrite orb_true_iff, !String.eqb_eq. reflexivity.
Qed.


(** *** What each event does to the registry *)

Lemma try_catch_io {A : Type} (body : M state A) (handler : error -> M state A)
    (st : state) :
  (forall s, io (body s).2 = io s) ->
  (forall e s, io (handler e s).2 = io s) ->
  io (try_catch body handler st).2 = io st.
Proof.
  intros Hb Hh. unfold try_catch. specialize (Hb st).
  destruct (body st) as [[a|e] s']; cbn in Hb |- *; [exact Hb|].
  now rewrite Hh.
Qed.

Ltac io_unchanged st :=
  let Hio := fresh "Hio" in
  unfold bind, lift, getIO, io_to_emit, socket_to_emit, socket_emit, send, logger;
  destruct (io st) eqn:Hio; cbn [snd io]; rewrite ?Hio; reflexivity.

Lemma step_io (e : event) (st : state) :
  io (step e st).2 = step_registry e (io st).
Proof.
  destruct e; cbn [step step_registry]; try reflexivity.
  - (* Connection *)
    unfold connect. destruct (io st) as [reg|] eqn:Hio; cbn; rewrite ?Hio; [|reflexivity].
    destruct (createSession sessionId u reg) as [created|]; cbn; rewrite ?Hio; [|reflexivity].
    unfold on_connection, bind, logger, socket_join, update_registry. cbn.
    destruct (String.eqb (role u) "ADMIN" || String.eqb (role u) "MODERATOR");
      reflexivity.
  - (* JoinRequest *)
    unfold with_socket, session_of.
    destruct (io st) as [reg|] eqn:Hio; cbn; [|now rewrite Hio].
    destruct (reg !! sessionId) eqn:Hs; cbn.
    + now rewrite Hio.
    + now rewrite Hio, joinRoom_absent.
  - (* JoinChat *)
    unfold with_socket, session_of.
    destruct (io st) as [reg|] eqn:Hio; cbn; [|now rewrite Hio].
    destruct (reg !! sessionId) eqn:Hs; cbn.
    + now rewrite Hio.
    + now rewrite Hio, joinRoom_absent.
  - (* PrivateMessage *)
    unfold with_socket. destruct (session_of sessionId st) as [[server s]|]; [|reflexivity].
    unfold on_private_message. apply try_catch_io; [|reflexivity].
    intros s0. destruct saved; reflexivity.
  - (* Typing *)
    unfold with_socket. destruct (session_of sessionId st) as [[server s]|]; reflexivity.
  - (* Disconnect *)
    unfold with_socket, session_of.
    destruct (io st) as [reg|] eqn:Hio; cbn; [|now rewrite Hio].
    destruct (reg !! sessionId) eqn:Hs; cbn.
    + now rewrite Hio.
    + now rewrite Hio, deregister_absent.
  - unfold emitNotification. apply try_catch_io; [|reflexivity].
    intros s0. io_unchanged s0.
  - unfold broadcastToAdmins. apply try_catch_io; [|reflexivity].
    intros s0. io_unchanged s0.
  - unfold updateRequestStatus. apply try_catch_io; [|reflexivity].
    intros s0. io_unchanged s0.
Qed.

(** The session a connection creates, with the rooms its handler joins. *)
Lemma lookup_connect_new (sid : string) (u : User) (reg : Registry) :
  reg !! sid = None ->
  exists s, connect sid u reg !! sid = Some s /\ user s = u
    /\ forall room, room ∈ roomMemberships s <->
         room = "user-" ++ id u \/ room = toLowerCase (role u)
         \/ (room = "admins" /\ is_admin_role (role u)).
Proof.
  intros Hnone. unfold connect, createSession. rewrite Hnone.
  destruct (String.eqb (role u) "ADMIN" || String.eqb (role u) "MODERATOR") eqn:Hadm.
  - apply admin_test in Hadm.
    rewrite !lookup_joinRoom, !decide_True by reflexivity.
    rewrite lookup_insert_eq. cbn. eexists. split; [reflexivity|]. cbn.
    split; [reflexivity|]. intros room. set_solver.
  - assert (Hna : ~ is_admin_role (role u)).
    { intros H. apply admin_test in H. congruence. }
    rewrite !lookup_joinRoom, !decide_True by reflexivity.
    rewrite lookup_insert_eq. cbn. eexists. split; [reflexivity|]. cbn.
    split; [reflexivity|]. intros room. set_solver.
Qed.

Lemma lookup_connect_other (sid sid' : string) (u : User) (reg : Registry) :
  sid <> sid' -> connect sid u reg !! sid' = reg !! sid'.
Proof.
  intros Hne. unfold connect, createSession.
  destruct (reg !! sid); [reflexivity|].
  destruct (String.eqb (role u) "ADMIN" || String.eqb (role u) "MODERATOR");
    rewrite !lookup_joinRoom, !decide_False by exact Hne;
    now rewrite lookup_insert_ne.
Qed.

Lemma connect_taken (sid : string) (u : User) (reg : Registry) :
  is_Some (reg !! sid) -> connect sid u reg = reg.
Proof. intros [s Hs]. unfold connect, createSession. now rewrite Hs. Qed.

(** *** The invariant of the registry *)

Lemma joinRoom_ok (sid room : string) (reg : Registry) :
  registry_ok reg ->
  (forall s, reg !! sid = Some s -> joinable (user s) room) ->
  registry_ok (joinRoom sid room reg).
Proof.
  intros Hok Hroom sid' s'. rewrite lookup_joinRoom.
  case_decide as Hsid; [subst sid'|apply Hok].
  destruct (reg !! sid) as [s|] eqn:Hs; [|discriminate].
  cbn. intros [= <-]. destruct (Hok sid s Hs) as (Hu & Hr & Ha & Hall).
  unfold session_ok. cbn. repeat split.
  - apply elem_of_union. now right.
  - apply elem_of_union. now right.
  - intros H. apply elem_of_union. right. now apply Ha.
  - intros r Hr'. apply elem_of_union in Hr' as [Hr'|Hr'].
    + apply elem_of_singleton in Hr'. subst r. now apply Hroom.
    + now apply Hall.
Qed.

Lemma deregister_ok (sid : string) (reg : Registry) :
  registry_ok reg -> registry_ok (deregister sid reg).
Proof.
  intros Hok sid' s' Hs'. unfold deregister in Hs'.
  apply lookup_delete_Some in Hs' as [_ Hs']. now apply (Hok sid').
Qed.

Lemma connect_ok (sid : string) (u : User) (reg : Registry) :
  registry_ok reg -> registry_ok (connect sid u reg).
Proof.
  intros Hok. destruct (reg !! sid) as [s0|] eqn:Hsid.
  - now rewrite connect_taken.
  - intros sid' s' Hs'. destruct (decide (sid = sid')) as [<-|Hne].
    + destruct (lookup_connect_new sid u reg Hsid) as (s & Hs & Hu & Hrooms).
      rewrite Hs in Hs'. injection Hs' as <-.
      unfold session_ok. rewrite Hu. repeat split.
      * apply Hrooms. tauto.
      * apply Hrooms. tauto.
      * intros Hadm. apply Hrooms. tauto.
      * intros room Hroom. apply Hrooms in Hroom. unfold joinable. tauto.
    + rewrite lookup_connect_other in Hs' by exact Hne. now apply (Hok sid').
Qed.

Lemma step_registry_ok (e : event) (server : option Registry) :
  server_ok server -> server_ok (step_registry e server).
Proof.
  intros Hok reg'. destruct e; cbn [step_registry]; try apply Hok.
  - intros [= <-]. intros sid s Hs. now rewrite lookup_empty in Hs.
  - destruct server as [reg|]; [|discriminate]. intros [= <-].
    apply connect_ok. now apply Hok.
  - destruct server as [reg|]; [|discriminate]. intros [= <-].
    apply joinRoom_ok; [now apply Hok|]. intros s _. unfold joinable. eauto 6.
  - destruct server as [reg|]; [|discriminate]. intros [= <-].
    apply joinRoom_ok; [now apply Hok|]. intros s _. unfold joinable. eauto 6.
  - destruct server as [reg|]; [|discriminate]. intros [= <-].
    apply deregister_ok. now apply Hok.
Qed.

Lemma run_ok (events : list event) (st : state) :
  server_ok (io st) -> server_ok (io (run events st)).
Proof.
  revert st. induction events as [|e rest IH]; intros st Hok; [exact Hok|].
  cbn [run]. apply IH. rewrite step_io. now apply step_registry_ok.
Qed.

Lemma reachable_ok (events : list event) : server_ok (io (run events initial)).
Proof. apply run_ok. intros reg H. discriminate H. Qed.




(** ** Fan-out *)

Lemma in_fanout (targets : gset string) (eventName : string) (data : value)
    (d : Delivery) :
  In d (fanout targets eventName data) <->
  recipient d ∈ targets /\ event_name d = eventName /\ payload d = data.
Proof.
  unfold fanout. rewrite in_map_iff. split.
  - intros (sid & <- & Hsid). cbn. split; [|auto].
    apply elem_of_elements, list_elem_of_In. exact Hsid.
  - intros (Hsid & Hev & Hdata). exists (recipient d). split.
    + destruct d. cbn in *. now subst.
    + apply list_elem_of_In, elem_of_elements. exact Hsid.
Qed.

Lemma fanout_recipients (targets : gset string) (eventName : string) (data : value) :
  map recipient (fanout targets eventName data) = elements targets.
Proof.
  unfold fanout. rewrite map_map. cbn. apply map_id.
Qed.

Lemma fanout_empty (eventName : string) (data : value) :
  fanout ∅ eventName data = [].
Proof. unfold fanout. now rewrite elements_empty. Qed.

(** C9. A typing event of a registered session, with chat id and typing
    flag, delivers one [user-typing] event carrying the user id of the
    session and the flag to every member of the chat room other than the
    session itself, and nothing to the session itself. *)
Theorem typing_reaches_other_members
    (st : state) (reg : Registry) (sessionId chatId : string) (isTyping : bool)
    (s : Session) :
  io st = Some reg -> reg !! sessionId = Some s ->
  let room := "chat-" ++ chatId in
  let data := Obj [("userId", Str (id (user s))); ("isTyping", Bool isTyping)] in
  exists ds : list Delivery,
    outbox (step (Typing sessionId chatId isTyping) st).2 = (outbox st ++ ds)%list
    /\ (forall member, member ∈ membersOf room reg -> member <> sessionId ->
        exists d, In d ds /\ recipient d = member
                  /\ event_name d = "user-typing" /\ payload d = data)
    /\ (forall d, In d ds ->
        recipient d ∈ membersOf room reg /\ recipient d <> sessionId
        /\ event_name d = "user-typing" /\ payload d = data)
    /\ NoDup (map recipient ds).
Proof.
  intros Hio Hs room data.
  exists (fanout (membersOf room reg ∖ {[sessionId]}) "user-typing" data).
  split; [|split; [|split]].
  - cbn [step]. unfold with_socket, session_of. rewrite Hio. cbn. rewrite Hs.
    reflexivity.
  - intros member Hin Hne.
    exists {| recipient := member; event_name := "user-typing"; payload := data |}.
    split; [|auto]. apply in_fanout. cbn. split; [|auto].
    apply elem_of_difference. split; [exact Hin|].
    intros H. apply elem_of_singleton in H. contradiction.
  - intros d Hd. apply in_fanout in Hd as (Hr & Hev & Hdata).
    apply elem_of_difference in Hr as [Hr Hne].
    repeat split; auto. intros H. apply Hne. now apply elem_of_singleton.
  - rewrite fanout_recipients. apply NoDup_elements.
Qed.

(** Two sessions in one chat: the typing of the first reaches the second
    only. *)
Lemma typing_in_a_chat_of_two :
  exists ds : list Delivery,
    outbox (step (Typing "s1" "42" true) (run chat_trace initial)).2
    = (outbox (run chat_trace initial) ++ ds)%list
    /\ (exists d, In d ds /\ recipient d = "s2")
    /\ (forall d, In d ds -> recipient d <> "s1").
Proof.
  destruct (typing_reaches_other_members (run chat_trace initial) _
              "s1" "42" true _ eq_refl eq_refl)
    as (ds & Hout & Hall & Honly & _).
  exists ds. split; [exact Hout|]. split.
  - destruct (Hall "s2") as (d & Hd & Hr & _).
    + apply elem_of_membersOf. eexists. split; [reflexivity|]. vm_compute. reflexivity.
    + discriminate.
    + eauto.
  - intros d Hd. destruct (Honly d Hd) as (_ & Hne & _). exact Hne.
Defined.

(** C10. The three fan-out helpers return normally in every state and for
    every argument.  While the transport is not initialized, the error of
    [getIO] is caught and logged and nothing is delivered; when the target
    room has no member, nothing is delivered either. *)
Theorem fanout_helpers_never_raise
    (st : state) (now userId requestId newStatus eventName : string)
    (notification data : value) :
  ((emitNotification userId notification st).1 = Normal tt
   /\ (broadcastToAdmins eventName data st).1 = Normal tt
   /\ (updateRequestStatus now requestId newStatus st).1 = Normal tt)
  /\ (io st = None ->
      (emitNotification userId notification st).2
      = with_log st Err "Error emitting notification: Socket.io not initialized"
      /\ (broadcastToAdmins eventName data st).2
         = with_log st Err "Error broadcasting to admins: Socket.io not initialized"
      /\ (updateRequestStatus now requestId newStatus st).2
         = with_log st Err "Error updating request status: Socket.io not initialized")
  /\ (forall reg, io st = Some reg ->
      (membersOf ("user-" ++ userId) reg = ∅ ->
       outbox (emitNotification userId notification st).2 = outbox st)
      /\ (membersOf "admins" reg = ∅ ->
          outbox (broadcastToAdmins eventName data st).2 = outbox st)
      /\ (membersOf ("request-" ++ requestId) reg = ∅ ->
          outbox (updateRequestStatus now requestId newStatus st).2 = outbox st)).
Proof.
  unfold emitNotification, broadcastToAdmins, updateRequestStatus,
    try_catch, bind, getIO, io_to_emit, send, logger, with_log.
  destruct (io st) as [reg|] eqn:Hio; cbn [fst snd io logged outbox].
  - split; [repeat split|]. split; [discriminate|].
    intros reg' [= <-].
    repeat split; intros ->; rewrite fanout_empty; apply app_nil_r.
  - split; [repeat split|]. split; [|discriminate].
    intros _. rewrite Hio. repeat split.
Qed.

(** ** The trend analysis *)



(** ** Who receives what *)

Lemma user_room_members (reg : Registry) (userId sid : string) :
  registry_ok reg ->
  sid ∈ membersOf ("user-" ++ userId) reg
  <-> exists s, reg !! sid = Some s /\ addressed_as userId s.
Proof.
  intros Hok. rewrite elem_of_membersOf. unfold addressed_as. split.
  - intros (s & Hs & Hin). exists s. split; [exact Hs|].
    destruct (Hok sid s Hs) as (_ & _ & _ & Hall).
    destruct (Hall _ Hin) as [H | [H | [[H _] | [[x H] | [x H]]]]];
      cbn in H; try discriminate H.
    + left. now injection H.
    + right. now rewrite <- H.
  - intros (s & Hs & Hu). exists s. split; [exact Hs|].
    destruct (Hok sid s Hs) as (Hid & Hrole & _).
    destruct Hu as [<- | <-]; assumption.
Qed.

Lemma admins_room_members (reg : Registry) (sid : string) :
  registry_ok reg ->
  sid ∈ membersOf "admins" reg
  <-> exists s, reg !! sid = Some s
        /\ (is_admin_role (role (user s)) \/ toLowerCase (role (user s)) = "admins").
Proof.
  intros Hok. rewrite elem_of_membersOf. split.
  - intros (s & Hs & Hin). exists s. split; [exact Hs|].
    destruct (Hok sid s Hs) as (_ & _ & _ & Hall).
    destruct (Hall _ Hin) as [H | [H | [[_ H] | [[x H] | [x H]]]]];
      try discriminate H; auto.
  - intros (s & Hs & Hu). exists s. split; [exact Hs|].
    destruct (Hok sid s Hs) as (_ & Hrole & Hadm & _).
    destruct Hu as [H | <-]; auto.
Qed.

Lemma fanout_single (sid eventName : string) (data : value) :
  fanout {[sid]} eventName data = [delivery sid eventName data].
Proof. unfold fanout. now rewrite elements_singleton. Qed.

Lemma in_fanout_delivery (targets : gset string) (eventName : string) (data : value)
    (sid : string) :
  In (delivery sid eventName data) (fanout targets eventName data) <-> sid ∈ targets.
Proof. rewrite in_fanout. cbn. tauto. Qed.

Lemma step_of_socket (sessionId : string) (st : state) (reg : Registry) (s : Session)
    (handler : Registry -> User -> M state unit) :
  io st = Some reg -> reg !! sessionId = Some s ->
  with_socket sessionId handler st = handler reg (user s) st.
Proof.
  intros Hio Hs. unfold with_socket, session_of. rewrite Hio. cbn. now rewrite Hs.
Qed.

(** X2. In every state the module reaches, a private message of a
    connected socket that is saved is delivered once to every session
    of the addressee, with the id of the sender and the saved content,
    type and date, and to no session but those addressed as that user;
    when saving fails, the only delivery is an [error] event to the
    sender. *)
Theorem private_message_reaches_the_addressee
    (events : list event) (reg : Registry) (sessionId to : string) (s : Session)
    (saved : completion SavedMessage) :
  let st := run events initial in
  io st = Some reg -> reg !! sessionId = Some s ->
  let after := (step (PrivateMessage sessionId to saved) st).2 in
  match saved with
  | Normal m =>
      let data := private_message_data (id (user s)) m in
      exists ds : list Delivery,
        outbox after = (outbox st ++ ds)%list
        /\ (forall sid s', reg !! sid = Some s' -> id (user s') = to ->
            In (delivery sid "private-message" data) ds)
        /\ (forall d, In d ds ->
            d = delivery (recipient d) "private-message" data
            /\ exists s', reg !! recipient d = Some s' /\ addressed_as to s')
        /\ NoDup (map recipient ds)
  | Throw e =>
      outbox after
      = (outbox st ++ [delivery sessionId "error"
                         (Obj [("message", Str "Failed to send message")])])%list
  end.
Proof.
  intros st Hio Hs after. subst after. cbn [step].
  rewrite (step_of_socket _ _ _ _ _ Hio Hs).
  assert (Hok : registry_ok reg) by (apply (reachable_ok events); exact Hio).
  destruct saved as [m|e].
  - set (data := private_message_data (id (user s)) m).
    exists (fanout (membersOf ("user-" ++ to) reg) "private-message" data).
    split; [reflexivity|]. split; [|split].
    + intros sid s' Hs' Hto. apply in_fanout_delivery, user_room_members; [exact Hok|].
      exists s'. split; [exact Hs'|]. now left.
    + intros d Hd. apply in_fanout in Hd as (Hr & Hev & Hdata). split.
      * destruct d. cbn in *. now subst.
      * now apply user_room_members in Hr.
    + rewrite fanout_recipients. apply NoDup_elements.
  - cbn. now rewrite fanout_single.
Qed.

(** The administrator writes to the member: the session of the member
    receives the message and that of the sender does not. *)
Lemma a_private_message_between_two :
  exists ds : list Delivery,
    outbox (step (PrivateMessage "s1" "u2" (Normal a_message))
                 (run chat_trace initial)).2
    = (outbox (run chat_trace initial) ++ ds)%list
    /\ In (delivery "s2" "private-message" (private_message_data "u1" a_message)) ds
    /\ forall d, In d ds -> recipient d <> "s1".
Proof.
  destruct (private_message_reaches_the_addressee chat_trace _ "s1" "u2" _
              (Normal a_message) eq_refl eq_refl)
    as (ds & Hout & Hall & Honly & _).
  exists ds. split; [exact Hout|]. split.
  - apply (Hall "s2" _ eq_refl). reflexivity.
  - intros d Hd Hr. destruct (Honly d Hd) as (_ & s' & Hs' & Hto).
    rewrite Hr in Hs'. injection Hs' as <-. destruct Hto as [H|H]; discriminate H.
Defined.

(** X3. Once the server is initialized, [emitNotification] delivers the
    notification once to every connected session of the user and to no
    session but those addressed as that user. *)
Theorem notification_reaches_every_session_of_the_user
    (events : list event) (reg : Registry) (userId : string) (notification : value) :
  let st := run events initial in
  io st = Some reg ->
  exists ds : list Delivery,
    outbox (emitNotification userId notification st).2 = (outbox st ++ ds)%list
    /\ (forall sid s, reg !! sid = Some s -> id (user s) = userId ->
        In (delivery sid "notification" notification) ds)
    /\ (forall d, In d ds ->
        d = delivery (recipient d) "notification" notification
        /\ exists s, reg !! recipient d = Some s /\ addressed_as userId s)
    /\ NoDup (map recipient ds).
Proof.
  intros st Hio.
  assert (Hok : registry_ok reg) by (apply (reachable_ok events); exact Hio).
  exists (fanout (membersOf ("user-" ++ userId) reg) "notification" notification).
  split; [|split; [|split]].
  - unfold emitNotification, try_catch, bind, getIO. now rewrite Hio.
  - intros sid s Hs Hid. apply in_fanout_delivery, user_room_members; [exact Hok|].
    exists s. split; [exact Hs|]. now left.
  - intros d Hd. apply in_fanout in Hd as (Hr & Hev & Hdata). split.
    + destruct d. cbn in *. now subst.
    + now apply user_room_members in Hr.
  - rewrite fanout_recipients. apply NoDup_elements.
Qed.

(** A notification for the member reaches the session of the member. *)
Lemma a_notification_for_the_member :
  exists ds : list Delivery,
    outbox (emitNotification "u2" (Str "Your request was assigned")
              (run chat_trace initial)).2
    = (outbox (run chat_trace initial) ++ ds)%list
    /\ In (delivery "s2" "notification" (Str "Your request was assigned")) ds.
Proof.
  destruct (notification_reaches_every_session_of_the_user chat_trace _ "u2"
              (Str "Your request was assigned") eq_refl)
    as (ds & Hout & Hall & _).
  exists ds. split; [exact Hout|]. apply (Hall "s2" _ eq_refl). reflexivity.
Defined.

(** X4. Once the server is initialized, [broadcastToAdmins] delivers
    the event once to every connected session of an ADMIN or a
    MODERATOR, and to no session of another role, but for a role whose
    lower-cased name is "admins". *)
Theorem admin_broadcast_reaches_the_admin_sessions
    (events : list event) (reg : Registry) (eventName : string) (data : value) :
  let st := run events initial in
  io st = Some reg ->
  exists ds : list Delivery,
    outbox (broadcastToAdmins eventName data st).2 = (outbox st ++ ds)%list
    /\ (forall sid s, reg !! sid = Some s -> is_admin_role (role (user s)) ->
        In (delivery sid eventName data) ds)
    /\ (forall d, In d ds ->
        d = delivery (recipient d) eventName data
        /\ exists s, reg !! recipient d = Some s
             /\ (is_admin_role (role (user s))
                 \/ toLowerCase (role (user s)) = "admins"))
    /\ NoDup (map recipient ds).
Proof.
  intros st Hio.
  assert (Hok : registry_ok reg) by (apply (reachable_ok events); exact Hio).
  exists (fanout (membersOf "admins" reg) eventName data).
  split; [|split; [|split]].
  - unfold broadcastToAdmins, try_catch, bind, getIO. now rewrite Hio.
  - intros sid s Hs Hadm. apply in_fanout_delivery, admins_room_members; [exact Hok|].
    exists s. split; [exact Hs|]. now left.
  - intros d Hd. apply in_fanout in Hd as (Hr & Hev & Hdata). split.
    + destruct d. cbn in *. now subst.
    + now apply admins_room_members in Hr.
  - rewrite fanout_recipients. apply NoDup_elements.
Qed.

(** A broadcast reaches the session of the administrator and not that
    of the member. *)
Lemma a_broadcast_with_a_member_connected :
  exists ds : list Delivery,
    outbox (broadcastToAdmins "new-request" (Str "r1") (run chat_trace initial)).2
    = (outbox (run chat_trace initial) ++ ds)%list
    /\ In (delivery "s1" "new-request" (Str "r1")) ds
    /\ forall d, In d ds -> recipient d <> "s2".
Proof.
  destruct (admin_broadcast_reaches_the_admin_sessions chat_trace _ "new-request"
              (Str "r1") eq_refl)
    as (ds & Hout & Hall & Honly & _).
  exists ds. split; [exact Hout|]. split.
  - apply (Hall "s1" _ eq_refl). left. reflexivity.
  - intros d Hd Hr. destruct (Honly d Hd) as (_ & s & Hs & Hrole).
    rewrite Hr in Hs. injection Hs as <-.
    destruct Hrole as [[H|H]|H]; discriminate H.
Defined.

Lemma run_app (l1 l2 : list event) (st : state) :
  run (l1 ++ l2) st = run l2 (run l1 st).
Proof. revert st. induction l1 as [|e l1 IH]; intros st; [reflexivity|]. cbn. apply IH. Qed.

Lemma step_keeps_in_room (e : event) (sessionId room : string) (st : state) :
  e <> Init -> e <> Disconnect sessionId ->
  in_room sessionId room st -> in_room sessionId room (step e st).2.
Proof.
  intros Hinit Hdisc (reg & Hio & Hin). unfold in_room. rewrite step_io, Hio.
  apply elem_of_membersOf in Hin as (s & Hs & Hroom).
  assert (Hjoin : forall sid0 room0,
             sessionId ∈ membersOf room (joinRoom sid0 room0 reg)).
  { intros sid0 room0. apply elem_of_membersOf. rewrite lookup_joinRoom.
    case_decide as Hsid; [subst sid0; rewrite Hs; cbn|]; eexists;
      (split; [reflexivity || exact Hs|]); cbn; set_solver. }
  assert (Hsame : sessionId ∈ membersOf room reg)
    by (apply elem_of_membersOf; eauto).
  destruct e; cbn [step_registry fmap option_fmap option_map]; try (eexists; split; [reflexivity|]).
  - contradiction.
  - apply elem_of_membersOf. exists s. split; [|exact Hroom].
    destruct (decide (sessionId0 = sessionId)) as [->|Hne].
    + rewrite connect_taken by eauto. exact Hs.
    + rewrite lookup_connect_other by exact Hne. exact Hs.
  - apply Hjoin.
  - apply Hjoin.
  - exact Hsame.
  - exact Hsame.
  - apply elem_of_membersOf. exists s. split; [|exact Hroom].
    unfold deregister. rewrite lookup_delete_ne; [exact Hs|]. congruence.
  - exact Hsame.
  - exact Hsame.
  - exact Hsame.
Qed.

Lemma run_keeps_in_room (events : list event) (sessionId room : string) (st : state) :
  Forall (fun e => e <> Init /\ e <> Disconnect sessionId) events ->
  in_room sessionId room st -> in_room sessionId room (run events st).
Proof.
  revert st. induction events as [|e rest IH]; intros st Hall Hin; [exact Hin|].
  inversion Hall as [|? ? [Hinit Hdisc] Hrest]; subst. cbn [run].
  apply IH; [exact Hrest|]. now apply step_keeps_in_room.
Qed.

(** X5. A connected socket that has sent [join-request] for a request
    receives the status updates of that request for as long as it is not
    disconnected and the server is not initialized anew, whatever else
    happens in between. *)
Theorem joined_request_room_gets_status_updates
    (before later : list event) (sessionId requestId now newStatus : string) :
  connected sessionId (run before initial) ->
  Forall (fun e => e <> Init /\ e <> Disconnect sessionId) later ->
  let st := run (before ++ JoinRequest sessionId requestId :: later) initial in
  exists ds : list Delivery,
    outbox (updateRequestStatus now requestId newStatus st).2 = (outbox st ++ ds)%list
    /\ In (delivery sessionId "request-status-updated"
             (status_update now requestId newStatus)) ds.
Proof.
  intros (reg & s & Hio & Hs) Hlater st.
  assert (Hin : in_room sessionId ("request-" ++ requestId) st).
  { subst st. rewrite run_app. cbn [run]. apply run_keeps_in_room; [exact Hlater|].
    unfold in_room. rewrite step_io, Hio. cbn. eexists. split; [reflexivity|].
    apply elem_of_membersOf. rewrite lookup_joinRoom, decide_True by reflexivity.
    rewrite Hs. cbn. eexists. split; [reflexivity|]. cbn. set_solver. }
  destruct Hin as (reg' & Hio' & Hin).
  exists (fanout (membersOf ("request-" ++ requestId) reg') "request-status-updated"
            (status_update now requestId newStatus)).
  split.
  - unfold updateRequestStatus, try_catch, bind, getIO. now rewrite Hio'.
  - now apply in_fanout_delivery.
Qed.

(** The member follows request r7 while an administrator comes and goes. *)
Lemma a_member_follows_a_request :
  exists ds : list Delivery,
    outbox (updateRequestStatus "2024-01-02T00:00:00.000Z" "r7" "RESOLVED"
              (run ([Init; Connection "s2" member_user]
                    ++ JoinRequest "s2" "r7"
                       :: [Connection "s1" admin_user; Typing "s1" "42" true;
                           Disconnect "s1"]) initial)).2
    = (outbox (run ([Init; Connection "s2" member_user]
                    ++ JoinRequest "s2" "r7"
                       :: [Connection "s1" admin_user; Typing "s1" "42" true;
                           Disconnect "s1"]) initial) ++ ds)%list
    /\ In (delivery "s2" "request-status-updated"
             (status_update "2024-01-02T00:00:00.000Z" "r7" "RESOLVED")) ds.
Proof.
  apply joined_request_room_gets_status_updates.
  - eexists _, _. split; reflexivity.
  - repeat constructor; discriminate.
Defined.

(** ** The authentication of sockets *)

Section SocketAuthentication.
Variables (jwt_verify : string -> completion Decoded)
          (user_findUnique : string -> completion (option UserRow)).

Lemma io_use_io (auth_token query_token : option string) (st : state) :
  io (io_use jwt_verify user_findUnique auth_token query_token st).2 = io st.
Proof.
  unfold io_use. apply try_catch_io; [|reflexivity].
  intros s0. destruct (or_token auth_token query_token) as [[|c t]|]; try reflexivity.
  unfold bind, lift. destruct (jwt_verify (String c t)) as [decoded|e]; [|reflexivity].
  destruct (user_findUnique (decoded_userId decoded)) as [[row|]|e]; try reflexivity.
  now destruct (negb (isVerified row) || _).
Qed.

(** X6. The middleware accepts a socket exactly when a non-empty token
    is given (in [auth], or else in the query), the token verifies, and
    the user of its payload exists, is verified and is not deactivated;
    the user of the socket is then the one of the payload and nothing is
    logged; otherwise the socket is refused with one of three
    authentication errors.  The middleware never throws. *)
Theorem socket_accepted_for_valid_token_and_user
    (auth_token query_token : option string) (st : state) :
  let result := io_use jwt_verify user_findUnique auth_token query_token st in
  (forall u, result.1 = Normal (Accepted u) <->
     exists token decoded row,
       or_token auth_token query_token = Some token /\ token <> ""
       /\ jwt_verify token = Normal decoded
       /\ user_findUnique (decoded_userId decoded) = Normal (Some row)
       /\ isVerified row = true /\ isActive row <> Some false
       /\ u = user_of_token decoded)
  /\ (forall u, result.1 = Normal (Accepted u) -> result.2 = st)
  /\ ((exists u, result.1 = Normal (Accepted u))
      \/ (exists e, result.1 = Normal (Refused e) /\ In e refusals)).
Proof.
  cbv zeta. unfold io_use, try_catch, bind, lift, ret, logger, refusals, user_of_token.
  destruct (or_token auth_token query_token) as [[|c t]|] eqn:Htoken.
  - cbn. split; [|split].
    + intros u. split; [discriminate|].
      intros (token & decoded & row & [= <-] & Hne & _). now contradiction Hne.
    + discriminate.
    + right. eexists. split; [reflexivity|]. cbn. auto.
  - destruct (jwt_verify (String c t)) as [decoded|e] eqn:Hverify; cbn.
    + destruct (user_findUnique (decoded_userId decoded)) as [[row|]|e] eqn:Hfind; cbn.
      * destruct (isVerified row) eqn:Hv; cbn;
          [destruct (isActive row) as [[|]|] eqn:Ha; cbn|].
        all: split; [|split];
          [ intros u; split;
            [ intros [= <-] || discriminate
            | intros (token & decoded' & row' & [= <-] & Hne & Hd & Hf & Hv' & Ha' & ->);
              rewrite Hverify in Hd; injection Hd as <-;
              rewrite Hfind in Hf; injection Hf as <-;
              first [reflexivity | congruence] ]
          | first [discriminate | reflexivity]
          | first [ left; eexists; reflexivity
                  | right; eexists; split; [reflexivity|]; cbn; auto ] ].
        all: exists (String c t), decoded, row;
          repeat split; auto; congruence.
      * split; [|split].
        -- intros u. split; [discriminate|].
           intros (token & decoded' & row' & [= <-] & Hne & Hd & Hf & _).
           rewrite Hverify in Hd. injection Hd as <-. congruence.
        -- discriminate.
        -- right. eexists. split; [reflexivity|]. cbn. auto.
      * split; [|split].
        -- intros u. split; [discriminate|].
           intros (token & decoded' & row' & [= <-] & Hne & Hd & Hf & _).
           rewrite Hverify in Hd. injection Hd as <-. congruence.
        -- discriminate.
        -- right. eexists. split; [reflexivity|]. cbn. auto.
    + split; [|split].
      * intros u. split; [discriminate|].
        intros (token & decoded' & row' & [= <-] & Hne & Hd & _). congruence.
      * discriminate.
      * right. eexists. split; [reflexivity|]. cbn. auto.
  - cbn. split; [|split].
    + intros u. split; [discriminate|].
      intros (token & decoded & row & [=] & _).
    + discriminate.
    + right. eexists. split; [reflexivity|]. cbn. auto.
Qed.

(** An accepted socket has the user of a token that verifies, and the
    module is as it was. *)
Lemma io_use_accepted (auth_token query_token : option string) (st : state) (u : User) :
  (io_use jwt_verify user_findUnique auth_token query_token st).1 = Normal (Accepted u) ->
  (io_use jwt_verify user_findUnique auth_token query_token st).2 = st
  /\ exists token decoded, jwt_verify token = Normal decoded /\ u = user_of_token decoded.
Proof.
  unfold io_use, try_catch, bind, lift, ret, logger, user_of_token.
  destruct (or_token auth_token query_token) as [[|c t]|]; try discriminate.
  destruct (jwt_verify (String c t)) as [decoded|e] eqn:Hverify; [|discriminate].
  cbn. destruct (user_findUnique (decoded_userId decoded)) as [[row|]|e];
    try discriminate.
  cbn. destruct (negb (isVerified row) || _); [discriminate|].
  intros [= <-]. split; [reflexivity|]. eauto.
Qed.

(** X7. The rooms a socket joins at connection are decided by the
    payload of its token, not by the row of the user: an accepted socket
    joins the room of the user id and the room of the lower-cased role
    of the payload, and [admins] when that role is ADMIN or MODERATOR. *)
Theorem token_decides_the_rooms_of_a_socket
    (events : list event) (auth_token query_token : option string)
    (sessionId : string) (u : User) (reg : Registry) :
  let st := run events initial in
  let result := io_use jwt_verify user_findUnique auth_token query_token st in
  result.1 = Normal (Accepted u) ->
  io st = Some reg -> reg !! sessionId = None ->
  let st' := (step (Connection sessionId u) result.2).2 in
  exists token decoded,
    jwt_verify token = Normal decoded
    /\ u = user_of_token decoded
    /\ in_room sessionId ("user-" ++ decoded_userId decoded) st'
    /\ in_room sessionId (toLowerCase (decoded_role decoded)) st'
    /\ (is_admin_role (decoded_role decoded) -> in_room sessionId "admins" st').
Proof.
  intros st result Haccepted Hio Hfresh st'.
  destruct (io_use_accepted _ _ _ _ Haccepted)
    as (Hst & token & decoded & Hverify & ->).
  fold result in Hst.
  exists token, decoded. split; [exact Hverify|]. split; [reflexivity|].
  destruct (lookup_connect_new sessionId (user_of_token decoded) reg Hfresh)
    as (s & Hs & _ & Hrooms).
  assert (Hin : forall room, room ∈ roomMemberships s -> in_room sessionId room st').
  { intros room Hroom. exists (connect sessionId (user_of_token decoded) reg). split.
    - subst st'. rewrite Hst, step_io, Hio. reflexivity.
    - apply elem_of_membersOf. eauto. }
  repeat split.
  - apply Hin, Hrooms. now left.
  - apply Hin, Hrooms. right. now left.
  - intros Hadm. apply Hin, Hrooms. right. right. now split.
Qed.

End SocketAuthentication.

(** A user who is a MEMBER in the database connects with a token signed
    while an ADMIN, and joins [admins]. *)
Lemma a_demoted_administrator_connects :
  demoted_user "u7"
  = Normal (Some {| row_id := "u7"; row_email := "ana@barangay.ph";
                    row_role := "MEMBER"; isVerified := true;
                    isActive := Some true |})
  /\ in_room "s9" "admins"
       (step (Connection "s9" demoted_admin)
             (io_use old_token demoted_user (Some "signed-last-week") None
                (run [Init] initial)).2).2.
Proof.
  split; [reflexivity|].
  destruct (token_decides_the_rooms_of_a_socket old_token demoted_user [Init]
              (Some "signed-last-week") None "s9" demoted_admin _ eq_refl eq_refl eq_refl)
    as (token & decoded & Hverify & Hu & _ & _ & Hadm).
  apply Hadm. injection Hu as _ _ <-. now left.
Defined.


(** ** The helper methods of the request controller *)

Section RequestControllerHelpers.
Import RequestController.

Lemma Qgtb_hours (age h : Z) :
  Qgtb (inject_Z age / inject_Z (1000 * 60 * 60)) (inject_Z h) = true
  <-> (h * 3600000 < age)%Z.
Proof.
  change (1000 * 60 * 60)%Z with 3600000%Z.
  unfold Qgtb, Qle_bool, Qdiv, Qmult, Qinv, inject_Z. cbn.
  rewrite negb_true_iff, Z.leb_gt. lia.
Qed.

Lemma Qgtb_hours_false (age h : Z) :
  Qgtb (inject_Z age / inject_Z (1000 * 60 * 60)) (inject_Z h) = false
  <-> ~ (h * 3600000 < age)%Z.
Proof. rewrite <- Qgtb_hours. now destruct (Qgtb _ _). Qed.

Ltac hours_case h now request :=
  let H := fresh "Hage" in
  destruct (Qgtb _ (inject_Z h)) eqn:H;
    [apply Qgtb_hours in H | apply Qgtb_hours_false in H];
    change (h * 3600000 < now - new_Date (Request.createdAt request))%Z
      with (older_than h now request) in H.

Ltac string_case s v := destruct (String.eqb_spec s v).

Lemma In_strings (x : string) (l : list string) :
  In x l <-> existsb (String.eqb x) l = true.
Proof.
  rewrite existsb_exists. split.
  - intros H. exists x. now rewrite String.eqb_refl.
  - intros (y & Hy & Heq). apply String.eqb_eq in Heq. now subst y.
Qed.

Lemma member_iff (P : Prop) : P -> (true = true <-> P).
Proof. tauto. Qed.

Lemma not_member_iff (P : Prop) : ~ P -> (false = true <-> P).
Proof. intros HP. split; [discriminate | tauto]. Qed.

(** Settles [existsb f l = true <-> P] for a list of literals. *)
Ltac decide_member :=
  match goal with
  | |- existsb ?f ?l = true <-> _ =>
      let b := eval vm_compute in (existsb f l) in
      change (existsb f l) with b;
      first [refine (member_iff _ _) | refine (not_member_iff _ _)]; tauto
  end.

(** The cases of [generateAISuggestions now request], for a goal about
    [suggestions] that starts with [suggestions = _ ->]. *)
Ltac suggestion_cases now request :=
  assert (older_than 72 now request -> older_than 24 now request)
    by (unfold older_than; lia);
  unfold generateAISuggestions;
  change 24%Q with (inject_Z 24); change 72%Q with (inject_Z 72);
  hours_case 24%Z now request; hours_case 72%Z now request;
  (string_case (Request.category request) "MEDICAL";
   [|string_case (Request.category request) "FOOD";
     [|string_case (Request.category request) "EMERGENCY";
       [|string_case (Request.category request) "INFRASTRUCTURE"]]]);
  first [ assert (ruled (Request.category request)) by (unfold ruled; tauto)
        | assert (~ ruled (Request.category request)) by (unfold ruled; tauto) ];
  (string_case (Request.priority request) "URGENT";
   [|string_case (Request.priority request) "HIGH"]);
  first [ assert (escalated (Request.priority request)) by (unfold escalated; tauto)
        | assert (~ escalated (Request.priority request)) by (unfold escalated; tauto) ];
  string_case (Request.status request) "IN_PROGRESS";
  cbn [app firstn]; intros ->; cbn [length hd_error].

(** X8. [generateAISuggestions] returns at most five suggestions; for an
    URGENT request the first one is to handle it immediately and for a
    HIGH request to handle it within 24 hours; and the follow-up reminder
    is among them exactly when the request is more than 24 hours old. *)
Theorem suggestions_capped_and_led (now : Z) (request : Request.t) :
  let suggestions := generateAISuggestions now request in
  (length suggestions <= 5)%nat
  /\ (Request.priority request = "URGENT" ->
      hd_error suggestions = Some "Handle immediately - Escalate if needed")
  /\ (Request.priority request = "HIGH" ->
      hd_error suggestions = Some "Handle within 24 hours")
  /\ (In "Follow up required - Request pending for over 24 hours" suggestions
      <-> older_than 24 now request).
Proof.
  intros suggestions. rewrite In_strings.
  assert (E : suggestions = generateAISuggestions now request) by reflexivity.
  clearbody suggestions. revert E.
  suggestion_cases now request;
    (split; [lia|]);
    (split; [first [reflexivity | congruence]|]);
    (split; [first [reflexivity | congruence]|]);
    decide_member.
Qed.

(** X9. The cut to five suggestions drops the late ones: the 72-hour
    warning is returned exactly when the request is more than 72 hours
    old and it is not an URGENT or HIGH request of a category with
    suggestions of its own; the progress check is returned exactly when
    the request is IN_PROGRESS and, if its category has suggestions of
    its own, it is neither more than 72 hours old nor an URGENT or HIGH
    request more than 24 hours old. *)
Theorem late_suggestions_are_cut_off (now : Z) (request : Request.t) :
  let suggestions := generateAISuggestions now request in
  (In "Critical - Request pending for over 72 hours" suggestions
   <-> older_than 72 now request
       /\ ~ (ruled (Request.category request) /\ escalated (Request.priority request)))
  /\ (In "Check progress with assigned volunteer" suggestions
      <-> Request.status request = "IN_PROGRESS"
          /\ ~ (ruled (Request.category request)
                /\ (older_than 72 now request
                    \/ (escalated (Request.priority request) /\ older_than 24 now request)))).
Proof.
  intros suggestions. rewrite !In_strings.
  assert (E : suggestions = generateAISuggestions now request) by reflexivity.
  clearbody suggestions. revert E.
  suggestion_cases now request; split; decide_member.
Qed.

(** The sum that [reduce] computes, from any starting value. *)
Lemma totalTime_from (l : list Request.t) (a : Z) :
  fold_left (fun sum req => (sum + resolutionTime req)%Z) l a
  = (a + fold_left (fun sum req => (sum + resolutionTime req)%Z) l 0)%Z.
Proof.
  revert a. induction l as [|r l IH]; intros a; cbn [fold_left]; [lia|].
  rewrite (IH (a + resolutionTime r)%Z), (IH (0 + resolutionTime r)%Z). lia.
Qed.

Lemma totalTime_between (l : list Request.t) (lo hi : Z) :
  (forall r, In r l -> (lo <= resolutionTime r <= hi)%Z) ->
  (lo * Z.of_nat (length l)
   <= fold_left (fun sum req => (sum + resolutionTime req)%Z) l 0
   <= hi * Z.of_nat (length l))%Z.
Proof.
  induction l as [|r l IH]; intros Hall; [cbn; lia|].
  cbn [fold_left length]. rewrite totalTime_from.
  pose proof (Hall r (or_introl eq_refl)).
  assert (Hl : forall r', In r' l -> (lo <= resolutionTime r' <= hi)%Z)
    by (intros r' Hr'; apply Hall; now right).
  specialize (IH Hl). lia.
Qed.

(** X10. [calculateAvgResolution] returns [null] exactly when no request
    of the list is RESOLVED with both dates; otherwise some request
    counts, and the average lies between any two bounds on the
    resolution times of the requests that count. *)
Theorem average_resolution_between_extremes (requests : list Request.t) :
  match calculateAvgResolution requests with
  | None => forall r, In r requests -> counted r = false
  | Some avg =>
      (exists r, In r requests /\ counted r = true)
      /\ forall lo hi : Z,
           (forall r, In r requests -> counted r = true ->
                      (lo <= resolutionTime r <= hi)%Z) ->
           (inject_Z lo <= avg <= inject_Z hi)%Q
  end.
Proof.
  unfold calculateAvgResolution.
  change (fun r => String.eqb (Request.status r) "RESOLVED" && present (Request.createdAt r)
                   && present (Request.updatedAt r)) with counted.
  destruct (List.filter counted requests) as [|r0 rest] eqn:Hres.
  - intros r Hr. destruct (counted r) eqn:Hc; [|reflexivity].
    assert (Hin : In r (List.filter counted requests)) by (apply filter_In; auto).
    rewrite Hres in Hin. destruct Hin.
  - change (length (r0 :: rest) =? 0)%nat with false. cbv iota. split.
    + exists r0. apply filter_In. rewrite Hres. now left.
    + intros lo hi Hall.
      assert (Hin : forall r, In r (r0 :: rest) -> (lo <= resolutionTime r <= hi)%Z).
      { intros r Hr. rewrite <- Hres in Hr. apply filter_In in Hr as [Hr Hc].
        now apply Hall. }
      pose proof (totalTime_between (r0 :: rest) lo hi Hin) as Hsum.
      set (total := fold_left _ (r0 :: rest) 0%Z) in *.
      destruct (Z.of_nat (length (r0 :: rest))) as [|p|p] eqn:Hp;
        [discriminate Hp | | discriminate Hp].
      unfold Qle, Qdiv, Qmult, Qinv, inject_Z. cbn [Qnum Qden Pos.mul].
      lia.
Qed.

Lemma filter_Permutation (f : Request.t -> bool) (l l' : list Request.t) :
  Permutation l l' -> Permutation (List.filter f l) (List.filter f l').
Proof.
  induction 1 as [|x l l' _ IH|x y l|l l' l'' _ IH1 _ IH2]; cbn [List.filter].
  - constructor.
  - destruct (f x); [now constructor | exact IH].
  - destruct (f x), (f y); try reflexivity. apply perm_swap.
  - now transitivity (List.filter f l').
Qed.

Lemma totalTime_Permutation (l l' : list Request.t) :
  Permutation l l' ->
  fold_left (fun sum req => (sum + resolutionTime req)%Z) l 0%Z
  = fold_left (fun sum req => (sum + resolutionTime req)%Z) l' 0%Z.
Proof.
  induction 1 as [|x l l' _ IH|x y l|l l' l'' _ IH1 _ IH2]; cbn [fold_left].
  - reflexivity.
  - rewrite (totalTime_from l), (totalTime_from l'). now rewrite IH.
  - rewrite (totalTime_from l (0 + resolutionTime y + resolutionTime x)), (totalTime_from l (0 + resolutionTime x + resolutionTime y)). lia.
  - congruence.
Qed.

(** X11. The average resolution time does not depend on the order of the
    requests. *)
Theorem average_resolution_ignores_order (requests requests' : list Request.t) :
  Permutation requests requests' ->
  calculateAvgResolution requests = calculateAvgResolution requests'.
Proof.
  intros Hperm. unfold calculateAvgResolution.
  set (f := fun r => String.eqb (Request.status r) "RESOLVED" && present (Request.createdAt r)
                     && present (Request.updatedAt r)).
  pose proof (filter_Permutation f _ _ Hperm) as Hf.
  rewrite (Permutation_length Hf), (totalTime_Permutation _ _ Hf). reflexivity.
Qed.

(** Two resolved requests, in either order. *)
Lemma two_resolved_requests_average :
  calculateAvgResolution [resolved_request 0 3600000; resolved_request 1000 7201000]
  = calculateAvgResolution [resolved_request 1000 7201000; resolved_request 0 3600000].
Proof. apply average_resolution_ignores_order. apply perm_swap. Defined.

End RequestControllerHelpers.

(** ** Durations *)

Lemma div_bounds (a b : Z) :
  (0 < b)%Z -> (a / b * b <= a < (a / b + 1) * b)%Z.
Proof.
  intros Hb. pose proof (Z.mul_div_le a b Hb). pose proof (Z.mul_succ_div_gt a b Hb).
  lia.
Qed.

Lemma Math_floor_over (a : Z) (d : positive) :
  Math_floor (inject_Z a / inject_Z (Z.pos d)) = (a / Z.pos d)%Z.
Proof.
  unfold Math_floor, Qdiv, Qmult, Qinv, inject_Z. cbn.
  now rewrite Z.mul_1_r.
Qed.

Lemma Math_floor_thousandth (n : Z) (d : positive) :
  Math_floor ((n # d) / 1000) = (n / Z.pos (d * 1000))%Z.
Proof.
  unfold Math_floor, Qdiv, Qmult, Qinv. cbn. now rewrite Z.mul_1_r.
Qed.

(** X12. For a positive duration [formatTime] prints its two largest
    units (days and hours, hours and minutes, minutes and seconds, or
    seconds alone below a minute), the larger field not zero and the
    smaller one in its range; what is printed never exceeds the duration
    and falls short of it by less than one unit of the smaller field. *)
Theorem formatTime_two_largest_units (milliseconds : Q) :
  (0 < milliseconds)%Q ->
  exists x : Shown,
    RequestController.formatTime milliseconds = print x
    /\ in_range x
    /\ (inject_Z (shown_ms x) <= milliseconds)%Q
    /\ (milliseconds < inject_Z (shown_ms x + unit_ms x))%Q.
Proof.
  intros Hpos. unfold RequestController.formatTime.
  assert (Hnz : Qeq_bool milliseconds 0 = false).
  { destruct (Qeq_bool milliseconds 0) eqn:H; [|reflexivity].
    apply Qeq_bool_eq in H. rewrite H in Hpos. now apply Qlt_irrefl in Hpos. }
  rewrite Hnz. destruct milliseconds as [n d].
  rewrite Math_floor_thousandth.
  change 60%Q with (inject_Z (Z.pos 60)). change 24%Q with (inject_Z (Z.pos 24)).
  rewrite !Math_floor_over.
  set (seconds := (n / Z.pos (d * 1000))%Z).
  set (minutes := (seconds / 60)%Z).
  set (hours := (minutes / 60)%Z).
  set (days := (hours / 24)%Z).
  assert (Hn : (0 < n)%Z).
  { unfold Qlt in Hpos. cbn in Hpos. lia. }
  assert (Hs : (seconds * (Z.pos d * 1000) <= n < (seconds + 1) * (Z.pos d * 1000))%Z).
  { subst seconds. rewrite Pos2Z.inj_mul. apply div_bounds. lia. }
  assert (Hs0 : (0 <= seconds)%Z).
  { subst seconds. apply Z.div_pos; lia. }
  assert (Hm : (minutes * 60 <= seconds < (minutes + 1) * 60)%Z) by now apply div_bounds.
  assert (Hh : (hours * 60 <= minutes < (hours + 1) * 60)%Z) by now apply div_bounds.
  assert (Hd : (days * 24 <= hours < (days + 1) * 24)%Z) by now apply div_bounds.
  unfold Qle, Qlt. cbn [Qnum Qden inject_Z].
  pose proof (Z.mod_pos_bound hours 24 eq_refl) as Hh24.
  pose proof (Z.mod_pos_bound minutes 60 eq_refl) as Hm60.
  pose proof (Z.mod_pos_bound seconds 60 eq_refl) as Hs60.
  pose proof (Z.div_mod hours 24 ltac:(discriminate)) as Eh. fold days in Eh.
  pose proof (Z.div_mod minutes 60 ltac:(discriminate)) as Em. fold hours in Em.
  pose proof (Z.div_mod seconds 60 ltac:(discriminate)) as Es. fold minutes in Es.
  destruct (Z.ltb_spec 0 days) as [Hdays|Hdays];
    [|destruct (Z.ltb_spec 0 hours) as [Hhours|Hhours];
      [|destruct (Z.ltb_spec 0 minutes) as [Hminutes|Hminutes]]].
  - exists (DaysHours days (Z.rem hours 24)).
    rewrite Z.rem_mod_nonneg by lia. cbn [print in_range shown_ms unit_ms].
    split; [reflexivity|]. split; [lia|].
    set (r := (hours mod 24)%Z) in *. clearbody r days. nia.
  - exists (HoursMinutes hours (Z.rem minutes 60)).
    rewrite Z.rem_mod_nonneg by lia. cbn [print in_range shown_ms unit_ms].
    split; [reflexivity|]. split; [lia|].
    set (r := (minutes mod 60)%Z) in *. clearbody r days hours. nia.
  - exists (MinutesSeconds minutes (Z.rem seconds 60)).
    rewrite Z.rem_mod_nonneg by lia. cbn [print in_range shown_ms unit_ms].
    split; [reflexivity|]. split; [lia|].
    set (r := (seconds mod 60)%Z) in *. clearbody r days hours minutes. nia.
  - exists (Seconds seconds). cbn [print in_range shown_ms unit_ms].
    split; [reflexivity|]. split; [lia|]. clearbody seconds minutes hours days. nia.
Qed.

(** A day, an hour, a minute and a second. *)
Lemma formatTime_of_a_day_and_an_hour :
  exists x : Shown,
    RequestController.formatTime (90061000 # 1) = print x
    /\ in_range x
    /\ (inject_Z (shown_ms x) <= 90061000 # 1)%Q
    /\ (90061000 # 1 < inject_Z (shown_ms x + unit_ms x))%Q.
Proof. apply formatTime_two_largest_units. reflexivity. Defined.

(** ** The handlers of the request controller *)

Section Returns.
Context {S A : Type}.

Lemma returns_ret (P : A -> Prop) (a : A) : P a -> returns (S := S) P (ret a).
Proof. intros HP s a' [= <-]. exact HP. Qed.

Lemma returns_bind {B : Type} (P : A -> Prop) (m : M S B) (k : B -> M S A) :
  (forall b, returns P (k b)) -> returns P (bind m k).
Proof.
  intros Hk s a. unfold bind. destruct (m s) as [[b|e] s']; [apply Hk | discriminate].
Qed.

Lemma returns_try_catch (P : A -> Prop) (body : M S A) (handler : error -> M S A) :
  returns P body -> (forall e, returns P (handler e)) ->
  returns P (try_catch body handler).
Proof.
  intros Hb Hh s a. unfold try_catch. specialize (Hb s).
  destruct (body s) as [[b|e] s']; [|apply Hh].
  cbn. intros [= <-]. now apply Hb.
Qed.

End Returns.

Section Handlers.
Import RequestController.
Variable prisma : Services.

Lemma member_test (userId userRole : string) (request : Request.t) :
  String.eqb userRole "MEMBER" && negb (String.eqb (Request.userId request) userId) = true
  <-> foreign_to_member userId userRole request.
Proof.
  unfold foreign_to_member.
  rewrite andb_true_iff, negb_true_iff, String.eqb_eq, String.eqb_neq. reflexivity.
Qed.

Ltac goes_through :=
  repeat first [ apply returns_bind; intros ?
               | apply returns_ret; unfold went_through; eauto
               | progress cbv zeta
               | match goal with |- forall e : error, _ => intros e end ].

Lemma after_lookup (id : string) (found : option Request.t)
    (k : option Request.t -> M world Reply) (handler : error -> M world Reply)
    (w : world) :
  prisma_request_findUnique prisma id = Normal found ->
  try_catch (bind (perform (request_findUnique id)
                           (prisma_request_findUnique prisma id)) k) handler w
  = try_catch (k found) handler (called w [request_findUnique id]).
Proof. intros Hfound. unfold try_catch, bind, perform. now rewrite Hfound. Qed.

Lemma status_went_through (m : M world Reply) (handler : error -> M world Reply)
    (w : world) (c : Z) :
  returns went_through m -> (forall e, returns went_through (handler e)) ->
  status_of (try_catch m handler w).1 = Some c -> c = 200%Z.
Proof.
  intros Hm Hh.
  pose proof (returns_try_catch went_through m handler Hm Hh w) as H.
  destruct (try_catch m handler w).1 as [r|e]; [|discriminate].
  destruct (H r eq_refl) as [[body ->] | [e ->]]; cbn; congruence.
Qed.

(** The three cases of a handler that looks the request up first. *)
Ltac by_lookup Hfound userId userRole :=
  let row := fresh "row" in
  let Htest := fresh "Htest" in
  let Hfree := fresh "Hfree" in
  let Hstatus := fresh "Hstatus" in
  rewrite (after_lookup _ _ _ _ _ Hfound);
  match goal with
  | |- context [match ?found with Some _ => _ | None => _ end] =>
      destruct found as [row|]; [|split; reflexivity]
  end;
  destruct (String.eqb userRole "MEMBER"
            && negb (String.eqb (Request.userId row) userId)) eqn:Htest;
  [ apply member_test in Htest; split; [discriminate|]; split; [tauto | reflexivity]
  | assert (Hfree : ~ foreign_to_member userId userRole row)
      by (rewrite <- member_test, Htest; discriminate);
    split; [|split; [split; [|tauto] | tauto]];
      intros Hstatus; apply status_went_through in Hstatus;
      try discriminate Hstatus; goes_through ].

(** X13. [getRequest], [updateRequest] and [deleteRequest] answer 404
    exactly when the request is not found, and 403 exactly when the user
    is a MEMBER and the request is not theirs: every other role reads,
    updates and cancels any request.  After a 404 or a 403 the lookup is
    the only call that was made, and nothing was logged or emitted. *)
Theorem only_members_are_kept_from_foreign_requests
    (now : Z) (req_io : option Registry) (id userId userRole : string)
    (status description assignedToId : option string) (files : list File)
    (found : option Request.t) (w : world) :
  prisma_request_findUnique prisma id = Normal found ->
  Forall (fun answer : completion Reply * world =>
            match found with
            | None =>
                status_of answer.1 = Some 404%Z
                /\ answer.2 = called w [request_findUnique id]
            | Some request =>
                status_of answer.1 <> Some 404%Z
                /\ (status_of answer.1 = Some 403%Z
                    <-> foreign_to_member userId userRole request)
                /\ (foreign_to_member userId userRole request ->
                    answer.2 = called w [request_findUnique id])
            end)
         [ getRequest prisma id userId userRole w;
           updateRequest prisma now req_io id userId userRole
             status description assignedToId files w;
           deleteRequest prisma id userId userRole w ].
Proof.
  intros Hfound. repeat constructor.
  - unfold getRequest. by_lookup Hfound userId userRole.
  - unfold updateRequest. by_lookup Hfound userId userRole.
  - unfold deleteRequest. by_lookup Hfound userId userRole.
Qed.

Lemma bind_perform {A B : Type} (c : call) (outcome : completion A) (a : A)
    (k : A -> M world B) (w : world) :
  outcome = Normal a -> bind (perform c outcome) k w = k a (called w [c]).
Proof. intros ->. reflexivity. Qed.

Lemma bind_perform_throw {A B : Type} (c : call) (outcome : completion A) (e : error)
    (k : A -> M world B) (w : world) :
  outcome = Throw e -> bind (perform c outcome) k w = (Throw e, called w [c]).
Proof. intros ->. reflexivity. Qed.

Lemma called_called (w : world) (cs cs' : list call) :
  called (called w cs) cs' = called w (cs ++ cs').
Proof. unfold called. cbn. now rewrite <- app_assoc. Qed.

(** X14. [deleteRequest] sets the status of the request to CANCELLED before
    it records the cancellation, and undoes nothing: when the update
    record or the activity log cannot be written the handler passes the
    error on and the request stays cancelled; it answers 200 exactly
    when both are written; and it deletes no row. *)
Theorem cancellation_outlives_a_failed_record
    (id userId userRole : string) (request updated : Request.t) (w : world) :
  prisma_request_findUnique prisma id = Normal (Some request) ->
  ~ foreign_to_member userId userRole request ->
  prisma_request_update prisma id (Obj [("status", Str "CANCELLED")]) = Normal updated ->
  let answer := deleteRequest prisma id userId userRole w in
  let recorded := prisma_requestUpdate_create prisma (cancellation_record id userId) in
  let logged_ := prisma_activityLog_create prisma (cancellation_log id userId) in
  (exists rest,
      calls answer.2 = (calls w ++ request_findUnique id :: cancellation id :: rest)%list
      /\ incl rest [ requestUpdate_create (cancellation_record id userId);
                     activityLog_create (cancellation_log id userId) ])
  /\ (status_of answer.1 = Some 200%Z <-> recorded = Normal tt /\ logged_ = Normal tt)
  /\ (forall e, recorded = Throw e \/ (recorded = Normal tt /\ logged_ = Throw e) ->
       answer.1 = Normal (Next e)).
Proof.
  intros Hfound Hfree Hupdate answer recorded logged_.
  assert (Htest : String.eqb userRole "MEMBER"
                  && negb (String.eqb (Request.userId request) userId) = false).
  { destruct (_ && _) eqn:H; [|reflexivity]. now apply member_test in H. }
  subst answer. unfold deleteRequest.
  rewrite (after_lookup _ _ _ _ _ Hfound), Htest.
  unfold try_catch. rewrite (bind_perform _ _ _ _ _ Hupdate).
  fold (cancellation id) (cancellation_record id userId) (cancellation_log id userId).
  fold recorded logged_.
  unfold bind at 1, perform at 1.
  destruct recorded as [[]|e1] eqn:Hrecorded.
  - unfold bind at 1, perform at 1.
    destruct logged_ as [[]|e2] eqn:Hlogged; cbn.
    + split; [|split].
      * eexists. rewrite <- !app_assoc. split; [reflexivity|]. apply incl_refl.
      * tauto.
      * intros e [H|[_ H]]; discriminate H.
    + split; [|split].
      * eexists. rewrite <- !app_assoc. split; [reflexivity|]. apply incl_refl.
      * split; [discriminate|]. intros [_ H]. discriminate H.
      * intros e [H|[_ H]]; [discriminate H|]. now injection H as ->.
  - cbn. split; [|split].
    + eexists. rewrite <- !app_assoc. split; [reflexivity|].
      intros c [<-|[]]. now left.
    + split; [discriminate|]. intros [H _]. discriminate H.
    + intros e [H|[H _]]; [|discriminate H]. now injection H as ->.
Qed.

Lemma called_nil (w : world) : called w [] = w.
Proof. destruct w. unfold called. cbn. now rewrite app_nil_r. Qed.

Lemma bind_eq {A B : Type} (m : M world A) (k : A -> M world B) (w w' : world) (a : A) :
  m w = (Normal a, w') -> bind m k w = k a w'.
Proof. intros H. unfold bind. now rewrite H. Qed.



Lemma upload_settles (folder : string) (files : list File) (uploadedFiles : list string) :
  reliable prisma ->
  exists urls, forall w, upload prisma folder files uploadedFiles w
                         = (Normal urls, called w (uploads folder files)).
Proof.
  intros (_ & _ & _ & _ & _ & _ & _ & Hupload).
  revert uploadedFiles. induction files as [|file rest IH]; intros acc.
  - exists acc. intros w. cbn. now rewrite called_nil.
  - cbn [upload uploads flat_map]. destruct (base64 file) as [[|c b]|].
    + apply IH.
    + destruct (Hupload (String c b) folder) as [url Hurl].
      destruct (IH (acc ++ [url])%list) as [urls Hurls].
      exists urls. intros w. rewrite (bind_perform _ _ _ _ _ Hurl).
      rewrite Hurls, called_called. reflexivity.
    + apply IH.
Qed.




Variables (Number_toString : number -> string) (Function_toString : string -> string).
Variable aiService : AIService.t.
Abbreviation createRequest :=
  (createRequest Number_toString Function_toString prisma aiService).

(** X16. [createRequest] answers 400 exactly when the title, the
    description or the category is absent or empty, and then nothing was
    called, logged or emitted: the classifier was not consulted. *)
Theorem incomplete_request_is_refused_untouched
    (outcome : http_outcome) (req_io : option Registry) (userId : string)
    (title description category location address : option string)
    (files : list File) (w : world) :
  let answer := createRequest outcome req_io userId
                  title description category location address files w in
  (status_of answer.1 = Some 400%Z
   <-> truthy title && truthy description && truthy category = false)
  /\ (status_of answer.1 = Some 400%Z -> answer.2 = w).
Proof.
  intros answer. subst answer. unfold RequestController.createRequest.
  destruct title as [[|t0 t]|]; [now split | | now split].
  destruct description as [[|d0 d]|]; [now split | | now split].
  destruct category as [[|c0 c]|]; [now split | | now split].
  match goal with |- context [try_catch ?m ?h w] =>
    pose proof (returns_try_catch created_or_failed m h) as H;
    assert (Hstatus : status_of (try_catch m h w).1 <> Some 400%Z)
  end; [|now split].
  match type of H with ?A -> ?B -> _ =>
    assert (HA : A); [|assert (HB : B); [|specialize (H HA HB w)]] end.
  - repeat first [ apply returns_bind; intros ?
                 | apply returns_ret; unfold created_or_failed; eauto
                 | progress cbv zeta ].
  - intros e.
    repeat first [ apply returns_bind; intros ?
                 | apply returns_ret; unfold created_or_failed; eauto ].
  - destruct (try_catch _ _ w).1 as [r|e]; [|discriminate].
    destruct (H r eq_refl) as [[body ->] | [e ->]]; discriminate.
Qed.

Lemma bind_lift {A B : Type} (a : A) (k : A -> M world B) (w : world) :
  bind (lift (Normal a)) k w = k a w.
Proof. reflexivity. Qed.

Lemma or_address_found (x address : option string) :
  or_address x (Some address) = Normal (if truthy x then x else address).
Proof. unfold or_address. now destruct (truthy x). Qed.

Lemma bind_with_logger {A B : Type} (m : M log A) (k : A -> M world B) (w : world)
    (a : A) (lvl : level) (msg : string) :
  m (logged w) = (Normal a, (logged w ++ [(lvl, msg)])%list) ->
  bind (with_logger m) k w = k a (noted w lvl msg).
Proof. intros H. unfold bind, with_logger. now rewrite H. Qed.

Lemma get_of_a_body (body : value) (k : string) :
  ~ no_body body -> exists v, get body k = Normal v.
Proof.
  intros Hbody. destruct body; cbn; eauto.
  - contradiction Hbody. now left.
  - contradiction Hbody. now right.
  - destruct (assoc k fields); eauto.
Qed.

Lemma toFixed_of_no_number (v : value) :
  (forall x, v <> Num x) -> exists e, call_toFixed v 2 = Throw e /\ name e = "TypeError".
Proof. intros Hv. destruct v; cbn; eauto. now contradiction (Hv x). Qed.

(** X17. When the classifier answers with a body whose [score] is not a
    number, [createRequest] creates the request with that score and then
    fails with a [TypeError] on [toFixed]: the error is passed to [next],
    the creation is the last call made (no update record, notification
    or activity log follows) and nothing is emitted. *)
Theorem request_outlives_a_reply_without_score
    (body : value) (req_io : option Registry) (userId : string)
    (title description category location address : option string)
    (files : list File) (user : option string) (w : world) :
  reliable prisma ->
  prisma_user_findUnique prisma userId = Normal (Some user) ->
  truthy title && truthy description && truthy category = true ->
  ~ no_body body -> (forall x, get body "score" <> Normal (Num x)) ->
  let answer := createRequest (Resolved body) req_io userId
                  title description category location address files w in
  exists (data : value) (e : error),
    answer.1 = Normal (Next e) /\ name e = "TypeError"
    /\ calls answer.2
       = (calls w ++ [user_findUnique userId; requests_of userId]
          ++ uploads "requests" files ++ [request_create data])%list
    /\ get data "aiPriorityScore" = get body "score"
    /\ outbox answer.2 = outbox w.
Proof.
  intros Hreliable Huser Hcomplete Hbody Hscore answer.
  pose proof Hreliable as (_ & Hmany & Hcreate & _).
  destruct (upload_settles "requests" files [] Hreliable) as [urls Hurls].
  destruct (get_of_a_body body "priority" Hbody) as [p Hp].
  destruct (get_of_a_body body "score" Hbody) as [sc Hsc].
  destruct (get_of_a_body body "reason" Hbody) as [r Hr].
  destruct (get_of_a_body body "suggested_category" Hbody) as [c Hc].
  destruct (toFixed_of_no_number sc) as (e & Hfixed & Hname).
  { intros x ->. now apply (Hscore x). }
  destruct title as [[|t0 t]|]; try discriminate Hcomplete.
  destruct description as [[|d0 d]|]; try discriminate Hcomplete.
  destruct category as [[|c0 g]|]; try discriminate Hcomplete.
  subst answer. unfold RequestController.createRequest, requests_of. cbv zeta.
  unfold try_catch.
  rewrite (bind_perform _ _ _ _ _ Huser).
  match goal with |- context [prisma_request_findMany prisma ?q] =>
    destruct (Hmany q) as [rows Hrows] end.
  rewrite (bind_perform _ _ _ _ _ Hrows).
  rewrite or_address_found, bind_lift.
  erewrite bind_with_logger; cycle 1.
  { unfold prioritizeRequest, try_catch, bind, axios_post, logger_info, lift, ret.
    cbn [data]. rewrite Hp, Hsc, Hr, Hc. reflexivity. }
  rewrite (bind_eq _ _ _ _ _ (Hurls _)).
  cbn [get assoc String.eqb Ascii.eqb Bool.eqb]. rewrite !bind_lift.
  rewrite or_address_found, bind_lift.
  match goal with |- context [prisma_request_create prisma ?d] =>
    destruct (Hcreate d) as [created Hcreated]; exists d end.
  rewrite (bind_perform _ _ _ _ _ Hcreated).
  exists e. rewrite Hfixed.
  unfold bind, lift, logger, ret. cbn [fst snd calls outbox called noted].
  split; [reflexivity|]. split; [exact Hname|].
  split; [now rewrite <- !app_assoc|]. split; [|reflexivity].
  now rewrite Hsc.
Qed.






End Handlers.

(** *** Examples *)

Section HandlerExamples.
Import RequestController.

(** A MEMBER may not read the request of another user; a VOLUNTEER may
    cancel it. *)
Lemma a_member_and_the_request_of_another :
  status_of (getRequest steady_services "r1" "u2" "MEMBER" untouched).1 = Some 403%Z
  /\ status_of (deleteRequest steady_services "r1" "u2" "VOLUNTEER" untouched).1
     <> Some 403%Z.
Proof.
  split.
  - pose proof (only_members_are_kept_from_foreign_requests steady_services 0 None
                  "r1" "u2" "MEMBER" None None None [] (Some a_request) untouched eq_refl)
      as H.
    apply Forall_inv in H. destruct H as (_ & H & _). apply H.
    split; [reflexivity | discriminate].
  - pose proof (only_members_are_kept_from_foreign_requests steady_services 0 None
                  "r1" "u2" "VOLUNTEER" None None None [] (Some a_request) untouched eq_refl)
      as H.
    apply Forall_inv_tail, Forall_inv_tail, Forall_inv in H.
    destruct H as (_ & H & _). intros H403. apply H in H403 as [Hrole _].
    discriminate Hrole.
Defined.

(** The owner cancels a request while the activity log cannot be
    written: the error is passed on and the request is cancelled. *)
Lemma a_cancellation_without_its_log :
  (deleteRequest without_activity_log "r1" "u1" "MEMBER" untouched).1
  = Normal (Next connection_lost)
  /\ In (cancellation "r1")
        (calls (deleteRequest without_activity_log "r1" "u1" "MEMBER" untouched).2).
Proof.
  destruct (cancellation_outlives_a_failed_record without_activity_log
              "r1" "u1" "MEMBER" a_request a_request untouched eq_refl)
    as ((rest & Hcalls & _) & _ & Hfail).
  - intros [_ H]. now apply H.
  - reflexivity.
  - split.
    + apply Hfail. right. split; reflexivity.
    + rewrite Hcalls. right. now left.
Defined.


(** The classifier answers with an HTML page: the request is created and
    the handler fails. *)
Lemma an_html_page_for_a_classification :
  exists (data : value) (e : error),
    (createRequest no_text no_text steady_services service html_response None "u2"
       (Some "Kitchen fire") (Some "it is already out") (Some "OTHER")
       None None [] untouched).1 = Normal (Next e)
    /\ name e = "TypeError"
    /\ calls (createRequest no_text no_text steady_services service html_response None
                "u2" (Some "Kitchen fire") (Some "it is already out") (Some "OTHER")
                None None [] untouched).2
       = [user_findUnique "u2"; requests_of "u2"; request_create data].
Proof.
  destruct (request_outlives_a_reply_without_score steady_services no_text no_text service
              (Str "<html>Service unavailable</html>") None "u2"
              (Some "Kitchen fire") (Some "it is already out") (Some "OTHER")
              None None [] (Some "Purok 3") untouched)
    as (data & e & Hnext & Hname & Hcalls & _).
  - repeat split; intros; try reflexivity; eexists; reflexivity.
  - reflexivity.
  - reflexivity.
  - intros [H|H]; discriminate H.
  - intros x H. discriminate H.
  - exists data, e. split; [exact Hnext|]. split; [exact Hname|]. exact Hcalls.
Defined.


End HandlerExamples.

(** ** The list of requests *)

Section Lists.
Import RequestController.
Variable prisma : Services.

Lemma assoc_assign (k k' : string) (v : value) (fields : list (string * value)) :
  assoc k (assign k' v fields) = if String.eqb k k' then Some v else assoc k fields.
Proof.
  induction fields as [|[k0 v0] rest IH]; cbn [assign assoc].
  - reflexivity.
  - destruct (String.eqb_spec k' k0) as [->|Hne]; cbn [assoc].
    + now destruct (String.eqb k k0).
    + destruct (String.eqb_spec k k0) as [->|Hne'].
      * destruct (String.eqb_spec k0 k'); [congruence | reflexivity].
      * exact IH.
Qed.

Lemma ordinary_test (userRole : string) :
  String.eqb userRole "MEMBER" || String.eqb userRole "VOLUNTEER" = true
  <-> ordinary userRole.
Proof. unfold ordinary. now rewrite orb_true_iff, !String.eqb_eq. Qed.

Lemma privileged_test (userRole : string) :
  String.eqb userRole "ADMIN" || String.eqb userRole "MODERATOR" = true
  <-> privileged userRole.
Proof. unfold privileged. now rewrite orb_true_iff, !String.eqb_eq. Qed.

(** X19. [getRequests] counts and lists with one and the same filter.  For
    a MEMBER or a VOLUNTEER the filter holds the id of the user, whatever
    the query asks for; for an ADMIN or a MODERATOR it holds the user id
    of the query if one is given and none otherwise; and for any other
    role it holds no user id: such a user is shown the requests of
    everyone. *)
Theorem list_is_restricted_by_role
    (now : Z) (currentUserId userRole : string)
    (page limit category status priority sortBy sortOrder search
       filterUserId assignedToId : option string) (w : world) :
  let answer := getRequests prisma now currentUserId userRole page limit category
                  status priority sortBy sortOrder search filterUserId assignedToId w in
  exists (where_ : list (string * value)) (rest : list call),
    calls answer.2 = (calls w ++ request_count (Obj where_) :: rest)%list
    /\ (forall c, In c rest ->
        exists more, c = request_findMany (Obj (("where", Obj where_) :: more)))
    /\ (ordinary userRole -> assoc "userId" where_ = Some (Str currentUserId))
    /\ (privileged userRole ->
        assoc "userId" where_
        = if truthy filterUserId then Some (optional filterUserId) else None)
    /\ (~ ordinary userRole -> ~ privileged userRole -> assoc "userId" where_ = None).
Proof.
  intros answer. subst answer. unfold getRequests. cbv zeta.
  match goal with |- context [request_count (Obj ?fields)] => set (where_ := fields) end.
  exists where_.
  assert (Hwhere : assoc "userId" where_
                   = if String.eqb userRole "MEMBER" || String.eqb userRole "VOLUNTEER"
                     then Some (Str currentUserId)
                     else if truthy filterUserId
                             && (String.eqb userRole "ADMIN"
                                 || String.eqb userRole "MODERATOR")
                          then Some (optional filterUserId) else None).
  { subst where_.
    destruct (String.eqb userRole "MEMBER" || String.eqb userRole "VOLUNTEER") eqn:Ho;
      destruct (String.eqb userRole "ADMIN" || String.eqb userRole "MODERATOR") eqn:Hp;
      try (apply ordinary_test in Ho; apply privileged_test in Hp;
           destruct Ho as [-> | ->], Hp as [H|H]; discriminate H).
    all: destruct (truthy filterUserId); cbn [andb];
      destruct search as [[|c s]|]; destruct (truthy assignedToId);
      destruct (truthy priority); destruct (truthy status);
      destruct (truthy category); rewrite ?assoc_assign; reflexivity. }
  unfold try_catch, bind, perform.
  destruct (prisma_request_count prisma (Obj where_)) as [total|e]; cbn [fst snd calls].
  - match goal with |- context [prisma_request_findMany prisma ?args] =>
      destruct (prisma_request_findMany prisma args) as [requests|e] end;
      cbn [fst snd calls logger].
    all: eexists; split; [rewrite <- app_assoc; reflexivity|].
    all: split; [intros c [<-|[]]; eexists; reflexivity|].
    all: rewrite Hwhere; repeat split.
    all: try (intros Hrole; apply ordinary_test in Hrole; now rewrite Hrole).
    all: try (intros Hrole; pose proof Hrole as Hp; apply privileged_test in Hp;
              rewrite Hp, andb_true_r;
              destruct (String.eqb userRole "MEMBER" || String.eqb userRole "VOLUNTEER") eqn:Ho;
              [apply ordinary_test in Ho; destruct Ho as [-> | ->], Hrole as [H|H]; discriminate H
              |reflexivity]).
    all: intros Hno Hnp;
      destruct (String.eqb userRole "MEMBER" || String.eqb userRole "VOLUNTEER") eqn:Ho;
      [now apply ordinary_test in Ho|];
      destruct (String.eqb userRole "ADMIN" || String.eqb userRole "MODERATOR") eqn:Hp;
      [now apply privileged_test in Hp | now rewrite andb_false_r].
  - exists []. split; [reflexivity|]. split; [intros c []|].
    rewrite Hwhere; repeat split.
    all: try (intros Hrole; apply ordinary_test in Hrole; now rewrite Hrole).
    all: try (intros Hrole; pose proof Hrole as Hp; apply privileged_test in Hp;
              rewrite Hp, andb_true_r;
              destruct (String.eqb userRole "MEMBER" || String.eqb userRole "VOLUNTEER") eqn:Ho;
              [apply ordinary_test in Ho; destruct Ho as [-> | ->], Hrole as [H|H]; discriminate H
              |reflexivity]).
    all: intros Hno Hnp;
      destruct (String.eqb userRole "MEMBER" || String.eqb userRole "VOLUNTEER") eqn:Ho;
      [now apply ordinary_test in Ho|];
      destruct (String.eqb userRole "ADMIN" || String.eqb userRole "MODERATOR") eqn:Hp;
      [now apply privileged_test in Hp | now rewrite andb_false_r].
Qed.


End Lists.


(** ** The statistics of requests *)

Section Statistics.
Import RequestController.
Variable prisma : Services.

Lemma filter_counted (rows : list Request.t) :
  Forall (fun r => counted r = true) rows ->
  List.filter (fun r => String.eqb (Request.status r) "RESOLVED"
                        && present (Request.createdAt r)
                        && present (Request.updatedAt r)) rows = rows.
Proof.
  induction 1 as [|r rows Hr _ IH]; [reflexivity|].
  cbn [List.filter]. unfold counted in Hr. rewrite Hr. now rewrite IH.
Qed.

(** X21. [getRequestStats] opens with one transaction of a count, three
    groupings and the monthly trend, all under one filter, and goes on
    with at most a query for the resolved requests under the same
    filter.  For a MEMBER or a VOLUNTEER the filter is the id of the
    user, also in the raw query unless the id is empty; for every other
    role there is no filter at all. *)
Theorem statistics_are_restricted_by_role
    (stats : completion Stats) (userId userRole : string) (w : world) :
  exists where_ condition rest,
    calls (getRequestStats prisma stats userId userRole w).2
    = (calls w ++ transaction [ Count (Obj where_);
                                GroupBy "status" (Obj where_);
                                GroupBy "category" (Obj where_);
                                GroupBy "priority" (Obj where_);
                                QueryRaw condition ] :: rest)%list
    /\ (forall c, In c rest ->
          exists more, c = request_findMany (Obj [("where", Obj (where_ ++ more)%list)]))
    /\ (ordinary userRole ->
          where_ = [("userId", Str userId)]
          /\ condition = match userId with
                         | EmptyString => None
                         | String _ _ => Some userId
                         end)
    /\ (~ ordinary userRole -> where_ = [] /\ condition = None).
Proof.
  unfold getRequestStats, try_catch, bind, perform.
  destruct (String.eqb userRole "MEMBER" || String.eqb userRole "VOLUNTEER") eqn:Hrole;
    cbn [assign assoc String.eqb Ascii.eqb Bool.eqb andb].
  - apply ordinary_test in Hrole.
    destruct stats as [st|e]; cbn [fst snd calls].
    + match goal with |- context [prisma_request_findMany prisma ?args] =>
        destruct (prisma_request_findMany prisma args) as [rows|e] end;
        cbn [fst snd calls logger].
      all: do 3 eexists; split; [rewrite <- app_assoc; reflexivity|].
      all: split; [intros c [<-|[]]; eexists; reflexivity|].
      all: split; [intros _; split; [reflexivity | now destruct userId]|].
      all: intros Hno; now destruct Hno.
    + do 3 eexists. split; [reflexivity|]. split; [intros c []|].
      split; [intros _; split; [reflexivity | now destruct userId]|].
      intros Hno; now destruct Hno.
  - assert (Hno : ~ ordinary userRole)
      by (intros H; apply ordinary_test in H; congruence).
    destruct stats as [st|e]; cbn [fst snd calls].
    + match goal with |- context [prisma_request_findMany prisma ?args] =>
        destruct (prisma_request_findMany prisma args) as [rows|e] end;
        cbn [fst snd calls logger].
      all: do 3 eexists; split; [rewrite <- app_assoc; reflexivity|].
      all: split; [intros c [<-|[]]; eexists; reflexivity|].
      all: split; [intros H; now destruct Hno | intros _; split; reflexivity].
    + do 3 eexists. split; [reflexivity|]. split; [intros c []|].
      split; [intros H; now destruct Hno | intros _; split; reflexivity].
Qed.

(** X22. When the rows found are resolved requests with both dates, as the
    query asks, the average that [getRequestStats] shows is the one of
    [calculateAvgResolution], printed by [formatTime]; with no row it
    shows N/A. *)
Theorem statistics_average_is_that_of_the_helper
    (st : Stats) (userId userRole : string) (rows : list Request.t) (w : world) :
  (forall args, prisma_request_findMany prisma args = Normal rows) ->
  Forall (fun r => counted r = true) rows ->
  exists data,
    (getRequestStats prisma (Normal st) userId userRole w).1
    = Normal (Json 200
                (Obj [ ("success", Bool true);
                       ("data",
                        Obj (data
                             ++ [("avgResolutionTime",
                                  Str match calculateAvgResolution rows with
                                      | Some average => formatTime average
                                      | None => "N/A"
                                      end)])%list) ])).
Proof.
  intros Hrows Hcounted.
  unfold getRequestStats, try_catch, bind, perform. cbn [fst snd].
  rewrite Hrows. cbn [fst snd logger ret].
  eexists [_; _; _; _; _]. cbn [app]. do 6 f_equal.
  unfold calculateAvgResolution. rewrite (filter_counted _ Hcounted).
  destruct rows as [|r rows']; [reflexivity|].
  reflexivity.
Qed.

End Statistics.

(** Two requests resolved after one hour and after three. *)
Lemma statistics_of_two_resolved_requests :
  exists data,
    (RequestController.getRequestStats
       (finding [resolved_request 0 3600000; resolved_request 0 10800000])
       (Normal some_stats) "u1" "ADMIN" untouched).1
    = Normal (RequestController.Json 200
                (Obj [ ("success", Bool true);
                       ("data", Obj (data ++ [("avgResolutionTime", Str "2h 0m")])%list) ])).
Proof.
  destruct (statistics_average_is_that_of_the_helper
              (finding [resolved_request 0 3600000; resolved_request 0 10800000])
              some_stats "u1" "ADMIN"
              [resolved_request 0 3600000; resolved_request 0 10800000] untouched)
    as [data H].
  - intros args. reflexivity.
  - repeat constructor.
  - exists data. exact H.
Defined.

(** ** The authentication of requests *)

Section Authentication.
Variables (jwt_verify : string -> completion Socket.Decoded).

Ltac by_cases :=
  repeat match goal with
         | |- context [match ?x with _ => _ end] => destruct x eqn:?; cbn
         end.

Ltac answered := eexists; split; [reflexivity | cbv beta iota; lia].

(** X23. [authMiddleware] never fails: it answers 401, 403 or 500, or it
    calls [next].  It calls [next] only for a header that starts with
    [Bearer ] and whose second word is a token that verifies, of a user
    who is found, verified and not deactivated; [req.user] is then the
    user of the token. *)
Theorem authentication_passes_live_users_only
    (user_findUnique : string -> completion (option Socket.UserRow))
    (authorization : option string) (l : log) :
  exists outcome,
    (Auth.authMiddleware jwt_verify user_findUnique authorization l).1 = Normal outcome
    /\ match outcome with
       | Auth.Next req_user =>
           exists authHeader token decoded row,
             authorization = Some authHeader
             /\ startsWith authHeader "Bearer " = true
             /\ Auth.token_of authHeader = Some token
             /\ token <> ""
             /\ jwt_verify token = Normal decoded
             /\ user_findUnique (Socket.decoded_userId decoded) = Normal (Some row)
             /\ Socket.isVerified row = true
             /\ Socket.isActive row <> Some false
             /\ req_user = Some (request_user decoded)
       | Auth.Json statusCode _ =>
           statusCode = 401%Z \/ statusCode = 403%Z \/ statusCode = 500%Z
       end.
Proof.
  unfold Auth.authMiddleware, try_catch, bind, lift, ret, throw, Auth.logger, Auth.refuse.
  destruct authorization as [[|c h]|]; cbn [fst]; try (now answered).
  destruct (startsWith (String c h) "Bearer ") eqn:Hbearer; cbn [negb];
    try (now answered).
  destruct (Auth.token_of (String c h)) as [[|t0 t]|] eqn:Htoken;
    try (now answered).
  destruct (jwt_verify (String t0 t)) as [decoded|e] eqn:Hverify.
  - destruct (user_findUnique (Socket.decoded_userId decoded)) as [[row|]|e] eqn:Huser;
      try (now answered).
    destruct (Socket.isVerified row) eqn:Hverified; cbn [negb];
      try (now answered).
    destruct (Socket.isActive row) as [[|]|] eqn:Hactive;
      try (now answered);
      (eexists; split; [reflexivity|];
       exists (String c h), (String t0 t), decoded, row;
       repeat split; try assumption; congruence).
  - destruct (String.eqb (name e) "TokenExpiredError");
      [answered|].
    destruct (String.eqb (name e) "JsonWebTokenError");
      answered.
Qed.

Lemma split_spaceless (token : string) :
  spaceless token -> split " " token = [token].
Proof.
  unfold spaceless. induction token as [|a t IH]; [reflexivity|].
  cbn [includes startsWith split]. rewrite Ascii.eqb_sym.
  destruct (Ascii.eqb a " "); [discriminate|].
  cbn [andb orb]. intros H. now rewrite (IH H).
Qed.

Lemma token_of_bearer (token : string) :
  spaceless token -> Auth.token_of ("Bearer " ++ token) = Some token.
Proof.
  intros H. unfold Auth.token_of.
  change ("Bearer " ++ token)
    with (String "B" (String "e" (String "a" (String "r" (String "e" (String "r"
           (String " " token))))))).
  cbn [split Ascii.eqb Bool.eqb]. now rewrite (split_spaceless _ H).
Qed.

(** X24. A token without a blank is accepted in the header
    [Bearer <token>] of a request exactly when it is accepted in the
    handshake of a socket, and for the same user. *)
Theorem request_and_socket_accept_alike
    (user_findUnique : string -> completion (option Socket.UserRow))
    (token : string) (query_token : option string) (l : log) (s : Socket.state)
    (u : Auth.User) (v : Socket.User) :
  token <> "" -> spaceless token -> same_user u v ->
  (Auth.authMiddleware jwt_verify user_findUnique (Some ("Bearer " ++ token)) l).1
  = Normal (Auth.Next (Some u))
  <-> (Socket.io_use jwt_verify user_findUnique (Some token) query_token s).1
      = Normal (Socket.Accepted v).
Proof.
  intros Hsome Hspace (Hid & Hemail & Hrole).
  unfold Auth.authMiddleware, Socket.io_use.
  change ("Bearer " ++ token) with (String "B" ("earer " ++ token)).
  cbv beta iota zeta.
  change (String "B" ("earer " ++ token)) with ("Bearer " ++ token).
  rewrite (token_of_bearer _ Hspace).
  destruct token as [|t0 t]; [congruence|].
  cbn [startsWith append Ascii.eqb Bool.eqb andb negb Socket.or_token].
  unfold try_catch, bind, lift, ret, throw, Auth.logger, Socket.logger, Auth.refuse.
  destruct (jwt_verify (String t0 t)) as [decoded|e].
  - destruct (user_findUnique (Socket.decoded_userId decoded)) as [[row|]|e];
      cbn [fst]; try (split; discriminate).
    destruct (Socket.isVerified row); cbn [negb orb]; try (split; discriminate).
    destruct (Socket.isActive row) as [[|]|]; cbn [fst]; try (split; discriminate).
    all: destruct u, v; cbn in Hid, Hemail, Hrole; subst; split; intros H;
      injection H as <- <- <-; reflexivity.
  - cbn [fst].
    destruct (String.eqb (name e) "TokenExpiredError"); [split; discriminate|].
    destruct (String.eqb (name e) "JsonWebTokenError"); split; discriminate.
Qed.

(** X25. [optionalAuth] always calls [next].  It recognises every user
    that [authMiddleware] lets pass; and a user it recognises is let
    pass by [authMiddleware] too, unless the account is deactivated,
    which [optionalAuth] does not look at, or the token is the empty
    word after [Bearer ], which [authMiddleware] refuses unverified. *)
Theorem optional_authentication_overlooks_deactivation
    (user_findUnique : string -> completion (option Socket.UserRow))
    (authorization : option string) (l l' : log) :
  (forall req_user, exists user,
      (Auth.optionalAuth jwt_verify user_findUnique authorization req_user l').1
      = Normal (Auth.Next user))
  /\ (forall req_user u,
        (Auth.authMiddleware jwt_verify user_findUnique authorization l).1
        = Normal (Auth.Next (Some u)) ->
        (Auth.optionalAuth jwt_verify user_findUnique authorization req_user l').1
        = Normal (Auth.Next (Some u)))
  /\ (forall u,
        (Auth.optionalAuth jwt_verify user_findUnique authorization None l').1
        = Normal (Auth.Next (Some u)) ->
        (Auth.authMiddleware jwt_verify user_findUnique authorization l).1
        = Normal (Auth.Next (Some u))
        \/ (Auth.authMiddleware jwt_verify user_findUnique authorization l).1
           = Normal (Auth.refuse 403 "Account is deactivated")
        \/ (exists authHeader,
               authorization = Some authHeader
               /\ Auth.token_of authHeader = Some ""
               /\ (Auth.authMiddleware jwt_verify user_findUnique authorization l).1
                  = Normal (Auth.refuse 401 "No token provided"))).
Proof.
  split; [|split].
  - intros req_user.
    unfold Auth.optionalAuth, try_catch, bind, lift, ret, throw, Auth.logger.
    destruct authorization as [[|c h]|]; cbn [fst]; eauto.
    destruct (startsWith (String c h) "Bearer "); cbn [fst]; eauto.
    destruct (Auth.token_of (String c h)) as [token|]; cbn [fst]; eauto.
    destruct (jwt_verify token) as [decoded|e]; cbn [fst]; eauto.
    destruct (user_findUnique (Socket.decoded_userId decoded)) as [[row|]|e];
      cbn [fst]; eauto.
    destruct (Socket.isVerified row); cbn [fst]; eauto.
  - intros req_user u.
    unfold Auth.authMiddleware, Auth.optionalAuth, try_catch, bind, lift, ret, throw,
      Auth.logger.
    destruct authorization as [[|c h]|]; cbn [fst]; try discriminate.
    destruct (startsWith (String c h) "Bearer "); cbn [negb fst]; try discriminate.
    destruct (Auth.token_of (String c h)) as [[|t0 t]|]; cbn [fst]; try discriminate.
    destruct (jwt_verify (String t0 t)) as [decoded|e]; cbn [fst].
    + destruct (user_findUnique (Socket.decoded_userId decoded)) as [[row|]|e];
        cbn [fst]; try discriminate.
      destruct (Socket.isVerified row); cbn [negb fst]; try discriminate.
      destruct (Socket.isActive row) as [[|]|]; cbn [fst]; try discriminate; auto.
    + destruct (String.eqb (name e) "TokenExpiredError"); [discriminate|].
      destruct (String.eqb (name e) "JsonWebTokenError"); discriminate.
  - intros u.
    unfold Auth.authMiddleware, Auth.optionalAuth, try_catch, bind, lift, ret, throw,
      Auth.logger.
    destruct authorization as [[|c h]|]; cbn [fst]; try discriminate.
    destruct (startsWith (String c h) "Bearer "); cbn [negb fst]; try discriminate.
    destruct (Auth.token_of (String c h)) as [[|t0 t]|] eqn:Htoken; cbn [fst];
      try discriminate.
    + intros _. right. right. exists (String c h). repeat split. exact Htoken.
    + destruct (jwt_verify (String t0 t)) as [decoded|e]; cbn [fst]; try discriminate.
      destruct (user_findUnique (Socket.decoded_userId decoded)) as [[row|]|e];
        cbn [fst]; try discriminate.
      destruct (Socket.isVerified row); cbn [negb fst]; try discriminate.
      destruct (Socket.isActive row) as [[|]|]; cbn [fst]; auto.
Qed.

(** X26. The three middlewares read of the table of users only whether
    the user is found, verified and active: tables that agree on that
    give the same outcome, whatever the role and the email they hold. *)
Theorem stored_role_is_not_consulted
    (users users' : string -> completion (option Socket.UserRow))
    (authorization auth_token query_token : option string)
    (req_user : option Auth.User) (l : log) (s : Socket.state) :
  same_standing users users' ->
  Auth.authMiddleware jwt_verify users authorization l
  = Auth.authMiddleware jwt_verify users' authorization l
  /\ Auth.optionalAuth jwt_verify users authorization req_user l
     = Auth.optionalAuth jwt_verify users' authorization req_user l
  /\ Socket.io_use jwt_verify users auth_token query_token s
     = Socket.io_use jwt_verify users' auth_token query_token s.
Proof.
  intros Hsame.
  pose proof Hsame as Hrow. unfold same_standing in Hrow.
  unfold Auth.authMiddleware, Auth.optionalAuth, Socket.io_use, try_catch, bind, lift,
    ret, throw.
  repeat split.
  - destruct authorization as [[|c h]|]; try reflexivity.
    destruct (negb (startsWith (String c h) "Bearer ")); [reflexivity|].
    destruct (Auth.token_of (String c h)) as [[|t0 t]|]; try reflexivity.
    destruct (jwt_verify (String t0 t)) as [decoded|e].
    + specialize (Hrow (Socket.decoded_userId decoded)).
      destruct (users (Socket.decoded_userId decoded)) as [[row|]|e],
               (users' (Socket.decoded_userId decoded)) as [[row'|]|e'];
        try contradiction; try reflexivity; [|now subst].
      destruct Hrow as [-> ->]. reflexivity.
    + destruct (String.eqb (name e) "TokenExpiredError"); [reflexivity|].
      destruct (String.eqb (name e) "JsonWebTokenError"); reflexivity.
  - destruct authorization as [[|c h]|]; try reflexivity.
    destruct (startsWith (String c h) "Bearer "); [|reflexivity].
    destruct (Auth.token_of (String c h)) as [token|]; [|reflexivity].
    destruct (jwt_verify token) as [decoded|e]; [|reflexivity].
    specialize (Hrow (Socket.decoded_userId decoded)).
    destruct (users (Socket.decoded_userId decoded)) as [[row|]|e],
             (users' (Socket.decoded_userId decoded)) as [[row'|]|e'];
      try contradiction; try reflexivity; [|now subst].
    destruct Hrow as [-> _]. reflexivity.
  - destruct (Socket.or_token auth_token query_token) as [[|c t]|]; try reflexivity.
    destruct (jwt_verify (String c t)) as [decoded|e]; [|reflexivity].
    specialize (Hrow (Socket.decoded_userId decoded)).
    destruct (users (Socket.decoded_userId decoded)) as [[row|]|e],
             (users' (Socket.decoded_userId decoded)) as [[row'|]|e'];
      try contradiction; try reflexivity; [|now subst].
    destruct Hrow as [-> ->]. reflexivity.
Qed.

Lemma passed_by_token
    (user_findUnique : string -> completion (option Socket.UserRow))
    (authorization : option string) (l : log) (req_user : option Auth.User) :
  (Auth.authMiddleware jwt_verify user_findUnique authorization l).1
  = Normal (Auth.Next req_user) ->
  exists token decoded,
    jwt_verify token = Normal decoded /\ req_user = Some (request_user decoded).
Proof.
  unfold Auth.authMiddleware, try_catch, bind, lift, ret, throw, Auth.logger.
  destruct authorization as [[|c h]|]; cbn [fst]; try discriminate.
  destruct (startsWith (String c h) "Bearer "); cbn [negb fst]; try discriminate.
  destruct (Auth.token_of (String c h)) as [[|t0 t]|]; cbn [fst]; try discriminate.
  destruct (jwt_verify (String t0 t)) as [decoded|e] eqn:Hverify; cbn [fst].
  - destruct (user_findUnique (Socket.decoded_userId decoded)) as [[row|]|e];
      cbn [fst]; try discriminate.
    destruct (Socket.isVerified row); cbn [negb fst]; try discriminate.
    destruct (Socket.isActive row) as [[|]|]; cbn [fst]; try discriminate;
      intros [= <-]; eauto.
  - destruct (String.eqb (name e) "TokenExpiredError"); [discriminate|].
    destruct (String.eqb (name e) "JsonWebTokenError"); discriminate.
Qed.

(** X27. After [authMiddleware] has let a request pass, [authorize(...roles)]
    calls [next] when the role of the token is one of [roles] and
    answers 403 when it is not: it never answers 401 then, and the role
    that counts is the one in the token. *)
Theorem authorization_goes_by_the_role_of_the_token
    (user_findUnique : string -> completion (option Socket.UserRow))
    (authorization : option string) (l : log) (roles : list string)
    (req_user : option Auth.User) :
  (Auth.authMiddleware jwt_verify user_findUnique authorization l).1
  = Normal (Auth.Next req_user) ->
  exists token decoded,
    jwt_verify token = Normal decoded
    /\ req_user = Some (request_user decoded)
    /\ (In (Socket.decoded_role decoded) roles ->
        Auth.authorize roles req_user = Auth.Next req_user)
    /\ (~ In (Socket.decoded_role decoded) roles ->
        Auth.authorize roles req_user = Auth.refuse 403 "Insufficient permissions").
Proof.
  intros H.
  destruct (passed_by_token _ _ _ _ H) as (token & decoded & Hverify & ->).
  exists token, decoded. split; [exact Hverify|]. split; [reflexivity|].
  unfold Auth.authorize. cbn [request_user Auth.role].
  destruct (existsb (String.eqb (Socket.decoded_role decoded)) roles) eqn:Hin; cbn [negb].
  - split; [reflexivity|]. intros Hnot. exfalso. apply Hnot.
    apply existsb_exists in Hin as (r & Hr & Heq).
    apply String.eqb_eq in Heq. now subst.
  - split; [|reflexivity]. intros Hin'. exfalso.
    assert (existsb (String.eqb (Socket.decoded_role decoded)) roles = true)
      by (apply existsb_exists; eexists; split; [exact Hin' | apply String.eqb_refl]).
    congruence.
Qed.

End Authentication.

(** The token of last week in a header and in a handshake. *)
Lemma a_token_in_a_header_and_in_a_handshake :
  (Auth.authMiddleware old_token demoted_user (Some "Bearer signed-last-week") []).1
  = Normal (Auth.Next (Some demoted_requester))
  /\ (io_use old_token demoted_user (Some "signed-last-week") None initial).1
     = Normal (Accepted demoted_admin).
Proof.
  split; [reflexivity|].
  apply (request_and_socket_accept_alike old_token demoted_user "signed-last-week"
           None [] initial demoted_requester demoted_admin);
    [discriminate | reflexivity | repeat split | reflexivity].
Defined.

(** The demotion of a user changes nothing for a token signed before. *)
Lemma a_demotion_goes_unnoticed :
  Auth.authMiddleware old_token user_before (Some "Bearer signed-last-week") []
  = Auth.authMiddleware old_token demoted_user (Some "Bearer signed-last-week") [].
Proof.
  apply (stored_role_is_not_consulted old_token user_before demoted_user
           (Some "Bearer signed-last-week") None None None [] initial).
  intros userId. unfold user_before, demoted_user.
  destruct (String.eqb userId "u7"); [split; reflexivity | exact I].
Defined.

(** The demoted user passes [authorize('ADMIN')]. *)
Lemma a_demoted_administrator_is_authorized :
  Auth.authorize ["ADMIN"] (Some demoted_requester) = Auth.Next (Some demoted_requester).
Proof.
  destruct (authorization_goes_by_the_role_of_the_token old_token demoted_user
              (Some "Bearer signed-last-week") [] ["ADMIN"] (Some demoted_requester)
              eq_refl)
    as (token & decoded & _ & Hu & Hin & _).
  apply Hin. injection Hu as _ _ <-. now left.
Defined.
